(** * The LOCI generic object layer ([of_object.c])

    A shallow embedding of the low level object operators of LOCI: the
    objects are views (offset, length) into a wire buffer that several
    objects share, so the embedding keeps an explicit store of object
    structs, wire-buffer structs and byte blocks, addressed by pointers,
    and every C function becomes a computation in a state-and-failure
    monad over that store.

    The embedding is of the configuration in which [LOCI_ASSERT] is active
    ([NDEBUG] not defined): this is the configuration in which the
    iteration counter of [of_object_parent_length_update] exists, and the
    one in which a violated assertion is fatal. *)

From Stdlib Require Import ZArith Lia List Bool.
From stdpp Require Import base option list gmap.

Local Open Scope Z_scope.

(** ** C integers *)

(** [int] is a 32-bit two's complement integer; arithmetic on it is
    written with its wrap-around. *)
Definition INT_MAX : Z := 2147483647.
Definition INT_MIN : Z := -2147483648.

Definition int_wrap (z : Z) : Z := (z + 2147483648) mod 4294967296 - 2147483648.
Definition int_add (a b : Z) : Z := int_wrap (a + b).
Definition int_sub (a b : Z) : Z := int_wrap (a - b).

Definition int_range (z : Z) : Prop := INT_MIN <= z <= INT_MAX.

(** [uint32_t] values. *)
Definition UINT32_MODULUS : Z := 4294967296.
Definition u32_wrap (z : Z) : Z := z mod UINT32_MODULUS.

(** ** Pointers, status codes and structs *)

(** A pointer is an address in one of the three stores; [NULL] is [None]
    of [option ptr].  A function pointer is the address of a function. *)
Definition ptr : Type := positive.
Definition fn_ptr : Type := positive.

(** Modelled from the spec: the status codes of [of_error_t], of which
    the functions of this file return [Success], [InvalidArgument],
    [ResourceExhausted], [OutOfRange] and [ParseError]. *)
Inductive of_error_t : Type :=
  | OF_ERROR_NONE
  | OF_ERROR_RESOURCE
  | OF_ERROR_PARAM
  | OF_ERROR_RANGE
  | OF_ERROR_PARSE.

Definition of_object_id_t : Type := Z.
Definition of_version_t : Type := Z.

(** [of_wire_buffer_t], with the fields [of_object.c] uses and, from the
    spec, the optional release callback of a bound buffer: the byte
    region, its allocated size, the number of bytes in use. *)
Record of_wire_buffer_t : Type := {
  buf : option ptr;
  alloc_bytes : Z;
  current_bytes : Z;
  free : option fn_ptr
}.

(** [of_wire_object_t], with the fields [of_object.c] uses: the part of
    an object that locates it in a wire buffer. *)
Record of_wire_object_t : Type := {
  wbuf : option ptr;
  obj_offset : Z;
  owned : Z
}.

(** [of_object_t], with the fields [of_object.c] uses.  [delete_cb] is
    [track_info.delete_cb]. *)
Record of_object_t : Type := {
  version : of_version_t;
  length : Z;
  object_id : of_object_id_t;
  parent : option ptr;
  wire_length_get : option fn_ptr;
  wire_length_set : option fn_ptr;
  wire_type_get : option fn_ptr;
  wire_type_set : option fn_ptr;
  wire_object : of_wire_object_t;
  delete_cb : option fn_ptr
}.

(** [MEMSET(obj, 0, sizeof( *obj))]. *)
Definition zero_wire_object : of_wire_object_t :=
  {| wbuf := None; obj_offset := 0; owned := 0 |}.

Definition zero_object : of_object_t :=
  {| version := 0; length := 0; object_id := 0; parent := None;
     wire_length_get := None; wire_length_set := None;
     wire_type_get := None; wire_type_set := None;
     wire_object := zero_wire_object; delete_cb := None |}.

(** Field assignments. *)
Definition set_length (o : of_object_t) (l : Z) : of_object_t :=
  {| version := version o; length := l; object_id := object_id o;
     parent := parent o;
     wire_length_get := wire_length_get o; wire_length_set := wire_length_set o;
     wire_type_get := wire_type_get o; wire_type_set := wire_type_set o;
     wire_object := wire_object o; delete_cb := delete_cb o |}.

Definition set_object_id (o : of_object_t) (id : of_object_id_t) : of_object_t :=
  {| version := version o; length := length o; object_id := id;
     parent := parent o;
     wire_length_get := wire_length_get o; wire_length_set := wire_length_set o;
     wire_type_get := wire_type_get o; wire_type_set := wire_type_set o;
     wire_object := wire_object o; delete_cb := delete_cb o |}.

Definition set_parent (o : of_object_t) (p : option ptr) : of_object_t :=
  {| version := version o; length := length o; object_id := object_id o;
     parent := p;
     wire_length_get := wire_length_get o; wire_length_set := wire_length_set o;
     wire_type_get := wire_type_get o; wire_type_set := wire_type_set o;
     wire_object := wire_object o; delete_cb := delete_cb o |}.

Definition set_wire_object (o : of_object_t) (w : of_wire_object_t) : of_object_t :=
  {| version := version o; length := length o; object_id := object_id o;
     parent := parent o;
     wire_length_get := wire_length_get o; wire_length_set := wire_length_set o;
     wire_type_get := wire_type_get o; wire_type_set := wire_type_set o;
     wire_object := w; delete_cb := delete_cb o |}.

Definition set_current_bytes (b : of_wire_buffer_t) (n : Z) : of_wire_buffer_t :=
  {| buf := buf b; alloc_bytes := alloc_bytes b; current_bytes := n;
     free := free b |}.

(** ** The store *)

(** The memory the functions work on: the object structs, the wire-buffer
    structs and the byte blocks, each addressed by pointers, and the
    number of allocations that will still succeed ([MALLOC] returns [NULL]
    once it is used up). *)
Record state : Type := {
  objs : gmap ptr of_object_t;
  wbufs : gmap ptr of_wire_buffer_t;
  blocks : gmap ptr (list Z);
  avail : nat
}.

(** How a run can end without a result: a [LOCI_ASSERT] that fails, or
    behaviour C leaves undefined (a null or dangling pointer is
    dereferenced, memory is accessed outside its block).  A fault carries
    the store in which it happened, that is, everything the run had
    written before it stopped. *)
Inductive fault : Type :=
  | AssertionFailure (s : state)
  | UndefinedBehaviour (s : state).

Inductive result (A : Type) : Type :=
  | Ret (a : A) (s : state)
  | Fail (f : fault).
Arguments Ret {A} a s.
Arguments Fail {A} f.

Definition M (A : Type) : Type := state -> result A.

Definition ret {A} (a : A) : M A := fun s => Ret a s.
Definition fail {A} (f : state -> fault) : M A := fun s => Fail (f s).
Definition bind {A B} (m : M A) (k : A -> M B) : M B :=
  fun s => match m s with
           | Ret a s' => k a s'
           | Fail f => Fail f
           end.

Notation "'do' x <- m ; k" := (bind m (fun x => k))
  (at level 10, x name, m at level 100, k at level 200).

(** ** What the file takes from the rest of LOCI

    The accessors an object carries as function pointers, the generated
    tables and three macros are not part of [of_object.c].  They are
    parameters of the embedding.  An accessor reads or writes the wire
    bytes of the object it is called on; an initializer stamps the object
    struct. *)
Class Externals : Type := {
  (** [obj->wire_length_get(obj, &length)] *)
  wire_length_get_fn : fn_ptr -> of_object_t -> list Z -> Z;
  (** [obj->wire_length_set(obj, length)] *)
  wire_length_set_fn : fn_ptr -> of_object_t -> Z -> list Z -> list Z;
  (** [obj->wire_type_get(obj, &id)] *)
  wire_type_get_fn : fn_ptr -> of_object_t -> list Z -> of_object_id_t;
  (** [obj->wire_type_set(obj)] *)
  wire_type_set_fn : fn_ptr -> of_object_t -> list Z -> list Z;
  (** [of_object_init_map[id](obj, version, bytes, clean_wire)] *)
  of_object_init_map :
    of_object_id_t -> of_object_t -> of_version_t -> Z -> Z -> of_object_t;
  (** [of_object_fixed_len[version][id]] *)
  of_object_fixed_len : of_version_t -> of_object_id_t -> Z;
  (** [of_wire_id_valid(id, base_object_id)] *)
  of_wire_id_valid : of_object_id_t -> of_object_id_t -> bool;
  (** [obj->track_info.delete_cb(obj)] *)
  delete_cb_fn : fn_ptr -> ptr -> M unit;
  (** the release function of a bound buffer, applied to the bytes *)
  buf_free_fn : fn_ptr -> option ptr -> M unit;
  (** the condition of [OF_LENGTH_CHECK_ASSERT(obj)] *)
  OF_LENGTH_CHECK : state -> ptr -> bool;
  (** [OF_MESSAGE_XID_OFFSET] *)
  OF_MESSAGE_XID_OFFSET : Z
}.

(** ** Memory operations *)

Definition with_objs (s : state) (m : gmap ptr of_object_t) : state :=
  {| objs := m; wbufs := wbufs s; blocks := blocks s; avail := avail s |}.
Definition with_wbufs (s : state) (m : gmap ptr of_wire_buffer_t) : state :=
  {| objs := objs s; wbufs := m; blocks := blocks s; avail := avail s |}.
Definition with_blocks (s : state) (m : gmap ptr (list Z)) : state :=
  {| objs := objs s; wbufs := wbufs s; blocks := m; avail := avail s |}.

(** Dereferencing a pointer that may be [NULL]. *)
Definition nonnull {A} (p : option A) : M A :=
  match p with
  | Some a => ret a
  | None => fail UndefinedBehaviour
  end.

Definition load_obj (p : ptr) : M of_object_t :=
  fun s => match objs s !! p with
           | Some o => Ret o s
           | None => Fail (UndefinedBehaviour s)
           end.

Definition store_obj (p : ptr) (o : of_object_t) : M unit :=
  fun s => match objs s !! p with
           | Some _ => Ret tt (with_objs s (<[p := o]> (objs s)))
           | None => Fail (UndefinedBehaviour s)
           end.

Definition load_wbuf (p : ptr) : M of_wire_buffer_t :=
  fun s => match wbufs s !! p with
           | Some b => Ret b s
           | None => Fail (UndefinedBehaviour s)
           end.

Definition store_wbuf (p : ptr) (b : of_wire_buffer_t) : M unit :=
  fun s => match wbufs s !! p with
           | Some _ => Ret tt (with_wbufs s (<[p := b]> (wbufs s)))
           | None => Fail (UndefinedBehaviour s)
           end.

Definition load_block (p : ptr) : M (list Z) :=
  fun s => match blocks s !! p with
           | Some b => Ret b s
           | None => Fail (UndefinedBehaviour s)
           end.

Definition store_block (p : ptr) (b : list Z) : M unit :=
  fun s => match blocks s !! p with
           | Some _ => Ret tt (with_blocks s (<[p := b]> (blocks s)))
           | None => Fail (UndefinedBehaviour s)
           end.

(** [MALLOC] does not clear the memory it returns.  What a fresh struct
    holds is indeterminate; here it holds a struct that differs from the
    cleared one in every field, so that only a [MEMSET] makes it
    [zero_object]. *)
Definition uninitialized_object : of_object_t :=
  {| version := -1; length := -1; object_id := -1; parent := Some 1%positive;
     wire_length_get := Some 1%positive; wire_length_set := Some 1%positive;
     wire_type_get := Some 1%positive; wire_type_set := Some 1%positive;
     wire_object := {| wbuf := Some 1%positive; obj_offset := -1; owned := -1 |};
     delete_cb := Some 1%positive |}.

(** [MALLOC(sizeof(of_object_t))]: [NULL] when no allocation is left. *)
Definition MALLOC_obj : M (option ptr) :=
  fun s => match avail s with
           | O => Ret None s
           | S n =>
             let p := fresh (dom (objs s)) in
             Ret (Some p)
                 {| objs := <[p := uninitialized_object]> (objs s);
                    wbufs := wbufs s; blocks := blocks s; avail := n |}
           end.

Definition zero_wire_buffer : of_wire_buffer_t :=
  {| buf := None; alloc_bytes := 0; current_bytes := 0; free := None |}.

Definition uninitialized_wire_buffer : of_wire_buffer_t :=
  {| buf := Some 1%positive; alloc_bytes := -1; current_bytes := -1;
     free := Some 1%positive |}.

Definition MALLOC_wbuf : M (option ptr) :=
  fun s => match avail s with
           | O => Ret None s
           | S n =>
             let p := fresh (dom (wbufs s)) in
             Ret (Some p)
                 {| objs := objs s;
                    wbufs := <[p := uninitialized_wire_buffer]> (wbufs s);
                    blocks := blocks s; avail := n |}
           end.

(** A block of [bytes] bytes, cleared. *)
Definition MALLOC_block (bytes : Z) : M (option ptr) :=
  fun s => match avail s with
           | O => Ret None s
           | S n =>
             let p := fresh (dom (blocks s)) in
             Ret (Some p)
                 {| objs := objs s; wbufs := wbufs s;
                    blocks := <[p := replicate (Z.to_nat bytes) 0]> (blocks s);
                    avail := n |}
           end.

Definition FREE_obj (p : ptr) : M unit :=
  fun s => match objs s !! p with
           | Some _ => Ret tt (with_objs s (delete p (objs s)))
           | None => Fail (UndefinedBehaviour s)
           end.

Definition FREE_wbuf (p : ptr) : M unit :=
  fun s => match wbufs s !! p with
           | Some _ => Ret tt (with_wbufs s (delete p (wbufs s)))
           | None => Fail (UndefinedBehaviour s)
           end.

Definition FREE_block (p : ptr) : M unit :=
  fun s => match blocks s !! p with
           | Some _ => Ret tt (with_blocks s (delete p (blocks s)))
           | None => Fail (UndefinedBehaviour s)
           end.

(** Modelled from the spec: [LOCI_ASSERT(cond)]; a violated assertion is
    "a programming-contract violation (fatal assertion), not a recoverable
    error". *)
Definition LOCI_ASSERT (cond : bool) : M unit :=
  if cond then ret tt else fail AssertionFailure.

(** Bytes [off .. off + |data|) of a block replaced by [data]. *)
Definition write_bytes (off : nat) (data : list Z) (block : list Z) : list Z :=
  take off block ++ data ++ drop (off + List.length data) block.

(** Bytes [off .. off + n) of a block. *)
Definition read_bytes (off n : nat) (block : list Z) : list Z :=
  take n (drop off block).

(** [MEMCPY(dst + doff, src + soff, n)] between two blocks; copying
    outside either block, or a negative count, is undefined. *)
Definition MEMCPY (dst : ptr) (doff : Z) (src : ptr) (soff : Z) (n : Z) : M unit :=
  do sb <- load_block src;
  do db <- load_block dst;
  if (0 <=? n) && (0 <=? soff) && (0 <=? doff)
     && (soff + n <=? Z.of_nat (List.length sb))
     && (doff + n <=? Z.of_nat (List.length db))
  then store_block dst
         (write_bytes (Z.to_nat doff)
            (read_bytes (Z.to_nat soff) (Z.to_nat n) sb) db)
  else fail UndefinedBehaviour.

(** The big-endian bytes of a 32-bit value and back. *)
Definition u32_to_bytes (v : Z) : list Z :=
  [v / 16777216 mod 256; v / 65536 mod 256; v / 256 mod 256; v mod 256].

Definition u32_of_bytes (bs : list Z) : Z :=
  match bs with
  | [b0; b1; b2; b3] => ((b0 * 256 + b1) * 256 + b2) * 256 + b3
  | _ => 0
  end.

(** ** The wire buffer ([of_wire_buffer.h]) *)

(** Modelled from the spec: [of_wire_buffer_new], the spec's
    [allocate(capacity)]: "creates an owned, zero-initialized region of at
    least [capacity] bytes", failing when an allocation fails.  No byte of
    the fresh region is in use yet. *)
Definition of_wire_buffer_new (bytes : Z) : M (option ptr) :=
  do w <- MALLOC_wbuf;
  match w with
  | None => ret None
  | Some w =>
    do b <- MALLOC_block bytes;
    match b with
    | None => do _ <- FREE_wbuf w; ret None
    | Some b =>
      do _ <- store_wbuf w {| buf := Some b; alloc_bytes := bytes;
                              current_bytes := 0; free := None |};
      ret (Some w)
    end
  end.

(** Modelled from the spec: [of_wire_buffer_new_bind], the spec's
    [bind(bytes, length, release_callback?)]: "wraps externally owned
    memory; [bytes] must be non-null and [length > 0]"; the buffer does
    not copy.  The C function returns the buffer or [NULL]. *)
Definition of_wire_buffer_new_bind (buffer : option ptr) (bytes : Z)
    (buf_free : option fn_ptr) : M (option ptr) :=
  match buffer with
  | None => ret None
  | Some b =>
    if bytes <=? 0 then ret None
    else
      do w <- MALLOC_wbuf;
      match w with
      | None => ret None
      | Some w =>
        do _ <- store_wbuf w {| buf := Some b; alloc_bytes := bytes;
                                current_bytes := bytes; free := buf_free |};
        ret (Some w)
      end
  end.

(** Modelled from the spec: [of_wire_buffer_free]: "an owning delete frees
    its buffer (invoking the release callback if borrowed)". *)
Definition of_wire_buffer_free `{Externals} (w : option ptr) : M unit :=
  match w with
  | None => ret tt
  | Some w =>
    do wb <- load_wbuf w;
    do _ <- match free wb with
            | Some f => buf_free_fn f (buf wb)
            | None =>
              match buf wb with
              | Some b => FREE_block b
              | None => ret tt
              end
            end;
    FREE_wbuf w
  end.

(** Modelled from the spec: [of_wire_buffer_grow], the spec's
    [grow(target_length)]: "ensures [allocated_capacity >= target_length],
    reallocating and copying existing bytes if necessary; always preserves
    previously written content; updates
    [current_length = max(current_length, target_length)]". *)
Definition of_wire_buffer_grow (w : option ptr) (bytes : Z) : M unit :=
  do w <- nonnull w;
  do wb <- load_wbuf w;
  do _ <- (if alloc_bytes wb <? bytes then
             do b <- nonnull (buf wb);
             do bs <- load_block b;
             do _ <- store_block b
                       (bs ++ replicate (Z.to_nat (bytes - alloc_bytes wb)) 0);
             store_wbuf w {| buf := buf wb; alloc_bytes := bytes;
                             current_bytes := current_bytes wb;
                             free := free wb |}
           else ret tt);
  do wb <- load_wbuf w;
  if current_bytes wb <? bytes then store_wbuf w (set_current_bytes wb bytes)
  else ret tt.

(** Modelled from the spec: [of_wire_buffer_steal], the spec's [steal()]:
    "returns the raw owned region to the caller and disowns the buffer". *)
Definition of_wire_buffer_steal (w : option ptr) : M (option ptr) :=
  do w <- nonnull w;
  do wb <- load_wbuf w;
  do _ <- store_wbuf w {| buf := None; alloc_bytes := alloc_bytes wb;
                          current_bytes := current_bytes wb; free := free wb |};
  ret (buf wb).

(** The bounds check of the 32-bit accessors: the four bytes at [offset]
    lie in the bytes in use. *)
Definition u32_in_bounds (wb : of_wire_buffer_t) (offset : Z) : bool :=
  (0 <=? offset) && (offset + 4 <=? current_bytes wb).

(** Modelled from the spec: [of_wire_buffer_u32_set], the spec's
    [write_u32]: "at an absolute byte offset, big-endian; bounds-checked
    against [current_length], fails with Param/Resource on out-of-range
    access".  A failed write touches no byte. *)
Definition of_wire_buffer_u32_set (w : ptr) (offset : Z) (value : Z)
    : M of_error_t :=
  do wb <- load_wbuf w;
  if u32_in_bounds wb offset then
    do b <- nonnull (buf wb);
    do bs <- load_block b;
    if offset + 4 <=? Z.of_nat (List.length bs) then
      do _ <- store_block b
                (write_bytes (Z.to_nat offset) (u32_to_bytes value) bs);
      ret OF_ERROR_NONE
    else fail UndefinedBehaviour
  else ret OF_ERROR_PARAM.

(** Modelled from the spec: [of_wire_buffer_u32_get], the spec's
    [read_u32], bounds-checked like the write.  The second component is
    the content of [*value] after the call, [value0] being its content
    before; a failed read leaves it. *)
Definition of_wire_buffer_u32_get (w : ptr) (offset : Z) (value0 : Z)
    : M (of_error_t * Z) :=
  do wb <- load_wbuf w;
  if u32_in_bounds wb offset then
    do b <- nonnull (buf wb);
    do bs <- load_block b;
    if offset + 4 <=? Z.of_nat (List.length bs) then
      ret (OF_ERROR_NONE, u32_of_bytes (read_bytes (Z.to_nat offset) 4 bs))
    else fail UndefinedBehaviour
  else ret (OF_ERROR_PARAM, value0).

(** ** The macros of [of_object.h] *)

(** Modelled from the spec: [OF_OBJECT_ABSOLUTE_OFFSET(obj, offset)], the
    object's offset in its buffer plus [offset]
    ([parent.byte_offset + new_len] in the spec's [can_grow]). *)
Definition OF_OBJECT_ABSOLUTE_OFFSET (o : of_object_t) (offset : Z) : Z :=
  int_add (obj_offset (wire_object o)) offset.

(** Modelled from the spec: [OF_OBJECT_TO_WBUF(obj)], the object's wire
    buffer reference, null when "the object has no bound buffer". *)
Definition OF_OBJECT_TO_WBUF (o : of_object_t) : option ptr :=
  wbuf (wire_object o).

(** The block an object's wire bytes live in, the base of
    [OF_OBJECT_BUFFER_INDEX(obj, 0)]. *)
Definition object_block (obj : ptr) : M ptr :=
  do o <- load_obj obj;
  do w <- nonnull (wbuf (wire_object o));
  do wb <- load_wbuf w;
  nonnull (buf wb).

(** Calls through the accessor pointers of an object. *)
Definition call_wire_length_set `{Externals} (f : fn_ptr) (obj : ptr) (len : Z)
    : M unit :=
  do o <- load_obj obj;
  do b <- object_block obj;
  do bs <- load_block b;
  store_block b (wire_length_set_fn f o len bs).

Definition call_wire_type_set `{Externals} (f : fn_ptr) (obj : ptr) : M unit :=
  do o <- load_obj obj;
  do b <- object_block obj;
  do bs <- load_block b;
  store_block b (wire_type_set_fn f o bs).

Definition call_wire_length_get `{Externals} (f : fn_ptr) (obj : ptr) : M Z :=
  do o <- load_obj obj;
  do b <- object_block obj;
  do bs <- load_block b;
  ret (wire_length_get_fn f o bs).

Definition call_wire_type_get `{Externals} (f : fn_ptr) (obj : ptr)
    : M of_object_id_t :=
  do o <- load_obj obj;
  do b <- object_block obj;
  do bs <- load_block b;
  ret (wire_type_get_fn f o bs).

(** [OF_LENGTH_CHECK_ASSERT(obj)] *)
Definition OF_LENGTH_CHECK_ASSERT `{Externals} (obj : ptr) : M unit :=
  fun s => LOCI_ASSERT (OF_LENGTH_CHECK s obj) s.

(** ** The functions of [of_object.c] *)

(** [of_object_new(bytes)] *)
Definition of_object_new (bytes : Z) : M (option ptr) :=
  do obj <- MALLOC_obj;
  match obj with
  | None => ret None
  | Some obj =>
    do _ <- store_obj obj zero_object;
    if 0 <? bytes then
      do w <- of_wire_buffer_new bytes;
      match w with
      | None => do _ <- FREE_obj obj; ret None
      | Some w =>
        do o <- load_obj obj;
        do _ <- store_obj obj
                  (set_wire_object o {| wbuf := Some w;
                                        obj_offset := obj_offset (wire_object o);
                                        owned := 1 |});
        ret (Some obj)
      end
    else ret (Some obj)
  end.

(** [of_object_delete(obj)] *)
Definition of_object_delete `{Externals} (obj : option ptr) : M unit :=
  match obj with
  | None => ret tt
  | Some obj =>
    do o <- load_obj obj;
    do _ <- match delete_cb o with
            | Some cb => delete_cb_fn cb obj
            | None => ret tt
            end;
    do o <- load_obj obj;
    do _ <- (if owned (wire_object o) =? 0 then ret tt
             else of_wire_buffer_free (wbuf (wire_object o)));
    FREE_obj obj
  end.

(** [of_object_dup(src)] *)
Definition of_object_dup `{Externals} (src : ptr) : M (option ptr) :=
  do dst <- MALLOC_obj;
  match dst with
  | None => ret None
  | Some dst =>
    do _ <- store_obj dst zero_object;
    do so <- load_obj src;
    do w <- of_wire_buffer_new (length so);
    match w with
    | None => do _ <- FREE_obj dst; ret None
    | Some w =>
      do o <- load_obj dst;
      do _ <- store_obj dst
                (set_wire_object o {| wbuf := Some w;
                                      obj_offset := obj_offset (wire_object o);
                                      owned := 1 |});
      do so <- load_obj src;
      do o <- load_obj dst;
      do _ <- store_obj dst
                (of_object_init_map (object_id so) o (version so) (length so) 0);
      do db <- object_block dst;
      do o <- load_obj dst;
      do sb <- object_block src;
      do so <- load_obj src;
      do _ <- MEMCPY db (OF_OBJECT_ABSOLUTE_OFFSET o 0)
                     sb (OF_OBJECT_ABSOLUTE_OFFSET so 0) (length so);
      ret (Some dst)
    end
  end.

(** [of_object_buffer_bind(obj, buf, bytes, buf_free)] *)
Definition of_object_buffer_bind (obj : ptr) (buffer : option ptr) (bytes : Z)
    (buf_free : option fn_ptr) : M of_error_t :=
  do _ <- LOCI_ASSERT (bool_decide (buffer <> None));
  do _ <- LOCI_ASSERT (0 <? bytes);
  do o <- load_obj obj;
  do _ <- store_obj obj (set_wire_object o zero_wire_object);
  do w <- of_wire_buffer_new_bind buffer bytes buf_free;
  match w with
  | None => ret OF_ERROR_RESOURCE
  | Some w =>
    do o <- load_obj obj;
    do _ <- store_obj obj
              (set_wire_object o {| wbuf := Some w;
                                    obj_offset := obj_offset (wire_object o);
                                    owned := 1 |});
    do o <- load_obj obj;
    do _ <- store_obj obj (set_length o bytes);
    ret OF_ERROR_NONE
  end.

(** [object_child_attach(parent, child, offset, bytes)] *)
Definition object_child_attach (parent child : ptr) (offset bytes : Z) : M unit :=
  do co <- load_obj child;
  do _ <- store_obj child (set_parent co (Some parent));
  do po <- load_obj parent;
  let w := wbuf (wire_object po) in
  do co <- load_obj child;
  do _ <- store_obj child
            (set_wire_object co
               {| wbuf := w;
                  obj_offset := int_add (obj_offset (wire_object po)) offset;
                  owned := 0 |});
  if 0 <? bytes then
    do po <- load_obj parent;
    let tot_bytes := int_add (int_add (obj_offset (wire_object po)) offset) bytes in
    do _ <- of_wire_buffer_grow w tot_bytes;
    do co <- load_obj child;
    store_obj child (set_length co bytes)
  else ret tt.

(** [of_object_can_grow(obj, new_len)] *)
Definition of_object_can_grow (obj : ptr) (new_len : Z) : M bool :=
  do o <- load_obj obj;
  do w <- nonnull (wbuf (wire_object o));
  do wb <- load_wbuf w;
  ret (OF_OBJECT_ABSOLUTE_OFFSET o new_len <=? alloc_bytes wb).

(** [of_object_xid_set(obj, xid)] *)
Definition of_object_xid_set `{Externals} (obj : ptr) (xid : Z) : M of_error_t :=
  do o <- load_obj obj;
  match OF_OBJECT_TO_WBUF o with
  | None => ret OF_ERROR_PARAM
  | Some w =>
    do _ <- of_wire_buffer_u32_set w
              (OF_OBJECT_ABSOLUTE_OFFSET o OF_MESSAGE_XID_OFFSET) (u32_wrap xid);
    ret OF_ERROR_NONE
  end.

(** [of_object_xid_get(obj, &xid)]: the status and the content of [*xid]
    after the call, [xid0] being its content before. *)
Definition of_object_xid_get `{Externals} (obj : ptr) (xid0 : Z)
    : M (of_error_t * Z) :=
  do o <- load_obj obj;
  match OF_OBJECT_TO_WBUF o with
  | None => ret (OF_ERROR_PARAM, xid0)
  | Some w =>
    do r <- of_wire_buffer_u32_get w
              (OF_OBJECT_ABSOLUTE_OFFSET o OF_MESSAGE_XID_OFFSET) xid0;
    ret (OF_ERROR_NONE, snd r)
  end.

Definition _MAX_PARENT_ITERATIONS : Z := 4.

(** The loop of [of_object_parent_length_update]; [count] is the debug
    counter.  The assertion on [count] stops the loop after
    [_MAX_PARENT_ITERATIONS] objects, which bounds the recursion. *)
Fixpoint parent_length_update_loop `{Externals} (fuel : nat) (obj : option ptr)
    (delta count : Z) : M unit :=
  match obj with
  | None => ret tt
  | Some p =>
    match fuel with
    | O => fail AssertionFailure
    | S fuel =>
      do _ <- LOCI_ASSERT (count <? _MAX_PARENT_ITERATIONS);
      do o <- load_obj p;
      do _ <- store_obj p (set_length o (int_add (length o) delta));
      do o <- load_obj p;
      do _ <- match wire_length_set o with
              | Some f => call_wire_length_set f p (length o)
              | None => ret tt
              end;
      do o <- load_obj p;
      do w <- nonnull (wbuf (wire_object o));
      do wb <- load_wbuf w;
      do _ <- LOCI_ASSERT
                (int_add (length o) (obj_offset (wire_object o))
                 <=? current_bytes wb);
      do _ <- (if parent o is None then
                 LOCI_ASSERT
                   (int_add (length o) (obj_offset (wire_object o))
                    =? current_bytes wb)
               else ret tt);
      parent_length_update_loop fuel (parent o) delta (int_add count 1)
    end
  end.

(** [of_object_parent_length_update(obj, delta)] *)
Definition of_object_parent_length_update `{Externals} (obj : option ptr)
    (delta : Z) : M unit :=
  parent_length_update_loop (S (Z.to_nat _MAX_PARENT_ITERATIONS)) obj delta 0.

(** [of_list_append_bind(parent, child)] *)
Definition of_list_append_bind `{Externals} (parent child : option ptr)
    : M of_error_t :=
  match parent, child with
  | Some p, Some c =>
    do po <- load_obj p;
    if wbuf (wire_object po) is None then ret OF_ERROR_PARAM
    else
      do co <- load_obj c;
      do ok <- of_object_can_grow p (int_add (length po) (length co));
      if negb ok then ret OF_ERROR_RESOURCE
      else
        do _ <- object_child_attach p c (length po) (length co);
        do co <- load_obj c;
        do _ <- match wire_length_set co with
                | Some f => call_wire_length_set f c (length co)
                | None => ret tt
                end;
        do co <- load_obj c;
        do _ <- match wire_type_set co with
                | Some f => call_wire_type_set f c
                | None => ret tt
                end;
        do co <- load_obj c;
        do _ <- of_object_parent_length_update (Some p) (length co);
        do _ <- OF_LENGTH_CHECK_ASSERT p;
        ret OF_ERROR_NONE
  | _, _ => ret OF_ERROR_PARAM
  end.

(** [of_list_first(parent, child)] *)
Definition of_list_first (parent child : ptr) : M of_error_t :=
  do po <- load_obj parent;
  if length po =? 0 then ret OF_ERROR_RANGE
  else
    do _ <- object_child_attach parent child 0 0;
    ret OF_ERROR_NONE.

(** [of_list_is_last(parent, child)] *)
Definition of_list_is_last (parent child : ptr) : M bool :=
  do co <- load_obj child;
  do po <- load_obj parent;
  ret (int_add (obj_offset (wire_object po)) (length po)
       <=? int_add (obj_offset (wire_object co)) (length co)).

(** [of_list_next(parent, child)] *)
Definition of_list_next (parent child : ptr) : M of_error_t :=
  do co <- load_obj child;
  do _ <- LOCI_ASSERT (0 <? length co);
  do last <- of_list_is_last parent child;
  if last then ret OF_ERROR_RANGE
  else
    do co <- load_obj child;
    do po <- load_obj parent;
    let offset :=
      int_add (int_sub (obj_offset (wire_object co)) (obj_offset (wire_object po)))
              (length co) in
    do _ <- object_child_attach parent child offset 0;
    ret OF_ERROR_NONE.

(** [of_object_wire_buffer_steal(obj, &buffer)]: the result is the content
    of [*buffer] after the call. *)
Definition of_object_wire_buffer_steal (obj : option ptr) : M (option ptr) :=
  do _ <- LOCI_ASSERT (bool_decide (obj <> None));
  do obj <- nonnull obj;
  do o <- load_obj obj;
  do buffer <- of_wire_buffer_steal (wbuf (wire_object o));
  do o <- load_obj obj;
  do _ <- store_obj obj
            (set_wire_object o {| wbuf := None;
                                  obj_offset := obj_offset (wire_object o);
                                  owned := owned (wire_object o) |});
  ret buffer.

(** The second half of [of_object_wire_init]: the length is taken from
    the wire, or from the table of fixed lengths. *)
Definition wire_init_length `{Externals} (obj : ptr)
    (base_object_id : of_object_id_t) (max_len : Z) : M of_error_t :=
  do o <- load_obj obj;
  match wire_length_get o with
  | Some g =>
    do len <- call_wire_length_get g obj;
    if (len <? 0) || ((0 <? max_len) && (max_len <? len)) then ret OF_ERROR_PARSE
    else
      do o <- load_obj obj;
      do _ <- store_obj obj (set_length o len);
      ret OF_ERROR_NONE
  | None =>
    do o <- load_obj obj;
    do _ <- store_obj obj
              (set_length o (of_object_fixed_len (version o) base_object_id));
    ret OF_ERROR_NONE
  end.

(** [of_object_wire_init(obj, base_object_id, max_len)] *)
Definition of_object_wire_init `{Externals} (obj : ptr)
    (base_object_id : of_object_id_t) (max_len : Z) : M of_error_t :=
  do o <- load_obj obj;
  match wire_type_get o with
  | Some f =>
    do id <- call_wire_type_get f obj;
    if negb (of_wire_id_valid id base_object_id) then ret OF_ERROR_PARSE
    else
      do o <- load_obj obj;
      do _ <- store_obj obj (set_object_id o id);
      do o <- load_obj obj;
      do _ <- store_obj obj (of_object_init_map id o (version o) (-1) 0);
      wire_init_length obj base_object_id max_len
  | None => wire_init_length obj base_object_id max_len
  end.

(** ** The other functions of [of_object.c] *)

(** [of_list_append(list, item)] *)
Definition of_list_append `{Externals} (lst item : ptr) : M of_error_t :=
  do lo <- load_obj lst;
  do io <- load_obj item;
  let new_len := int_add (length lo) (length io) in
  do ok <- of_object_can_grow lst new_len;
  if negb ok then ret OF_ERROR_RESOURCE
  else
    do lo <- load_obj lst;
    do _ <- of_wire_buffer_grow (wbuf (wire_object lo))
              (OF_OBJECT_ABSOLUTE_OFFSET lo new_len);
    do lb <- object_block lst;
    do lo <- load_obj lst;
    do ib <- object_block item;
    do io <- load_obj item;
    do _ <- MEMCPY lb (OF_OBJECT_ABSOLUTE_OFFSET lo (length lo))
                   ib (OF_OBJECT_ABSOLUTE_OFFSET io 0) (length io);
    do io <- load_obj item;
    do _ <- of_object_parent_length_update (Some lst) (length io);
    do _ <- OF_LENGTH_CHECK_ASSERT lst;
    ret OF_ERROR_NONE.

(** What the two message constructors take from the rest of LOCI: the
    reader of the version byte of a message, the test of a version, the
    validator, the reader of the object id in the header of a bound
    object, and the release function given to buffers bound to messages. *)
Class MessageExternals : Type := {
  (** [of_message_version_get(msg)] *)
  of_message_version_get : list Z -> of_version_t;
  (** [OF_VERSION_OKAY(version)] *)
  OF_VERSION_OKAY : of_version_t -> bool;
  (** [of_validate_message(msg, len)] *)
  of_validate_message : list Z -> Z -> Z;
  (** [of_header_wire_object_id_get(obj, &object_id)] *)
  of_header_wire_object_id_get : of_object_t -> list Z -> of_object_id_t;
  (** [OF_MESSAGE_FREE_FUNCTION] *)
  OF_MESSAGE_FREE_FUNCTION : option fn_ptr
}.

Definition set_version (o : of_object_t) (v : of_version_t) : of_object_t :=
  {| version := v; length := length o; object_id := object_id o;
     parent := parent o;
     wire_length_get := wire_length_get o; wire_length_set := wire_length_set o;
     wire_type_get := wire_type_get o; wire_type_set := wire_type_set o;
     wire_object := wire_object o; delete_cb := delete_cb o |}.

(** Modelled from the spec: the test [status < 0] on a status code; every
    status but [Success] is an error. *)
Definition of_error_negative (e : of_error_t) : bool :=
  match e with
  | OF_ERROR_NONE => false
  | _ => true
  end.

Definition call_header_wire_object_id_get `{MessageExternals} (obj : ptr)
    : M of_object_id_t :=
  do o <- load_obj obj;
  do b <- object_block obj;
  do bs <- load_block b;
  ret (of_header_wire_object_id_get o bs).

(** [of_object_new_from_message(msg, len)]; [OF_MESSAGE_TO_BUFFER(msg)] is
    the message itself, as in [of_object_new_from_message_preallocated]. *)
Definition of_object_new_from_message `{Externals} `{MessageExternals}
    (msg : option ptr) (len : Z) : M (option ptr) :=
  do m <- nonnull msg;
  do bs <- load_block m;
  let version := of_message_version_get bs in
  if negb (OF_VERSION_OKAY version) then ret None
  else if negb (of_validate_message bs len =? 0) then ret None
  else
    do obj <- of_object_new (-1);
    match obj with
    | None => ret None
    | Some obj =>
      do r <- of_object_buffer_bind obj msg len OF_MESSAGE_FREE_FUNCTION;
      if of_error_negative r then do _ <- FREE_obj obj; ret None
      else
        do o <- load_obj obj;
        do _ <- store_obj obj (set_version o version);
        do object_id <- call_header_wire_object_id_get obj;
        do o <- load_obj obj;
        do _ <- store_obj obj (of_object_init_map object_id o version len 0);
        ret (Some obj)
    end.

(** [of_object_new_from_message_preallocated(storage, buf, len)]; the
    storage is the pair of its members [storage->obj] and
    [storage->wbuf]. *)
Definition of_object_new_from_message_preallocated `{Externals}
    `{MessageExternals} (storage_obj storage_wbuf : ptr) (buffer : option ptr)
    (len : Z) : M (option ptr) :=
  do _ <- store_obj storage_obj zero_object;
  do _ <- store_wbuf storage_wbuf zero_wire_buffer;
  do m <- nonnull buffer;
  do bs <- load_block m;
  let version := of_message_version_get bs in
  if negb (OF_VERSION_OKAY version) then ret None
  else if negb (of_validate_message bs len =? 0) then ret None
  else
    do o <- load_obj storage_obj;
    do _ <- store_obj storage_obj (set_version o version);
    do o <- load_obj storage_obj;
    do _ <- store_obj storage_obj
              (set_wire_object o {| wbuf := Some storage_wbuf;
                                    obj_offset := obj_offset (wire_object o);
                                    owned := owned (wire_object o) |});
    do wb <- load_wbuf storage_wbuf;
    do _ <- store_wbuf storage_wbuf
              {| buf := buffer; alloc_bytes := len; current_bytes := len;
                 free := free wb |};
    do object_id <- call_header_wire_object_id_get storage_obj;
    do o <- load_obj storage_obj;
    do _ <- store_obj storage_obj (of_object_init_map object_id o version len 0);
    ret (Some storage_obj).

(** ** Vocabulary of the statements *)

(** The wire buffer and the byte block an object points to. *)
Definition buffer_of (s : state) (o : of_object_t) : option of_wire_buffer_t :=
  match wbuf (wire_object o) with
  | Some w => wbufs s !! w
  | None => None
  end.

Definition block_of (s : state) (o : of_object_t) : option ptr :=
  match buffer_of s o with
  | Some wb => buf wb
  | None => None
  end.

(** The object at [obj] followed by its ancestors, when following at most
    [n] parent pointers ends at the root. *)
Fixpoint ancestors (n : nat) (s : state) (obj : option ptr) : option (list ptr) :=
  match obj with
  | None => Some []
  | Some p =>
    match n with
    | O => None
    | S n =>
      match objs s !! p with
      | None => None
      | Some o =>
        match ancestors n s (parent o) with
        | Some l => Some (p :: l)
        | None => None
        end
      end
    end
  end.

(** The spec's length propagation, one object: "add [delta] to its
    [byte_length], and if the object has a registered length-writer,
    persist the new length into its wire bytes". *)
Definition persist_length `{Externals} (s : state) (o : of_object_t) : state :=
  match wire_length_set o, block_of s o with
  | Some f, Some b =>
    match blocks s !! b with
    | Some bs =>
      with_blocks s (<[b := wire_length_set_fn f o (length o) bs]> (blocks s))
    | None => s
    end
  | _, _ => s
  end.

Definition add_length_delta `{Externals} (delta : Z) (s : state) (p : ptr) : state :=
  match objs s !! p with
  | Some o =>
    let o' := set_length o (length o + delta) in
    persist_length (with_objs s (<[p := o']> (objs s))) o'
  | None => s
  end.

(** The spec's [propagate_length_delta] along a chain: "for [obj] and each
    ancestor up the parent chain". *)
Definition propagate_length_delta `{Externals} (l : list ptr) (delta : Z)
    (s : state) : state :=
  foldl (add_length_delta delta) s l.

(** Invariants 1 and 2 of the spec for the object at [p]:
    [byte_offset + byte_length <= current_length], and equality for a
    root. *)
Definition length_check (s : state) (p : ptr) : bool :=
  match objs s !! p with
  | Some o =>
    match buffer_of s o with
    | Some wb =>
      (obj_offset (wire_object o) + length o <=? current_bytes wb)
      && (if parent o is None
          then obj_offset (wire_object o) + length o =? current_bytes wb
          else true)
    | None => false
    end
  | None => false
  end.

(** The length-writer of the object at [p], if it has one, has bytes to
    write to. *)
Definition writer_target (s : state) (p : ptr) : bool :=
  match objs s !! p with
  | Some o =>
    match wire_length_set o with
    | Some _ =>
      match block_of s o with
      | Some b => bool_decide (is_Some (blocks s !! b))
      | None => false
      end
    | None => true
    end
  | None => false
  end.

(** No [int] overflows when [delta] is added to the length of the object
    at [p]. *)
Definition fits_int (s : state) (delta : Z) (p : ptr) : bool :=
  match objs s !! p with
  | Some o =>
    (0 <=? obj_offset (wire_object o)) && (0 <=? length o)
    && (obj_offset (wire_object o) + length o + delta <=? INT_MAX)
  | None => false
  end.

(** The spec's child attach, within the allocated size of the buffer:
    the child gets the parent as parent, the parent's buffer and the
    offset [parent.byte_offset + rel], and never owns the buffer; with
    [reserve > 0] the bytes in use are extended to hold
    [parent.byte_offset + rel + reserve] and the child's length is
    [reserve]. *)
Definition reserve_bytes (s : state) (w : option ptr) (tot : Z) : state :=
  match w with
  | Some w =>
    match wbufs s !! w with
    | Some wb =>
      if current_bytes wb <? tot
      then with_wbufs s (<[w := set_current_bytes wb tot]> (wbufs s))
      else s
    | None => s
    end
  | None => s
  end.

Definition attach_child (s : state) (p c : ptr) (rel reserve : Z) : state :=
  match objs s !! p, objs s !! c with
  | Some po, Some co =>
    let co1 :=
      set_wire_object (set_parent co (Some p))
        {| wbuf := wbuf (wire_object po);
           obj_offset := obj_offset (wire_object po) + rel;
           owned := 0 |} in
    if 0 <? reserve
    then reserve_bytes (with_objs s (<[c := set_length co1 reserve]> (objs s)))
           (wbuf (wire_object po))
           (obj_offset (wire_object po) + rel + reserve)
    else with_objs s (<[c := co1]> (objs s))
  | _, _ => s
  end.

(** The child persists its own tags: its length, then its type, through
    the accessors it has. *)
Definition persist_type `{Externals} (s : state) (o : of_object_t) : state :=
  match wire_type_set o, block_of s o with
  | Some f, Some b =>
    match blocks s !! b with
    | Some bs => with_blocks s (<[b := wire_type_set_fn f o bs]> (blocks s))
    | None => s
    end
  | _, _ => s
  end.

Definition persist_tags `{Externals} (s : state) (c : ptr) : state :=
  match objs s !! c with
  | Some co => persist_type (persist_length s co) co
  | None => s
  end.

(** The checks [of_object_parent_length_update] makes along a chain. *)
Definition chain_checks (s : state) (l : list ptr) : bool :=
  forallb (fun p => writer_target s p && length_check s p) l.


(** ** A sample instance

    A concrete choice of the external functions and a small store, on
    which the statements below are exercised: messages and list elements
    carry a 16-bit type at offset 0 and a 16-bit length at offset 2, both
    big-endian; a message is 8 bytes of header followed by a list. *)
Definition u16_to_bytes (v : Z) : list Z :=
  [v / 256 mod 256; v mod 256].

Definition u16_of_bytes (bs : list Z) : Z :=
  match bs with
  | [b0; b1] => b0 * 256 + b1
  | _ => 0
  end.

Definition sample_init (id : of_object_id_t) (o : of_object_t)
    (v : of_version_t) (bytes clean_wire : Z) : of_object_t :=
  {| version := v; length := if bytes <? 0 then 8 else bytes; object_id := id;
     parent := parent o;
     wire_length_get := Some 1%positive; wire_length_set := Some 1%positive;
     wire_type_get := Some 1%positive; wire_type_set := Some 1%positive;
     wire_object := if clean_wire =? 0 then wire_object o else zero_wire_object;
     delete_cb := delete_cb o |}.

Definition sample_externals : Externals := {|
  wire_length_get_fn _ o bs :=
    u16_of_bytes (read_bytes (Z.to_nat (obj_offset (wire_object o) + 2)) 2 bs);
  wire_length_set_fn _ o len bs :=
    write_bytes (Z.to_nat (obj_offset (wire_object o) + 2)) (u16_to_bytes len) bs;
  wire_type_get_fn _ o bs :=
    u16_of_bytes (read_bytes (Z.to_nat (obj_offset (wire_object o))) 2 bs);
  wire_type_set_fn _ o bs :=
    write_bytes (Z.to_nat (obj_offset (wire_object o))) (u16_to_bytes (object_id o)) bs;
  of_object_init_map := sample_init;
  of_object_fixed_len _ _ := 8;
  of_wire_id_valid id base := (base <? id) && (id <=? base + 3);
  delete_cb_fn _ _ := ret tt;
  buf_free_fn _ b := match b with Some b => FREE_block b | None => ret tt end;
  OF_LENGTH_CHECK s p :=
    match objs s !! p with
    | Some o =>
      match parent o, buffer_of s o with
      | None, Some wb => current_bytes wb =? length o
      | _, _ => true
      end
    | None => false
    end;
  OF_MESSAGE_XID_OFFSET := 4
|}.

(** The message at 1 owns the buffer; the list at 2 is its child at
    offset 8; the element at 3 is attached nowhere yet; the element at 4
    is the first entry of the list. *)
Definition sample_message : of_object_t :=
  {| version := 1; length := 16; object_id := 10; parent := None;
     wire_length_get := Some 1%positive; wire_length_set := Some 1%positive;
     wire_type_get := None; wire_type_set := None;
     wire_object := {| wbuf := Some 1%positive; obj_offset := 0; owned := 1 |};
     delete_cb := None |}.

Definition sample_list : of_object_t :=
  {| version := 1; length := 8; object_id := 20; parent := Some 1%positive;
     wire_length_get := None; wire_length_set := None;
     wire_type_get := None; wire_type_set := None;
     wire_object := {| wbuf := Some 1%positive; obj_offset := 8; owned := 0 |};
     delete_cb := None |}.

Definition sample_element : of_object_t :=
  {| version := 1; length := 12; object_id := 31; parent := None;
     wire_length_get := Some 1%positive; wire_length_set := Some 1%positive;
     wire_type_get := Some 1%positive; wire_type_set := Some 1%positive;
     wire_object := zero_wire_object;
     delete_cb := None |}.

Definition sample_entry : of_object_t :=
  {| version := 1; length := 8; object_id := 31; parent := Some 2%positive;
     wire_length_get := Some 1%positive; wire_length_set := Some 1%positive;
     wire_type_get := Some 1%positive; wire_type_set := Some 1%positive;
     wire_object := {| wbuf := Some 1%positive; obj_offset := 8; owned := 0 |};
     delete_cb := None |}.

Definition sample_bytes : list Z :=
  [1; 10; 0; 16; 0; 0; 0; 7; 0; 31; 0; 8; 0; 0; 0; 0] ++ replicate 48 0.

(** The sample store once 12 more bytes of the buffer are in use. *)
Definition sample_grown : state :=
  {| objs := <[1%positive := sample_message]>
               (<[2%positive := sample_list]>
                  (<[3%positive := sample_element]>
                     (<[4%positive := sample_entry]> ∅)));
     wbufs := <[1%positive := {| buf := Some 1%positive; alloc_bytes := 64;
                                 current_bytes := 28; free := None |}]> ∅;
     blocks := <[1%positive := sample_bytes]> ∅;
     avail := 8 |}.

Definition sample_store : state :=
  {| objs := <[1%positive := sample_message]>
               (<[2%positive := sample_list]>
                  (<[3%positive := sample_element]>
                     (<[4%positive := sample_entry]> ∅)));
     wbufs := <[1%positive := {| buf := Some 1%positive; alloc_bytes := 64;
                                 current_bytes := 16; free := None |}]> ∅;
     blocks := <[1%positive := sample_bytes]> ∅;
     avail := 8 |}.

(** The end-to-end scenario of the spec: a message with capacity 64 and an
    8-byte header, whose list at offset 8 is empty; three elements of
    lengths 8, 12 and 8 to append; an element to iterate with. *)
Definition scenario_element (len : Z) : of_object_t :=
  {| version := 1; length := len; object_id := 31; parent := None;
     wire_length_get := Some 1%positive; wire_length_set := Some 1%positive;
     wire_type_get := Some 1%positive; wire_type_set := Some 1%positive;
     wire_object := zero_wire_object;
     delete_cb := None |}.

Definition scenario_store : state :=
  {| objs :=
       <[1%positive := set_length sample_message 8]>
         (<[2%positive := set_length sample_list 0]>
            (<[3%positive := scenario_element 8]>
               (<[4%positive := scenario_element 12]>
                  (<[5%positive := scenario_element 8]>
                     (<[6%positive := scenario_element 0]> ∅)))));
     wbufs := <[1%positive := {| buf := Some 1%positive; alloc_bytes := 64;
                                 current_bytes := 8; free := None |}]> ∅;
     blocks := <[1%positive := replicate 64 0]> ∅;
     avail := 8 |}.

(** Where the iterator stands: its offset relative to the list and its
    length. *)
Definition position (list_ it : ptr) : M (Z * Z) :=
  do lo <- load_obj list_;
  do io <- load_obj it;
  ret (obj_offset (wire_object io) - obj_offset (wire_object lo), length io).

Definition scenario : M (list (Z * Z) * of_error_t * Z * Z) :=
  let E := sample_externals in
  do _ <- of_list_append_bind (Some 2%positive) (Some 3%positive);
  do _ <- of_list_append_bind (Some 2%positive) (Some 4%positive);
  do _ <- of_list_append_bind (Some 2%positive) (Some 5%positive);
  do _ <- of_list_first 2%positive 6%positive;
  do _ <- of_object_wire_init 6%positive 30 0;
  do p1 <- position 2%positive 6%positive;
  do _ <- of_list_next 2%positive 6%positive;
  do _ <- of_object_wire_init 6%positive 30 0;
  do p2 <- position 2%positive 6%positive;
  do _ <- of_list_next 2%positive 6%positive;
  do _ <- of_object_wire_init 6%positive 30 0;
  do p3 <- position 2%positive 6%positive;
  do last <- of_list_next 2%positive 6%positive;
  do m <- load_obj 1%positive;
  do l <- load_obj 2%positive;
  ret ([p1; p2; p3], last, length l, length m).

(** A sample of the message externals: the version is the first byte,
    versions 1 to 4 are known, a message is valid when it is at least 8
    bytes long and its length field says [len], and the object id of a
    message is its second byte. *)
Definition sample_message_externals : MessageExternals := {|
  of_message_version_get bs := nth 0 bs 0;
  OF_VERSION_OKAY v := (1 <=? v) && (v <=? 4);
  of_validate_message bs len :=
    if (8 <=? len) && (u16_of_bytes (read_bytes 2 2 bs) =? len) then 0 else -1;
  of_header_wire_object_id_get o bs :=
    nth (Z.to_nat (obj_offset (wire_object o)) + 1) bs 0;
  OF_MESSAGE_FREE_FUNCTION := Some 7%positive
|}.



(** The sample store with one more element, at 5, which owns a buffer of
    its own holding its 8 bytes. *)
Definition sample_item : of_object_t :=
  {| version := 1; length := 8; object_id := 31; parent := None;
     wire_length_get := Some 1%positive; wire_length_set := Some 1%positive;
     wire_type_get := Some 1%positive; wire_type_set := Some 1%positive;
     wire_object := {| wbuf := Some 2%positive; obj_offset := 0; owned := 1 |};
     delete_cb := None |}.

Definition sample_two_buffers : state :=
  {| objs := <[5%positive := sample_item]> (objs sample_store);
     wbufs := <[2%positive := {| buf := Some 2%positive; alloc_bytes := 8;
                                 current_bytes := 8; free := None |}]>
                (wbufs sample_store);
     blocks := <[2%positive := [0; 31; 0; 8; 1; 2; 3; 4]]> (blocks sample_store);
     avail := 8 |}.

(** * Properties *)

(** ** Running the monad *)

Lemma bind_Ret {A B} (m : M A) (k : A -> M B) s a s' :
  m s = Ret a s' -> bind m k s = k a s'.
Proof. intros E. unfold bind. rewrite E. reflexivity. Qed.

Lemma bind_Fail {A B} (m : M A) (k : A -> M B) s f :
  m s = Fail f -> bind m k s = Fail f.
Proof. intros E. unfold bind. rewrite E. reflexivity. Qed.

Lemma load_obj_Some s p o : objs s !! p = Some o -> load_obj p s = Ret o s.
Proof. intros E. unfold load_obj. rewrite E. reflexivity. Qed.

Lemma store_obj_Some s p o o' :
  objs s !! p = Some o ->
  store_obj p o' s = Ret tt (with_objs s (<[p := o']> (objs s))).
Proof. intros E. unfold store_obj. rewrite E. reflexivity. Qed.

Lemma load_wbuf_Some s p b : wbufs s !! p = Some b -> load_wbuf p s = Ret b s.
Proof. intros E. unfold load_wbuf. rewrite E. reflexivity. Qed.

Lemma int_wrap_id z : INT_MIN <= z <= INT_MAX -> int_wrap z = z.
Proof.
  unfold INT_MIN, INT_MAX, int_wrap. intros Hz.
  rewrite Z.mod_small by lia. lia.
Qed.

Lemma int_add_id a b : INT_MIN <= a + b <= INT_MAX -> int_add a b = a + b.
Proof. apply int_wrap_id. Qed.

Lemma int_sub_id a b : INT_MIN <= a - b <= INT_MAX -> int_sub a b = a - b.
Proof. apply int_wrap_id. Qed.

(** ** Child attach *)

(** What [object_child_attach] does to the child when no space is
    reserved: the child is re-pointed into the parent's buffer, nothing
    else in the store changes. *)
Lemma object_child_attach_read s p c po co offset bytes :
  objs s !! p = Some po -> objs s !! c = Some co ->
  bytes <= 0 ->
  object_child_attach p c offset bytes s =
    Ret tt (with_objs s
              (<[c := set_wire_object (set_parent co (Some p))
                        {| wbuf := wbuf (wire_object po);
                           obj_offset := int_add (obj_offset (wire_object po)) offset;
                           owned := 0 |}]> (objs s))).
Proof.
  intros Hp Hc Hb. unfold object_child_attach.
  rewrite (bind_Ret _ _ _ _ _ (load_obj_Some _ _ _ Hc)).
  rewrite (bind_Ret _ _ _ _ _ (store_obj_Some _ _ _ _ Hc)).
  set (s1 := with_objs s _).
  assert (Hp1 : exists po1, objs s1 !! p = Some po1
                /\ wire_object po1 = wire_object po).
  { subst s1. simpl. destruct (decide (c = p)) as [->|Hne].
    - rewrite lookup_insert_eq. eexists; split; [reflexivity|].
      rewrite Hp in Hc. injection Hc as ->. reflexivity.
    - rewrite lookup_insert_ne by done. eauto. }
  destruct Hp1 as (po1 & Hp1 & Hw).
  rewrite (bind_Ret _ _ _ _ _ (load_obj_Some _ _ _ Hp1)).
  assert (Hc1 : objs s1 !! c = Some (set_parent co (Some p))).
  { subst s1. simpl. apply lookup_insert_eq. }
  rewrite (bind_Ret _ _ _ _ _ (load_obj_Some _ _ _ Hc1)).
  rewrite (bind_Ret _ _ _ _ _ (store_obj_Some _ _ _ _ Hc1)).
  replace (0 <? bytes) with false by (symmetry; apply Z.ltb_ge; lia).
  unfold ret. f_equal. subst s1. unfold with_objs. simpl.
  rewrite insert_insert_eq, Hw. reflexivity.
Qed.

(** ** List iteration *)





(** ** Inversion of runs *)

Lemma bind_inv {A B} (m : M A) (k : A -> M B) s b s' :
  bind m k s = Ret b s' -> exists a s1, m s = Ret a s1 /\ k a s1 = Ret b s'.
Proof.
  unfold bind. destruct (m s) as [a s1|f]; [eauto|discriminate].
Qed.

Lemma ret_inv {A} (a b : A) s s' : ret a s = Ret b s' -> b = a /\ s' = s.
Proof. unfold ret. intros E. injection E as -> ->. auto. Qed.

Lemma nonnull_inv {A} (p : option A) a s s' :
  nonnull p s = Ret a s' -> p = Some a /\ s' = s.
Proof.
  destruct p; unfold nonnull, ret, fail; intros E; [|discriminate].
  injection E as -> ->. auto.
Qed.

Lemma load_obj_inv p s o s' :
  load_obj p s = Ret o s' -> objs s !! p = Some o /\ s' = s.
Proof.
  unfold load_obj. destruct (objs s !! p); intros E; [|discriminate].
  injection E as -> ->. auto.
Qed.

Lemma store_obj_inv p o s u s' :
  store_obj p o s = Ret u s' ->
  is_Some (objs s !! p) /\ s' = with_objs s (<[p := o]> (objs s)).
Proof.
  unfold store_obj. destruct (objs s !! p); intros E; [|discriminate].
  injection E as _ <-. eauto.
Qed.

Lemma load_wbuf_inv p s b s' :
  load_wbuf p s = Ret b s' -> wbufs s !! p = Some b /\ s' = s.
Proof.
  unfold load_wbuf. destruct (wbufs s !! p); intros E; [|discriminate].
  injection E as -> ->. auto.
Qed.

Lemma store_wbuf_inv p b s u s' :
  store_wbuf p b s = Ret u s' ->
  is_Some (wbufs s !! p) /\ s' = with_wbufs s (<[p := b]> (wbufs s)).
Proof.
  unfold store_wbuf. destruct (wbufs s !! p); intros E; [|discriminate].
  injection E as _ <-. eauto.
Qed.

Lemma load_block_inv p s b s' :
  load_block p s = Ret b s' -> blocks s !! p = Some b /\ s' = s.
Proof.
  unfold load_block. destruct (blocks s !! p); intros E; [|discriminate].
  injection E as -> ->. auto.
Qed.

Lemma store_block_inv p b s u s' :
  store_block p b s = Ret u s' ->
  is_Some (blocks s !! p) /\ s' = with_blocks s (<[p := b]> (blocks s)).
Proof.
  unfold store_block. destruct (blocks s !! p); intros E; [|discriminate].
  injection E as _ <-. eauto.
Qed.

Lemma LOCI_ASSERT_inv c s u s' :
  LOCI_ASSERT c s = Ret u s' -> c = true /\ s' = s.
Proof.
  unfold LOCI_ASSERT. destruct c; unfold ret, fail; intros E; [|discriminate].
  injection E as _ <-. auto.
Qed.

(** Splits a successful run into the successful runs of its steps. *)
Ltac prim_inv E :=
  first
    [ apply load_obj_inv in E as [E ->]
    | apply load_wbuf_inv in E as [E ->]
    | apply load_block_inv in E as [E ->]
    | apply store_obj_inv in E as [E ->]
    | apply store_wbuf_inv in E as [E ->]
    | apply store_block_inv in E as [E ->]
    | apply nonnull_inv in E as [E ->]
    | apply LOCI_ASSERT_inv in E as [E ->]
    | apply ret_inv in E as [? ?]; subst ].

Ltac run_inv H :=
  repeat
    match type of H with
    | bind _ _ _ = Ret _ _ =>
      let a := fresh "a" in let s1 := fresh "s" in let E := fresh "E" in
      apply bind_inv in H as (a & s1 & E & H);
      try prim_inv E
    end;
  try prim_inv H.

Lemma store_wbuf_Some s p b b' :
  wbufs s !! p = Some b ->
  store_wbuf p b' s = Ret tt (with_wbufs s (<[p := b']> (wbufs s))).
Proof. intros E. unfold store_wbuf. rewrite E. reflexivity. Qed.

Lemma load_block_Some s p b : blocks s !! p = Some b -> load_block p s = Ret b s.
Proof. intros E. unfold load_block. rewrite E. reflexivity. Qed.

Lemma store_block_Some s p b b' :
  blocks s !! p = Some b ->
  store_block p b' s = Ret tt (with_blocks s (<[p := b']> (blocks s))).
Proof. intros E. unfold store_block. rewrite E. reflexivity. Qed.

(** ** The wire buffer *)

(** Growing a buffer touches no object struct. *)
Lemma of_wire_buffer_grow_objs w bytes s s' :
  of_wire_buffer_grow w bytes s = Ret tt s' -> objs s' = objs s.
Proof.
  unfold of_wire_buffer_grow. intros H. run_inv H.
  assert (Hs0 : objs s0 = objs s).
  { destruct (alloc_bytes a0 <? bytes); run_inv E1; reflexivity. }
  destruct (current_bytes a2 <? bytes); run_inv H; exact Hs0.
Qed.

(** Growing within the allocated size: only the number of bytes in use
    moves, and only upwards. *)
Lemma of_wire_buffer_grow_within s w wb bytes :
  wbufs s !! w = Some wb -> bytes <= alloc_bytes wb ->
  of_wire_buffer_grow (Some w) bytes s =
    Ret tt (if current_bytes wb <? bytes
            then with_wbufs s (<[w := set_current_bytes wb bytes]> (wbufs s))
            else s).
Proof.
  intros Hw Hle. unfold of_wire_buffer_grow.
  rewrite (bind_Ret _ _ s w s) by reflexivity.
  rewrite (bind_Ret _ _ _ _ _ (load_wbuf_Some _ _ _ Hw)).
  replace (alloc_bytes wb <? bytes) with false by (symmetry; apply Z.ltb_ge; lia).
  rewrite (bind_Ret _ _ s tt s) by reflexivity.
  rewrite (bind_Ret _ _ _ _ _ (load_wbuf_Some _ _ _ Hw)).
  destruct (current_bytes wb <? bytes).
  - apply (store_wbuf_Some _ _ _ _ Hw).
  - reflexivity.
Qed.

(** ** Child objects and their deletion *)

(** What [object_child_attach] does when space is reserved within the
    allocated size of the parent's buffer. *)
Lemma object_child_attach_reserve s p c po co w wb offset bytes :
  objs s !! p = Some po -> objs s !! c = Some co -> p <> c ->
  0 < bytes ->
  wbuf (wire_object po) = Some w -> wbufs s !! w = Some wb ->
  int_add (int_add (obj_offset (wire_object po)) offset) bytes <= alloc_bytes wb ->
  object_child_attach p c offset bytes s =
    Ret tt
      {| objs :=
           <[c := set_length
                    (set_wire_object (set_parent co (Some p))
                       {| wbuf := Some w;
                          obj_offset := int_add (obj_offset (wire_object po)) offset;
                          owned := 0 |}) bytes]> (objs s);
         wbufs :=
           (let tot := int_add (int_add (obj_offset (wire_object po)) offset) bytes in
            if current_bytes wb <? tot
            then <[w := set_current_bytes wb tot]> (wbufs s)
            else wbufs s);
         blocks := blocks s;
         avail := avail s |}.
Proof.
  intros Hp Hc Hne Hb Hw Hwb Hle. unfold object_child_attach.
  rewrite (bind_Ret _ _ _ _ _ (load_obj_Some _ _ _ Hc)).
  rewrite (bind_Ret _ _ _ _ _ (store_obj_Some _ _ _ _ Hc)).
  set (s1 := with_objs s _).
  assert (Hp1 : objs s1 !! p = Some po).
  { subst s1. simpl. rewrite lookup_insert_ne by done. exact Hp. }
  rewrite (bind_Ret _ _ _ _ _ (load_obj_Some _ _ _ Hp1)).
  assert (Hc1 : objs s1 !! c = Some (set_parent co (Some p))).
  { subst s1. simpl. apply lookup_insert_eq. }
  rewrite (bind_Ret _ _ _ _ _ (load_obj_Some _ _ _ Hc1)).
  rewrite (bind_Ret _ _ _ _ _ (store_obj_Some _ _ _ _ Hc1)).
  replace (0 <? bytes) with true by (symmetry; apply Z.ltb_lt; lia).
  set (s2 := with_objs s1 _).
  assert (Hp2 : objs s2 !! p = Some po).
  { subst s2. simpl. rewrite lookup_insert_ne by done. exact Hp1. }
  rewrite (bind_Ret _ _ _ _ _ (load_obj_Some _ _ _ Hp2)).
  rewrite Hw.
  assert (Hwb2 : wbufs s2 !! w = Some wb) by exact Hwb.
  rewrite (bind_Ret _ _ _ _ _ (of_wire_buffer_grow_within s2 w wb _ Hwb2 Hle)).
  set (s3 := if _ <? _ then _ else _).
  assert (Hc3 : objs s3 !! c =
                Some (set_wire_object (set_parent co (Some p))
                        {| wbuf := Some w;
                           obj_offset := int_add (obj_offset (wire_object po)) offset;
                           owned := 0 |})).
  { subst s3. destruct (_ <? _); subst s2; simpl; rewrite Hw;
      apply lookup_insert_eq. }
  rewrite (bind_Ret _ _ _ _ _ (load_obj_Some _ _ _ Hc3)).
  rewrite (store_obj_Some _ _ _ _ Hc3). f_equal.
  subst s3 s2 s1. destruct (_ <? _); unfold with_objs, with_wbufs; simpl;
    rewrite !insert_insert_eq; reflexivity.
Qed.

(** [of_object_delete] on an object that has no delete callback and does
    not own its buffer frees the struct and nothing else. *)
Lemma of_object_delete_not_owned `{Externals} s s2 c co co2 :
  objs s !! c = Some co ->
  match delete_cb co with
  | Some cb => delete_cb_fn cb c s
  | None => Ret tt s
  end = Ret tt s2 ->
  objs s2 !! c = Some co2 -> owned (wire_object co2) = 0 ->
  of_object_delete (Some c) s = Ret tt (with_objs s2 (delete c (objs s2))).
Proof.
  intros Hc Hcb Hc2 Hown. unfold of_object_delete.
  rewrite (bind_Ret _ _ _ _ _ (load_obj_Some _ _ _ Hc)).
  rewrite (bind_Ret _ _ s tt s2)
    by (destruct (delete_cb co); exact Hcb).
  rewrite (bind_Ret _ _ _ _ _ (load_obj_Some _ _ _ Hc2)).
  rewrite Hown. simpl. rewrite (bind_Ret _ _ s2 tt s2) by reflexivity.
  unfold FREE_obj. rewrite Hc2. reflexivity.
Qed.

(** C9. Whenever [object_child_attach(parent, child, offset, bytes)]
    returns, the child is marked non-owning ([owned = 0]), shares the
    parent's buffer pointer, lies at the parent's offset plus [offset] and
    has the parent as parent; the call does return in read mode
    ([bytes <= 0]) and when the reservation fits the allocated size.
    [of_object_delete] on such a child frees the child struct only: once
    the child's delete callback, if any, has run (leaving the child
    non-owning), the wire buffers and byte blocks are those the callback
    left. *)
Theorem child_attach_is_non_owning `{Externals} s p c po co offset bytes :
  objs s !! p = Some po -> objs s !! c = Some co ->
  int_range (obj_offset (wire_object po) + offset) ->
  (bytes <= 0 \/
   (p <> c /\ exists w wb, wbuf (wire_object po) = Some w /\ wbufs s !! w = Some wb /\
      int_add (obj_offset (wire_object po) + offset) bytes <= alloc_bytes wb) ->
   exists s1, object_child_attach p c offset bytes s = Ret tt s1) /\
  (forall s1,
     object_child_attach p c offset bytes s = Ret tt s1 ->
     exists co1,
       objs s1 !! c = Some co1 /\
       owned (wire_object co1) = 0 /\
       wbuf (wire_object co1) = wbuf (wire_object po) /\
       obj_offset (wire_object co1) = obj_offset (wire_object po) + offset /\
       parent co1 = Some p /\
       forall s2 co2,
         match delete_cb co1 with
         | Some cb => delete_cb_fn cb c s1
         | None => Ret tt s1
         end = Ret tt s2 ->
         objs s2 !! c = Some co2 -> owned (wire_object co2) = 0 ->
         of_object_delete (Some c) s1 =
           Ret tt (with_objs s2 (delete c (objs s2)))).
Proof.
  intros Hp Hc Hr. split.
  - intros [Hb|(Hne & w & wb & Hw & Hwb & Hle)].
    + eexists. apply (object_child_attach_read s p c po co offset bytes Hp Hc Hb).
    + destruct (Z_le_gt_dec bytes 0) as [Hb|Hb].
      * eexists.
        apply (object_child_attach_read s p c po co offset bytes Hp Hc Hb).
      * eexists.
        apply (object_child_attach_reserve s p c po co w wb offset bytes
                 Hp Hc Hne); [lia|exact Hw|exact Hwb|].
        rewrite (int_add_id _ offset) by exact Hr. exact Hle.
  - intros s1 Hrun.
    assert (Hco1 : exists co1,
               objs s1 !! c = Some co1 /\
               wire_object co1 =
                 {| wbuf := wbuf (wire_object po);
                    obj_offset := int_add (obj_offset (wire_object po)) offset;
                    owned := 0 |} /\
               parent co1 = Some p).
    { destruct (Z_le_gt_dec bytes 0) as [Hb|Hb].
      - rewrite (object_child_attach_read s p c po co offset bytes Hp Hc Hb)
          in Hrun.
        injection Hrun as <-. simpl. rewrite lookup_insert_eq.
        eexists; split; [reflexivity|]. split; reflexivity.
      - unfold object_child_attach in Hrun.
        replace (0 <? bytes) with true in Hrun
          by (symmetry; apply Z.ltb_lt; lia).
        run_inv Hrun. destruct a5. apply of_wire_buffer_grow_objs in E5.
        rewrite E5 in E6. simpl in E1, E2, E6 |- *.
        rewrite Hc in E. injection E as <-.
        rewrite lookup_insert_eq in E2. injection E2 as <-.
        rewrite lookup_insert_eq in E6. injection E6 as <-.
        rewrite lookup_insert_eq.
        eexists; split; [reflexivity|]. simpl.
        assert (Hwo : wire_object a1 = wire_object po).
        { destruct (decide (c = p)) as [->|Hne].
          - rewrite lookup_insert_eq in E1. injection E1 as <-. simpl.
            rewrite Hp in Hc. injection Hc as ->. reflexivity.
          - rewrite lookup_insert_ne in E1 by done.
            rewrite Hp in E1. injection E1 as ->. reflexivity. }
        rewrite Hwo. split; reflexivity. }
    destruct Hco1 as (co1 & Hc1 & Hwo & Hpar).
    exists co1. rewrite Hwo. simpl.
    rewrite (int_add_id _ offset) by exact Hr.
    repeat (split; [first [exact Hc1 | exact Hpar | reflexivity]|]).
    intros s2 co2 Hcb Hc2 Hown.
    exact (of_object_delete_not_owned s1 s2 c co1 co2 Hc1 Hcb Hc2 Hown).
Qed.

Lemma child_attach_is_non_owning_witness :
  exists s1,
    object_child_attach 2%positive 3%positive 8 12 sample_store = Ret tt s1 /\
    @of_object_delete sample_externals (Some 3%positive) s1
    = Ret tt (with_objs s1 (delete 3%positive (objs s1))).
Proof.
  destruct (@child_attach_is_non_owning sample_externals sample_store
              2%positive 3%positive sample_list sample_element 8 12
              eq_refl eq_refl ltac:(vm_compute; split; discriminate))
    as [Hruns Hchild].
  destruct Hruns as [s1 Hs1].
  { right. split; [discriminate|].
    exists 1%positive,
      {| buf := Some 1%positive; alloc_bytes := 64; current_bytes := 16;
         free := None |}.
    split; [reflexivity|]. split; [vm_compute; reflexivity|].
    vm_compute. discriminate. }
  exists s1. split; [exact Hs1|].
  destruct (Hchild s1 Hs1) as (co1 & Hc1 & Hown & _ & _ & _ & Hdel).
  apply (Hdel s1 co1); [|exact Hc1|exact Hown].
  assert (Hcb : delete_cb co1 = None).
  { vm_compute in Hs1. injection Hs1 as <-.
    vm_compute in Hc1. injection Hc1 as <-. reflexivity. }
  rewrite Hcb. reflexivity.
Defined.

(** ** Binding and stealing buffers *)

(** C3, as the code has it. [of_object_buffer_bind] called with a null
    buffer pointer or with [bytes <= 0] fails its precondition assertion,
    which is fatal: no status is returned, and the store in which the
    assertion fails is the store of the call, so that nothing has been
    written before, to the object or anywhere else.  [OF_ERROR_PARAM] is
    returned for no input at all. *)
Theorem buffer_bind_asserts_arguments s obj buffer bytes buf_free :
  buffer = None \/ bytes <= 0 ->
  of_object_buffer_bind obj buffer bytes buf_free s
  = Fail (AssertionFailure s) /\
  (forall s' obj' buffer' bytes' buf_free' s0,
     of_object_buffer_bind obj' buffer' bytes' buf_free' s0
     <> Ret OF_ERROR_PARAM s').
Proof.
  intros Harg. split.
  - unfold of_object_buffer_bind. destruct Harg as [->|Hb].
    + reflexivity.
    + destruct buffer as [b|]; [|reflexivity].
      rewrite (bind_Ret _ _ s tt s) by reflexivity.
      apply bind_Fail. unfold LOCI_ASSERT.
      replace (0 <? bytes) with false by (symmetry; apply Z.ltb_ge; lia).
      reflexivity.
  - intros s' obj' buffer' bytes' buf_free' s0 Hrun.
    unfold of_object_buffer_bind in Hrun. run_inv Hrun.
    destruct a3 as [w|]; run_inv Hrun; discriminate.
Qed.

Lemma buffer_bind_asserts_arguments_witness :
  of_object_buffer_bind 3%positive (Some 1%positive) 0 None sample_store
  = Fail (AssertionFailure sample_store).
Proof.
  refine (proj1 (buffer_bind_asserts_arguments sample_store 3%positive
                   (Some 1%positive) 0 None _)).
  right. vm_compute. discriminate.
Defined.

(** C3 refuted as stated: binding a null buffer to the unbound element of
    the sample store does not return [OF_ERROR_PARAM]; the run ends in the
    failed assertion. *)
Lemma buffer_bind_null_counterexample :
  of_object_buffer_bind 3%positive None 16 None sample_store
  = Fail (AssertionFailure sample_store) /\
  ~ (exists s', of_object_buffer_bind 3%positive None 16 None sample_store
                = Ret OF_ERROR_PARAM s').
Proof.
  split; [reflexivity|]. intros [s' Hs']. discriminate Hs'.
Qed.

Lemma of_wire_buffer_steal_Some s w wb :
  wbufs s !! w = Some wb ->
  of_wire_buffer_steal (Some w) s =
    Ret (buf wb)
      (with_wbufs s
         (<[w := {| buf := None; alloc_bytes := alloc_bytes wb;
                    current_bytes := current_bytes wb; free := free wb |}]>
            (wbufs s))).
Proof.
  intros Hwb. unfold of_wire_buffer_steal.
  rewrite (bind_Ret _ _ s w s) by reflexivity.
  rewrite (bind_Ret _ _ _ _ _ (load_wbuf_Some _ _ _ Hwb)).
  rewrite (bind_Ret _ _ _ _ _ (store_wbuf_Some _ _ _ _ Hwb)).
  reflexivity.
Qed.

(** C10. [of_object_wire_buffer_steal(obj, &buffer)] on an object bound to
    a buffer returns the buffer's bytes, and whenever it returns, the
    object's wire buffer reference is null, so that [of_object_xid_set]
    and [of_object_xid_get] on that object return [OF_ERROR_PARAM] and
    read or write nothing. *)
Theorem wire_buffer_steal_unbinds `{Externals} s obj :
  (forall o w wb,
     objs s !! obj = Some o -> wbuf (wire_object o) = Some w ->
     wbufs s !! w = Some wb ->
     exists s', of_object_wire_buffer_steal (Some obj) s = Ret (buf wb) s') /\
  (forall buffer s',
     of_object_wire_buffer_steal (Some obj) s = Ret buffer s' ->
     (exists o', objs s' !! obj = Some o' /\ wbuf (wire_object o') = None) /\
     (forall xid, of_object_xid_set obj xid s' = Ret OF_ERROR_PARAM s') /\
     (forall xid0, of_object_xid_get obj xid0 s' = Ret (OF_ERROR_PARAM, xid0) s')).
Proof.
  split.
  - intros o w wb Ho Hw Hwb. unfold of_object_wire_buffer_steal.
    rewrite (bind_Ret _ _ s tt s) by reflexivity.
    rewrite (bind_Ret _ _ s obj s) by reflexivity.
    rewrite (bind_Ret _ _ _ _ _ (load_obj_Some _ _ _ Ho)).
    rewrite Hw.
    rewrite (bind_Ret _ _ _ _ _ (of_wire_buffer_steal_Some _ _ _ Hwb)).
    rewrite (bind_Ret _ _ _ o _) by (apply load_obj_Some; exact Ho).
    rewrite (bind_Ret _ _ _ tt _) by (eapply store_obj_Some; exact Ho).
    eexists. reflexivity.
  - intros buffer s' Hrun. unfold of_object_wire_buffer_steal in Hrun.
    run_inv Hrun. injection E0 as <-.
    set (s' := with_objs s0 _).
    assert (Ho' : exists o', objs s' !! obj = Some o'
                  /\ wbuf (wire_object o') = None).
    { eexists. subst s'. simpl. rewrite lookup_insert_eq. split; reflexivity. }
    destruct Ho' as (o' & Ho' & Hnull). split; [eauto|]. split.
    + intros xid. unfold of_object_xid_set.
      rewrite (bind_Ret _ _ _ _ _ (load_obj_Some _ _ _ Ho')).
      unfold OF_OBJECT_TO_WBUF. rewrite Hnull. reflexivity.
    + intros xid0. unfold of_object_xid_get.
      rewrite (bind_Ret _ _ _ _ _ (load_obj_Some _ _ _ Ho')).
      unfold OF_OBJECT_TO_WBUF. rewrite Hnull. reflexivity.
Qed.

Lemma wire_buffer_steal_unbinds_witness :
  exists s', of_object_wire_buffer_steal (Some 1%positive) sample_store
             = Ret (Some 1%positive) s'.
Proof.
  refine (proj1 (@wire_buffer_steal_unbinds sample_externals sample_store 1%positive)
            sample_message 1%positive
            {| buf := Some 1%positive; alloc_bytes := 64; current_bytes := 16;
               free := None |} _ _ _);
    vm_compute; reflexivity.
Defined.

(** ** Wire bytes *)

Lemma length_write_bytes off d (bs : list Z) :
  (off + List.length d <= List.length bs)%nat ->
  List.length (write_bytes off d bs) = List.length bs.
Proof.
  intros Hle. unfold write_bytes.
  rewrite !length_app, length_take, length_drop. lia.
Qed.

Lemma read_write_bytes off d (bs : list Z) :
  (off + List.length d <= List.length bs)%nat ->
  read_bytes off (List.length d) (write_bytes off d bs) = d.
Proof.
  intros Hle. unfold read_bytes, write_bytes.
  rewrite drop_app_length' by (rewrite length_take; lia).
  apply take_app_length.
Qed.

Lemma u32_of_to_bytes v :
  0 <= v < UINT32_MODULUS -> u32_of_bytes (u32_to_bytes v) = v.
Proof.
  unfold UINT32_MODULUS, u32_of_bytes, u32_to_bytes. intros Hv.
  Z.div_mod_to_equations. lia.
Qed.

(** ** The transaction id *)

(** C8, as the code has it. For an object bound to a buffer whose bytes
    in use hold the xid field, and every 32-bit value [v],
    [of_object_xid_set(obj, v)] followed by [of_object_xid_get(obj, &xid)]
    yields [v], both returning [OF_ERROR_NONE]; a bound buffer alone does
    not give the round trip.  For an object with no bound buffer both
    return [OF_ERROR_PARAM], the store and the destination of the read
    being left as they were. *)
Theorem xid_set_get_roundtrip `{Externals} s obj o v :
  objs s !! obj = Some o ->
  0 <= v < UINT32_MODULUS ->
  (forall w wb b bs,
     wbuf (wire_object o) = Some w -> wbufs s !! w = Some wb ->
     buf wb = Some b -> blocks s !! b = Some bs ->
     0 <= obj_offset (wire_object o) + OF_MESSAGE_XID_OFFSET ->
     obj_offset (wire_object o) + OF_MESSAGE_XID_OFFSET + 4 <= current_bytes wb ->
     current_bytes wb <= Z.of_nat (List.length bs) ->
     current_bytes wb <= INT_MAX ->
     exists s1,
       of_object_xid_set obj v s = Ret OF_ERROR_NONE s1 /\
       forall xid0, of_object_xid_get obj xid0 s1 = Ret (OF_ERROR_NONE, v) s1) /\
  (wbuf (wire_object o) = None ->
     of_object_xid_set obj v s = Ret OF_ERROR_PARAM s /\
     forall xid0, of_object_xid_get obj xid0 s = Ret (OF_ERROR_PARAM, xid0) s).
Proof.
  intros Ho Hv. split.
  - intros w wb b bs Hw Hwb Hb Hbs Hlo Hhi Hlen Hmax.
    set (off := obj_offset (wire_object o) + OF_MESSAGE_XID_OFFSET) in *.
    assert (Habs : OF_OBJECT_ABSOLUTE_OFFSET o OF_MESSAGE_XID_OFFSET = off).
    { unfold OF_OBJECT_ABSOLUTE_OFFSET. apply int_add_id.
      unfold INT_MIN. fold off. lia. }
    assert (Hin : u32_in_bounds wb off = true).
    { unfold u32_in_bounds. apply andb_true_intro.
      split; apply Z.leb_le; lia. }
    assert (Hwrap : u32_wrap v = v) by (apply Z.mod_small; exact Hv).
    assert (Hfit : (Z.to_nat off + List.length (u32_to_bytes v)
                    <= List.length bs)%nat) by (simpl; lia).
    set (s1 := with_blocks s
                 (<[b := write_bytes (Z.to_nat off) (u32_to_bytes v) bs]> (blocks s))).
    exists s1. split.
    + unfold of_object_xid_set.
      rewrite (bind_Ret _ _ _ _ _ (load_obj_Some _ _ _ Ho)).
      unfold OF_OBJECT_TO_WBUF. rewrite Hw, Habs, Hwrap.
      rewrite (bind_Ret _ _ s OF_ERROR_NONE s1); [reflexivity|].
      unfold of_wire_buffer_u32_set.
      rewrite (bind_Ret _ _ _ _ _ (load_wbuf_Some _ _ _ Hwb)).
      rewrite Hin, Hb.
      rewrite (bind_Ret _ _ s b s) by reflexivity.
      rewrite (bind_Ret _ _ _ _ _ (load_block_Some _ _ _ Hbs)).
      replace (off + 4 <=? Z.of_nat (List.length bs)) with true
        by (symmetry; apply Z.leb_le; lia).
      rewrite (bind_Ret _ _ _ _ _ (store_block_Some _ _ _ _ Hbs)).
      reflexivity.
    + intros xid0. unfold of_object_xid_get.
      rewrite (bind_Ret _ _ s1 o s1) by (apply load_obj_Some; exact Ho).
      unfold OF_OBJECT_TO_WBUF. rewrite Hw, Habs.
      rewrite (bind_Ret _ _ s1 (OF_ERROR_NONE, v) s1); [reflexivity|].
      unfold of_wire_buffer_u32_get.
      rewrite (bind_Ret _ _ s1 wb s1) by (apply load_wbuf_Some; exact Hwb).
      rewrite Hin, Hb.
      rewrite (bind_Ret _ _ s1 b s1) by reflexivity.
      rewrite (bind_Ret _ _ s1 (write_bytes (Z.to_nat off) (u32_to_bytes v) bs) s1)
        by (apply load_block_Some; subst s1; simpl; apply lookup_insert_eq).
      rewrite length_write_bytes by exact Hfit.
      replace (off + 4 <=? Z.of_nat (List.length bs)) with true
        by (symmetry; apply Z.leb_le; lia).
      unfold ret. do 2 f_equal.
      change 4%nat with (List.length (u32_to_bytes v)).
      rewrite read_write_bytes by exact Hfit.
      apply u32_of_to_bytes. exact Hv.
  - intros Hnull. split.
    + unfold of_object_xid_set.
      rewrite (bind_Ret _ _ _ _ _ (load_obj_Some _ _ _ Ho)).
      unfold OF_OBJECT_TO_WBUF. rewrite Hnull. reflexivity.
    + intros xid0. unfold of_object_xid_get.
      rewrite (bind_Ret _ _ _ _ _ (load_obj_Some _ _ _ Ho)).
      unfold OF_OBJECT_TO_WBUF. rewrite Hnull. reflexivity.
Qed.

Lemma xid_set_get_roundtrip_witness :
  exists s1,
    @of_object_xid_set sample_externals 1%positive 3735928559 sample_store
    = Ret OF_ERROR_NONE s1 /\
    forall xid0,
      @of_object_xid_get sample_externals 1%positive xid0 s1
      = Ret (OF_ERROR_NONE, 3735928559) s1.
Proof.
  refine (proj1 (@xid_set_get_roundtrip sample_externals sample_store 1%positive
                   sample_message 3735928559 _ _)
            1%positive
            {| buf := Some 1%positive; alloc_bytes := 64; current_bytes := 16;
               free := None |}
            1%positive sample_bytes _ _ _ _ _ _ _ _);
    vm_compute; first [reflexivity | discriminate | (split; discriminate)
                      | (split; [discriminate | reflexivity])].
Defined.

(** C8 refuted as stated: the object that [of_object_new(64)] returns is
    bound to a buffer of 64 bytes none of which is in use yet.  On it
    [of_object_xid_set(obj, 7)] returns [OF_ERROR_NONE] and writes nothing,
    and [of_object_xid_get], returning [OF_ERROR_NONE] too, leaves the
    destination as it was, 0: the value set is not read back. *)
Lemma xid_roundtrip_unused_buffer_counterexample :
  exists p s1 o w wb,
    of_object_new 64 sample_store = Ret (Some p) s1 /\
    objs s1 !! p = Some o /\ wbuf (wire_object o) = Some w /\
    wbufs s1 !! w = Some wb /\ is_Some (buf wb) /\
    @of_object_xid_set sample_externals p 7 s1 = Ret OF_ERROR_NONE s1 /\
    @of_object_xid_get sample_externals p 0 s1 = Ret (OF_ERROR_NONE, 0) s1 /\
    (0 : Z) <> 7.
Proof.
  eexists _, _, _, _, _.
  split; [vm_compute; reflexivity|].
  split; [vm_compute; reflexivity|].
  split; [vm_compute; reflexivity|].
  split; [vm_compute; reflexivity|].
  split; [eexists; reflexivity|].
  split; [vm_compute; reflexivity|].
  split; [vm_compute; reflexivity|].
  discriminate.
Qed.

(** ** Calls through the accessors *)

Lemma block_of_Some s o b :
  block_of s o = Some b ->
  exists w wb, wbuf (wire_object o) = Some w /\ wbufs s !! w = Some wb
               /\ buf wb = Some b.
Proof.
  unfold block_of, buffer_of. destruct (wbuf (wire_object o)) as [w|]; [|discriminate].
  destruct (wbufs s !! w) as [wb|] eqn:Hwb; [|discriminate].
  intros Hb. eauto.
Qed.

Lemma object_block_Some s obj o b :
  objs s !! obj = Some o -> block_of s o = Some b -> object_block obj s = Ret b s.
Proof.
  intros Ho Hb. apply block_of_Some in Hb as (w & wb & Hw & Hwb & Hb).
  unfold object_block.
  rewrite (bind_Ret _ _ _ _ _ (load_obj_Some _ _ _ Ho)). rewrite Hw.
  rewrite (bind_Ret _ _ s w s) by reflexivity.
  rewrite (bind_Ret _ _ _ _ _ (load_wbuf_Some _ _ _ Hwb)). rewrite Hb.
  reflexivity.
Qed.



Lemma call_wire_length_set_Some `{Externals} s f obj o len b bs :
  objs s !! obj = Some o -> block_of s o = Some b -> blocks s !! b = Some bs ->
  call_wire_length_set f obj len s =
    Ret tt (with_blocks s (<[b := wire_length_set_fn f o len bs]> (blocks s))).
Proof.
  intros Ho Hb Hbs. unfold call_wire_length_set.
  rewrite (bind_Ret _ _ _ _ _ (load_obj_Some _ _ _ Ho)).
  rewrite (bind_Ret _ _ _ _ _ (object_block_Some _ _ _ _ Ho Hb)).
  rewrite (bind_Ret _ _ _ _ _ (load_block_Some _ _ _ Hbs)).
  apply (store_block_Some _ _ _ _ Hbs).
Qed.

Lemma call_wire_type_set_Some `{Externals} s f obj o b bs :
  objs s !! obj = Some o -> block_of s o = Some b -> blocks s !! b = Some bs ->
  call_wire_type_set f obj s =
    Ret tt (with_blocks s (<[b := wire_type_set_fn f o bs]> (blocks s))).
Proof.
  intros Ho Hb Hbs. unfold call_wire_type_set.
  rewrite (bind_Ret _ _ _ _ _ (load_obj_Some _ _ _ Ho)).
  rewrite (bind_Ret _ _ _ _ _ (object_block_Some _ _ _ _ Ho Hb)).
  rewrite (bind_Ret _ _ _ _ _ (load_block_Some _ _ _ Hbs)).
  apply (store_block_Some _ _ _ _ Hbs).
Qed.

(** ** Initialization from the wire *)





(** ** Allocation *)

Lemma fresh_lookup_None {V} (m : gmap ptr V) : m !! fresh (dom m) = None.
Proof. apply not_elem_of_dom. apply is_fresh. Qed.

Lemma lookup_fresh_ne {V} (m : gmap ptr V) p v :
  m !! p = Some v -> p <> fresh (dom m).
Proof. intros Hp ->. rewrite fresh_lookup_None in Hp. discriminate. Qed.

Lemma MALLOC_obj_Some s n :
  avail s = S n ->
  MALLOC_obj s =
    Ret (Some (fresh (dom (objs s))))
      {| objs := <[fresh (dom (objs s)) := uninitialized_object]> (objs s);
         wbufs := wbufs s; blocks := blocks s; avail := n |}.
Proof. intros Ha. unfold MALLOC_obj. rewrite Ha. reflexivity. Qed.

Lemma of_wire_buffer_new_Some s n bytes :
  avail s = S (S n) ->
  of_wire_buffer_new bytes s =
    Ret (Some (fresh (dom (wbufs s))))
      {| objs := objs s;
         wbufs := <[fresh (dom (wbufs s)) :=
                      {| buf := Some (fresh (dom (blocks s)));
                         alloc_bytes := bytes; current_bytes := 0;
                         free := None |}]> (wbufs s);
         blocks := <[fresh (dom (blocks s)) := replicate (Z.to_nat bytes) 0]>
                     (blocks s);
         avail := n |}.
Proof.
  intros Ha. unfold of_wire_buffer_new, bind, MALLOC_wbuf. rewrite Ha.
  unfold MALLOC_block. simpl. unfold store_wbuf. simpl.
  rewrite lookup_insert_eq. unfold ret, with_wbufs. simpl.
  rewrite insert_insert_eq. reflexivity.
Qed.

Lemma write_bytes_whole (d : list Z) :
  write_bytes 0 d (replicate (List.length d) 0) = d.
Proof.
  unfold write_bytes. simpl.
  rewrite drop_ge by (rewrite length_replicate; lia).
  apply app_nil_r.
Qed.

Lemma length_read_bytes off n (bs : list Z) :
  (off + n <= List.length bs)%nat -> List.length (read_bytes off n bs) = n.
Proof.
  intros Hle. unfold read_bytes. rewrite length_take, length_drop. lia.
Qed.

(** ** Duplication *)

(** The run of [of_object_dup] when the three allocations succeed and the
    source's bytes lie in its block. *)
Lemma of_object_dup_run `{Externals} s src so b bs n :
  objs s !! src = Some so ->
  block_of s so = Some b -> blocks s !! b = Some bs ->
  avail s = S (S (S n)) ->
  0 <= length so -> 0 <= obj_offset (wire_object so) ->
  obj_offset (wire_object so) + length so <= Z.of_nat (List.length bs) ->
  obj_offset (wire_object so) <= INT_MAX ->
  (forall o v k, wire_object (of_object_init_map (object_id so) o v k 0)
                 = wire_object o) ->
  of_object_dup src s =
    Ret (Some (fresh (dom (objs s))))
      {| objs :=
           <[fresh (dom (objs s)) :=
               of_object_init_map (object_id so)
                 (set_wire_object zero_object
                    {| wbuf := Some (fresh (dom (wbufs s)));
                       obj_offset := 0; owned := 1 |})
                 (version so) (length so) 0]> (objs s);
         wbufs := <[fresh (dom (wbufs s)) :=
                      {| buf := Some (fresh (dom (blocks s)));
                         alloc_bytes := length so; current_bytes := 0;
                         free := None |}]> (wbufs s);
         blocks := <[fresh (dom (blocks s)) :=
                       read_bytes (Z.to_nat (obj_offset (wire_object so)))
                         (Z.to_nat (length so)) bs]> (blocks s);
         avail := n |}.
Proof.
  intros Hsrc Hb Hbs Ha Hlen Hoff Hfit Hmax Hinit.
  set (dst := fresh (dom (objs s))).
  set (w' := fresh (dom (wbufs s))).
  set (b' := fresh (dom (blocks s))).
  assert (Hne : src <> dst) by (apply (lookup_fresh_ne _ _ _ Hsrc)).
  assert (Hbne : b <> b') by (apply (lookup_fresh_ne _ _ _ Hbs)).
  destruct (block_of_Some _ _ _ Hb) as (w & wb & Hw & Hwb & Hbuf).
  assert (Hwne : w <> w') by (apply (lookup_fresh_ne _ _ _ Hwb)).
  unfold of_object_dup.
  rewrite (bind_Ret _ _ _ _ _ (MALLOC_obj_Some s _ Ha)). fold dst.
  set (s1 := {| objs := <[dst := uninitialized_object]> (objs s); wbufs := wbufs s;
                blocks := blocks s; avail := S (S n) |}).
  assert (Hd1 : objs s1 !! dst = Some uninitialized_object) by apply lookup_insert_eq.
  rewrite (bind_Ret _ _ _ _ _ (store_obj_Some _ _ _ zero_object Hd1)).
  set (s2 := with_objs s1 _).
  assert (Hsrc2 : objs s2 !! src = Some so).
  { subst s2 s1. simpl. rewrite !lookup_insert_ne by done. exact Hsrc. }
  rewrite (bind_Ret _ _ _ _ _ (load_obj_Some _ _ _ Hsrc2)).
  rewrite (bind_Ret _ _ _ _ _ (of_wire_buffer_new_Some s2 n (length so) eq_refl)).
  change (fresh (dom (wbufs s2))) with w'.
  change (fresh (dom (blocks s2))) with b'.
  set (s3 := {| objs := objs s2; wbufs := _; blocks := _; avail := n |}).
  assert (Hd3 : objs s3 !! dst = Some zero_object).
  { subst s3 s2 s1. simpl. apply lookup_insert_eq. }
  rewrite (bind_Ret _ _ _ _ _ (load_obj_Some _ _ _ Hd3)).
  rewrite (bind_Ret _ _ _ _ _ (store_obj_Some _ _ _ _ Hd3)).
  set (s4 := with_objs s3 _).
  assert (Hsrc4 : objs s4 !! src = Some so).
  { subst s4 s3. simpl. rewrite lookup_insert_ne by done. exact Hsrc2. }
  rewrite (bind_Ret _ _ _ _ _ (load_obj_Some _ _ _ Hsrc4)).
  assert (Hd4 : objs s4 !! dst =
                Some (set_wire_object zero_object
                        {| wbuf := Some w'; obj_offset := 0; owned := 1 |})).
  { subst s4. simpl. apply lookup_insert_eq. }
  rewrite (bind_Ret _ _ _ _ _ (load_obj_Some _ _ _ Hd4)).
  rewrite (bind_Ret _ _ _ _ _ (store_obj_Some _ _ _ _ Hd4)).
  set (od := of_object_init_map (object_id so) _ (version so) (length so) 0).
  set (s5 := with_objs s4 _).
  assert (Hd5 : objs s5 !! dst = Some od).
  { subst s5. simpl. apply lookup_insert_eq. }
  assert (Hwod : wire_object od
                 = {| wbuf := Some w'; obj_offset := 0; owned := 1 |}).
  { subst od. rewrite Hinit. reflexivity. }
  assert (Hbd5 : block_of s5 od = Some b').
  { unfold block_of, buffer_of. rewrite Hwod. simpl.
    rewrite lookup_insert_eq. reflexivity. }
  rewrite (bind_Ret _ _ _ _ _ (object_block_Some _ _ _ _ Hd5 Hbd5)).
  rewrite (bind_Ret _ _ _ _ _ (load_obj_Some _ _ _ Hd5)).
  assert (Hsrc5 : objs s5 !! src = Some so).
  { subst s5. simpl. rewrite lookup_insert_ne by done. exact Hsrc4. }
  assert (Hbs5 : block_of s5 so = Some b).
  { unfold block_of, buffer_of. rewrite Hw. simpl.
    rewrite lookup_insert_ne by done. rewrite Hwb. exact Hbuf. }
  rewrite (bind_Ret _ _ _ _ _ (object_block_Some _ _ _ _ Hsrc5 Hbs5)).
  rewrite (bind_Ret _ _ _ _ _ (load_obj_Some _ _ _ Hsrc5)).
  unfold OF_OBJECT_ABSOLUTE_OFFSET. rewrite Hwod. simpl obj_offset.
  rewrite (int_add_id (obj_offset (wire_object so)) 0)
    by (unfold INT_MIN; lia).
  change (int_add 0 0) with 0. rewrite Z.add_0_r.
  assert (Hblk : blocks s5 !! b = Some bs).
  { simpl. rewrite lookup_insert_ne by done. exact Hbs. }
  assert (Hblk' : blocks s5 !! b' = Some (replicate (Z.to_nat (length so)) 0))
    by (simpl; apply lookup_insert_eq).
  rewrite (bind_Ret _ _ s5 tt
             (with_blocks s5
                (<[b' := read_bytes (Z.to_nat (obj_offset (wire_object so)))
                           (Z.to_nat (length so)) bs]> (blocks s5)))).
  2:{ unfold MEMCPY.
      rewrite (bind_Ret _ _ _ _ _ (load_block_Some _ _ _ Hblk)).
      rewrite (bind_Ret _ _ _ _ _ (load_block_Some _ _ _ Hblk')).
      rewrite length_replicate.
      replace (_ && _) with true.
      2:{ symmetry. repeat (apply andb_true_intro; split); apply Z.leb_le; lia. }
      rewrite (store_block_Some _ _ _ _ Hblk'). do 3 f_equal.
      assert (Hl : List.length
                     (read_bytes (Z.to_nat (obj_offset (wire_object so)))
                        (Z.to_nat (length so)) bs) = Z.to_nat (length so))
        by (apply length_read_bytes; lia).
      rewrite <- Hl at 2. apply write_bytes_whole. }
  unfold ret. f_equal. unfold with_blocks, with_objs. simpl.
  f_equal.
  - rewrite !insert_insert_eq. reflexivity.
  - rewrite insert_insert_eq. reflexivity.
Qed.

(** [of_object_xid_set] writes to the block of the object's own buffer
    only. *)
Lemma of_object_xid_set_frame `{Externals} s obj o v r t b0 :
  objs s !! obj = Some o ->
  of_object_xid_set obj v s = Ret r t ->
  block_of s o <> Some b0 ->
  blocks t !! b0 = blocks s !! b0.
Proof.
  intros Ho Hrun Hb0. unfold of_object_xid_set in Hrun.
  rewrite (bind_Ret _ _ _ _ _ (load_obj_Some _ _ _ Ho)) in Hrun.
  unfold OF_OBJECT_TO_WBUF in Hrun.
  destruct (wbuf (wire_object o)) as [w|] eqn:Hw.
  - apply bind_inv in Hrun as (e & s1 & Hset & Hret).
    apply ret_inv in Hret as [_ ->].
    unfold of_wire_buffer_u32_set in Hset.
    apply bind_inv in Hset as (wb & s2 & Hwb & Hset).
    apply load_wbuf_inv in Hwb as [Hwb ->].
    destruct (u32_in_bounds wb _).
    + apply bind_inv in Hset as (b & s2 & Hb & Hset).
      apply nonnull_inv in Hb as [Hb ->].
      apply bind_inv in Hset as (bs & s2 & Hbs & Hset).
      apply load_block_inv in Hbs as [Hbs ->].
      destruct (_ <=? _); [|discriminate].
      apply bind_inv in Hset as (u & s2 & Hst & Hset).
      apply store_block_inv in Hst as [_ ->].
      apply ret_inv in Hset as [_ ->]. simpl.
      apply lookup_insert_ne. intros ->. apply Hb0.
      unfold block_of, buffer_of. rewrite Hw, Hwb. exact Hb.
    + apply ret_inv in Hset as [_ ->]. reflexivity.
  - apply ret_inv in Hrun as [_ ->]. reflexivity.
Qed.

(** C6. [of_object_dup(src)], when its allocations succeed: the
    duplicate's buffer is a fresh one allocated with exactly [src->length]
    bytes, the duplicate is the result of the type initializer of
    [src->object_id] and is a root that owns that buffer, and the buffer
    holds exactly the [src->length] bytes of the source's region, from
    offset 0.  The source is untouched.  The two objects' bytes live in
    different blocks: a store to either block, and [of_object_xid_set] on
    either object, leaves the other's bytes as they are.  (The
    initializer, called with [clean_wire = 0], leaves the object's wire
    object and parent alone.) *)
Theorem dup_is_an_independent_copy `{Externals} s src so b bs n :
  objs s !! src = Some so ->
  block_of s so = Some b -> blocks s !! b = Some bs ->
  avail s = S (S (S n)) ->
  0 <= length so -> 0 <= obj_offset (wire_object so) ->
  obj_offset (wire_object so) + length so <= Z.of_nat (List.length bs) ->
  obj_offset (wire_object so) <= INT_MAX ->
  (forall o v k,
     wire_object (of_object_init_map (object_id so) o v k 0) = wire_object o
     /\ parent (of_object_init_map (object_id so) o v k 0) = parent o) ->
  exists dst od w' b' bs' s',
    of_object_dup src s = Ret (Some dst) s' /\
    objs s !! dst = None /\ wbufs s !! w' = None /\ blocks s !! b' = None /\
    objs s' !! dst = Some od /\
    od = of_object_init_map (object_id so)
           (set_wire_object zero_object
              {| wbuf := Some w'; obj_offset := 0; owned := 1 |})
           (version so) (length so) 0 /\
    wire_object od = {| wbuf := Some w'; obj_offset := 0; owned := 1 |} /\
    parent od = None /\
    wbufs s' !! w' = Some {| buf := Some b'; alloc_bytes := length so;
                             current_bytes := 0; free := None |} /\
    blocks s' !! b' = Some bs' /\
    List.length bs' = Z.to_nat (length so) /\
    bs' = read_bytes (Z.to_nat (obj_offset (wire_object so)))
            (Z.to_nat (length so)) bs /\
    objs s' !! src = Some so /\ block_of s' so = Some b /\
    blocks s' !! b = Some bs /\
    b' <> b /\
    (forall x u t, store_block b' x s' = Ret u t -> blocks t !! b = Some bs) /\
    (forall x u t, store_block b x s' = Ret u t -> blocks t !! b' = Some bs') /\
    (forall v r t, of_object_xid_set dst v s' = Ret r t ->
                   blocks t !! b = Some bs) /\
    (forall v r t, of_object_xid_set src v s' = Ret r t ->
                   blocks t !! b' = Some bs').
Proof.
  intros Hsrc Hb Hbs Ha Hlen Hoff Hfit Hmax Hinit.
  pose proof (of_object_dup_run s src so b bs n Hsrc Hb Hbs Ha Hlen Hoff Hfit
                Hmax (fun o v k => proj1 (Hinit o v k))) as Hrun.
  set (dst := fresh (dom (objs s))) in *.
  set (w' := fresh (dom (wbufs s))) in *.
  set (b' := fresh (dom (blocks s))) in *.
  set (od := of_object_init_map (object_id so) _ (version so) (length so) 0) in *.
  set (bs' := read_bytes _ _ bs) in *.
  set (s' := {| objs := _; wbufs := _; blocks := _; avail := n |}) in *.
  destruct (block_of_Some _ _ _ Hb) as (w & wb & Hw & Hwb & Hbuf).
  assert (Hne : src <> dst) by (apply (lookup_fresh_ne _ _ _ Hsrc)).
  assert (Hbne : b <> b') by (apply (lookup_fresh_ne _ _ _ Hbs)).
  assert (Hwne : w <> w') by (apply (lookup_fresh_ne _ _ _ Hwb)).
  assert (Hwod : wire_object od
                 = {| wbuf := Some w'; obj_offset := 0; owned := 1 |}).
  { subst od. rewrite (proj1 (Hinit _ _ _)). reflexivity. }
  assert (Hd' : objs s' !! dst = Some od) by apply lookup_insert_eq.
  assert (Hs' : objs s' !! src = Some so).
  { subst s'. simpl. rewrite lookup_insert_ne by done. exact Hsrc. }
  assert (Hbo' : block_of s' so = Some b).
  { unfold block_of, buffer_of. rewrite Hw. subst s'. simpl.
    rewrite lookup_insert_ne by done. rewrite Hwb. exact Hbuf. }
  assert (Hbd' : block_of s' od = Some b').
  { unfold block_of, buffer_of. rewrite Hwod. subst s'. simpl.
    rewrite lookup_insert_eq. reflexivity. }
  assert (Hblk : blocks s' !! b = Some bs).
  { subst s'. simpl. rewrite lookup_insert_ne by done. exact Hbs. }
  assert (Hblk' : blocks s' !! b' = Some bs') by apply lookup_insert_eq.
  exists dst, od, w', b', bs', s'.
  split; [exact Hrun|].
  split; [apply fresh_lookup_None|].
  split; [apply fresh_lookup_None|].
  split; [apply fresh_lookup_None|].
  split; [exact Hd'|]. split; [reflexivity|]. split; [exact Hwod|].
  split; [subst od; rewrite (proj2 (Hinit _ _ _)); reflexivity|].
  split; [apply lookup_insert_eq|]. split; [exact Hblk'|].
  split; [subst bs'; apply length_read_bytes; lia|].
  split; [reflexivity|]. split; [exact Hs'|]. split; [exact Hbo'|].
  split; [exact Hblk|]. split; [congruence|].
  split; [|split; [|split]].
  - intros x u t Hst. apply store_block_inv in Hst as [_ ->]. simpl.
    rewrite lookup_insert_ne by done. rewrite lookup_insert_ne by done.
    exact Hbs.
  - intros x u t Hst. apply store_block_inv in Hst as [_ ->]. simpl.
    rewrite lookup_insert_ne by done. apply lookup_insert_eq.
  - intros v r t Hset.
    rewrite (of_object_xid_set_frame s' dst od v r t b Hd' Hset); [exact Hblk|].
    rewrite Hbd'. congruence.
  - intros v r t Hset.
    rewrite (of_object_xid_set_frame s' src so v r t b' Hs' Hset); [exact Hblk'|].
    rewrite Hbo'. congruence.
Qed.

Lemma dup_is_an_independent_copy_witness :
  exists dst od w' b' bs' s',
    @of_object_dup sample_externals 4%positive sample_store = Ret (Some dst) s' /\
    objs s' !! dst = Some od /\
    wire_object od = {| wbuf := Some w'; obj_offset := 0; owned := 1 |} /\
    blocks s' !! b' = Some bs' /\
    bs' = [0; 31; 0; 8; 0; 0; 0; 0].
Proof.
  destruct (@dup_is_an_independent_copy sample_externals sample_store 4%positive
              sample_entry 1%positive sample_bytes 5)
    as (dst & od & w' & b' & bs' & s' & Hrun & _ & _ & _ & Hd & _ & Hw & _ & _
        & Hb & _ & Hbs & _);
    try (vm_compute; first [reflexivity | discriminate]).
  - intros o v k. split; reflexivity.
  - exists dst, od, w', b', bs', s'.
    split; [exact Hrun|]. split; [exact Hd|]. split; [exact Hw|].
    split; [exact Hb|]. rewrite Hbs. reflexivity.
Defined.

(** ** Parent chains *)

Lemma ancestors_None n s l : ancestors n s None = Some l -> l = [].
Proof. destruct n; simpl; intros E; injection E as <-; reflexivity. Qed.

Lemma ancestors_Some n s p l :
  ancestors n s (Some p) = Some l ->
  exists n' o l', n = S n' /\ objs s !! p = Some o
                  /\ ancestors n' s (parent o) = Some l' /\ l = p :: l'.
Proof.
  destruct n as [|n']; simpl; [discriminate|].
  destruct (objs s !! p) as [o|]; [|discriminate].
  destruct (ancestors n' s (parent o)) as [l'|] eqn:E; [|discriminate].
  intros Hl. injection Hl as <-. eauto 10.
Qed.

Lemma ancestors_mono n s obj l :
  ancestors n s obj = Some l -> ancestors (S n) s obj = Some l.
Proof.
  revert obj l. induction n as [|n IH]; intros [p|] l E.
  - discriminate.
  - apply ancestors_None in E as ->. reflexivity.
  - apply ancestors_Some in E as (n' & o & l' & Hn & Ho & Hl' & ->).
    injection Hn as <-. apply IH in Hl'.
    change (ancestors (S (S n)) s (Some p))
      with (match objs s !! p with
            | None => None
            | Some o => match ancestors (S n) s (parent o) with
                        | Some l => Some (p :: l)
                        | None => None
                        end
            end).
    rewrite Ho, Hl'. reflexivity.
  - apply ancestors_None in E as ->. reflexivity.
Qed.

(** Every object of a chain heads a chain that is no longer. *)
Lemma ancestors_elem n s obj l q :
  ancestors n s obj = Some l -> q ∈ l ->
  exists l2, ancestors n s (Some q) = Some l2
             /\ (List.length l2 <= List.length l)%nat.
Proof.
  revert obj l. induction n as [|n IH]; intros [p|] l E Hq.
  - discriminate.
  - apply ancestors_None in E as ->. inversion Hq.
  - pose proof E as E'.
    apply ancestors_Some in E as (n' & o & l' & Hn & Ho & Hl' & ->).
    injection Hn as <-. apply elem_of_cons in Hq as [->|Hq].
    + exists (p :: l'). split; [exact E'|]. lia.
    + destruct (IH _ _ Hl' Hq) as (l2 & Hl2 & Hlen).
      exists l2. split; [apply ancestors_mono; exact Hl2|]. simpl. lia.
  - apply ancestors_None in E as ->. inversion Hq.
Qed.

(** A chain that ends at the root visits no object twice. *)
Lemma ancestors_NoDup n s obj l : ancestors n s obj = Some l -> NoDup l.
Proof.
  revert obj l. induction n as [|n IH]; intros [p|] l E.
  - discriminate.
  - apply ancestors_None in E as ->. constructor.
  - pose proof E as E'.
    apply ancestors_Some in E as (n' & o & l' & Hn & Ho & Hl' & ->).
    injection Hn as <-. constructor; [|exact (IH _ _ Hl')].
    intros Hin. destruct (ancestors_elem _ _ _ _ _ Hl' Hin) as (l2 & Hl2 & Hlen).
    apply ancestors_mono in Hl2. rewrite E' in Hl2. injection Hl2 as <-.
    simpl in Hlen. lia.
  - apply ancestors_None in E as ->. constructor.
Qed.

Lemma ancestors_length n s obj l :
  ancestors n s obj = Some l -> (List.length l <= n)%nat.
Proof.
  revert obj l. induction n as [|n IH]; intros [p|] l E.
  - discriminate.
  - apply ancestors_None in E as ->. simpl. lia.
  - apply ancestors_Some in E as (n' & o & l' & Hn & Ho & Hl' & ->).
    injection Hn as <-. apply IH in Hl'. simpl. lia.
  - apply ancestors_None in E as ->. simpl. lia.
Qed.

(** The chain depends on the parent pointers only. *)
Lemma ancestors_ext n s t obj :
  (forall q, parent <$> objs t !! q = parent <$> objs s !! q) ->
  ancestors n t obj = ancestors n s obj.
Proof.
  intros Hpar. revert obj. induction n as [|n IH]; intros [p|]; try reflexivity.
  simpl. specialize (Hpar p).
  destruct (objs t !! p) as [o1|], (objs s !! p) as [o2|];
    simpl in Hpar; try discriminate; [|reflexivity].
  injection Hpar as ->. rewrite IH. reflexivity.
Qed.

(** ** Length propagation, as the spec words it *)

Lemma persist_length_objs `{Externals} s o : objs (persist_length s o) = objs s.
Proof.
  unfold persist_length.
  destruct (wire_length_set o), (block_of s o) as [b|]; try reflexivity.
  destruct (blocks s !! b); reflexivity.
Qed.

Lemma persist_length_wbufs `{Externals} s o : wbufs (persist_length s o) = wbufs s.
Proof.
  unfold persist_length.
  destruct (wire_length_set o), (block_of s o) as [b|]; try reflexivity.
  destruct (blocks s !! b); reflexivity.
Qed.

Lemma persist_length_blocks `{Externals} s o b0 :
  is_Some (blocks (persist_length s o) !! b0) <-> is_Some (blocks s !! b0).
Proof.
  unfold persist_length.
  destruct (wire_length_set o), (block_of s o) as [b|]; try reflexivity.
  destruct (blocks s !! b) as [bs|] eqn:Hb; [|reflexivity]. simpl.
  destruct (decide (b = b0)) as [->|Hne].
  - rewrite lookup_insert_eq, Hb. split; eauto.
  - rewrite lookup_insert_ne by done. reflexivity.
Qed.

Lemma add_length_delta_objs_eq `{Externals} delta s p o :
  objs s !! p = Some o ->
  objs (add_length_delta delta s p) !! p
  = Some (set_length o (length o + delta)).
Proof.
  intros Ho. unfold add_length_delta. rewrite Ho, persist_length_objs.
  apply lookup_insert_eq.
Qed.

Lemma add_length_delta_objs_ne `{Externals} delta s p q :
  q <> p -> objs (add_length_delta delta s p) !! q = objs s !! q.
Proof.
  intros Hne. unfold add_length_delta.
  destruct (objs s !! p) as [o|]; [|reflexivity].
  rewrite persist_length_objs. simpl. apply lookup_insert_ne. congruence.
Qed.

Lemma add_length_delta_wbufs `{Externals} delta s p :
  wbufs (add_length_delta delta s p) = wbufs s.
Proof.
  unfold add_length_delta. destruct (objs s !! p); [|reflexivity].
  rewrite persist_length_wbufs. reflexivity.
Qed.

Lemma add_length_delta_blocks `{Externals} delta s p b0 :
  is_Some (blocks (add_length_delta delta s p) !! b0) <-> is_Some (blocks s !! b0).
Proof.
  unfold add_length_delta. destruct (objs s !! p); [|reflexivity].
  rewrite persist_length_blocks. reflexivity.
Qed.

Lemma add_length_delta_parent `{Externals} delta s p q :
  parent <$> objs (add_length_delta delta s p) !! q = parent <$> objs s !! q.
Proof.
  destruct (decide (q = p)) as [->|Hne].
  - destruct (objs s !! p) as [o|] eqn:Ho.
    + rewrite (add_length_delta_objs_eq _ _ _ _ Ho). reflexivity.
    + unfold add_length_delta. rewrite !Ho. reflexivity.
  - rewrite add_length_delta_objs_ne by exact Hne. reflexivity.
Qed.

Lemma propagate_cons `{Externals} p l delta s :
  propagate_length_delta (p :: l) delta s
  = propagate_length_delta l delta (add_length_delta delta s p).
Proof. reflexivity. Qed.

Lemma propagate_objs_notin `{Externals} l delta s q :
  q ∉ l -> objs (propagate_length_delta l delta s) !! q = objs s !! q.
Proof.
  revert s. induction l as [|p l IH]; intros s Hq; [reflexivity|].
  apply not_elem_of_cons in Hq as [Hne Hq].
  rewrite propagate_cons, IH by exact Hq.
  apply add_length_delta_objs_ne. exact Hne.
Qed.

Lemma propagate_objs_in `{Externals} l delta s p o :
  NoDup l -> p ∈ l -> objs s !! p = Some o ->
  objs (propagate_length_delta l delta s) !! p
  = Some (set_length o (length o + delta)).
Proof.
  revert s. induction l as [|q l IH]; intros s Hnd Hp Ho; [inversion Hp|].
  apply NoDup_cons in Hnd as [Hq Hnd]. rewrite propagate_cons.
  apply elem_of_cons in Hp as [->|Hp].
  - rewrite propagate_objs_notin by exact Hq.
    apply add_length_delta_objs_eq. exact Ho.
  - apply IH; [exact Hnd|exact Hp|].
    rewrite add_length_delta_objs_ne by (intros ->; contradiction).
    exact Ho.
Qed.

Lemma propagate_wbufs `{Externals} l delta s :
  wbufs (propagate_length_delta l delta s) = wbufs s.
Proof.
  revert s. induction l as [|p l IH]; intros s; [reflexivity|].
  rewrite propagate_cons, IH. apply add_length_delta_wbufs.
Qed.

Lemma propagate_blocks `{Externals} l delta s b0 :
  is_Some (blocks (propagate_length_delta l delta s) !! b0)
  <-> is_Some (blocks s !! b0).
Proof.
  revert s. induction l as [|p l IH]; intros s; [reflexivity|].
  rewrite propagate_cons, IH. apply add_length_delta_blocks.
Qed.

(** The checks of one object look at its struct, at the wire buffers and
    at which blocks exist. *)
Lemma length_check_ext s t p :
  objs t !! p = objs s !! p -> wbufs t = wbufs s ->
  length_check t p = length_check s p.
Proof.
  intros Ho Hw. unfold length_check, buffer_of. rewrite Ho, Hw. reflexivity.
Qed.

Lemma writer_target_ext s t p :
  objs t !! p = objs s !! p -> wbufs t = wbufs s ->
  (forall b, is_Some (blocks t !! b) <-> is_Some (blocks s !! b)) ->
  writer_target t p = writer_target s p.
Proof.
  intros Ho Hw Hb. unfold writer_target, block_of, buffer_of. rewrite Ho, Hw.
  destruct (objs s !! p) as [o|]; [|reflexivity].
  destruct (wire_length_set o); [|reflexivity].
  destruct (wbuf (wire_object o)) as [w|]; [|reflexivity].
  destruct (wbufs s !! w) as [wb|]; [|reflexivity].
  destruct (buf wb) as [b|]; [|reflexivity].
  apply bool_decide_ext. apply Hb.
Qed.

Lemma fits_int_ext s t delta p :
  objs t !! p = objs s !! p -> fits_int t delta p = fits_int s delta p.
Proof. intros Ho. unfold fits_int. rewrite Ho. reflexivity. Qed.

(** ** The length update loop *)

Lemma object_block_None s obj o :
  objs s !! obj = Some o -> block_of s o = None ->
  object_block obj s = Fail (UndefinedBehaviour s).
Proof.
  intros Ho Hb. unfold object_block.
  rewrite (bind_Ret _ _ _ _ _ (load_obj_Some _ _ _ Ho)).
  unfold block_of, buffer_of in Hb.
  destruct (wbuf (wire_object o)) as [w|]; [|reflexivity].
  rewrite (bind_Ret _ _ s w s) by reflexivity.
  unfold bind, load_wbuf.
  destruct (wbufs s !! w) as [wb|]; [|reflexivity].
  rewrite Hb. reflexivity.
Qed.

Lemma call_wire_length_set_None `{Externals} s f obj o len :
  objs s !! obj = Some o ->
  match block_of s o with
  | Some b => blocks s !! b = None
  | None => True
  end ->
  call_wire_length_set f obj len s = Fail (UndefinedBehaviour s).
Proof.
  intros Ho Hb. unfold call_wire_length_set.
  rewrite (bind_Ret _ _ _ _ _ (load_obj_Some _ _ _ Ho)).
  destruct (block_of s o) as [b|] eqn:Hblk.
  - rewrite (bind_Ret _ _ _ _ _ (object_block_Some _ _ _ _ Ho Hblk)).
    apply bind_Fail. unfold load_block. rewrite Hb. reflexivity.
  - apply bind_Fail. apply (object_block_None _ _ _ Ho Hblk).
Qed.

(** One turn of the loop on the object at [p]: either it performs the
    spec's step and goes on with the parent, or a check of the step
    fails. *)
Lemma parent_length_update_step `{Externals} fuel s p o delta count :
  objs s !! p = Some o -> fits_int s delta p = true -> 0 <= delta ->
  0 <= count < _MAX_PARENT_ITERATIONS ->
  (writer_target (add_length_delta delta s p) p
   && length_check (add_length_delta delta s p) p = true ->
   parent_length_update_loop (S fuel) (Some p) delta count s =
     parent_length_update_loop fuel (parent o) delta (count + 1)
       (add_length_delta delta s p)) /\
  (writer_target (add_length_delta delta s p) p
   && length_check (add_length_delta delta s p) p = false ->
   exists f, parent_length_update_loop (S fuel) (Some p) delta count s = Fail f).
Proof.
  intros Ho Hfit Hdelta Hcount.
  unfold fits_int in Hfit. rewrite Ho in Hfit.
  apply andb_prop in Hfit as [Hfit Hsum]. apply andb_prop in Hfit as [Hoff Hlen].
  apply Z.leb_le in Hoff, Hlen, Hsum.
  set (o' := set_length o (length o + delta)).
  set (s0 := with_objs s (<[p := o']> (objs s))).
  assert (Ho0 : objs s0 !! p = Some o') by apply lookup_insert_eq.
  assert (Hs1 : add_length_delta delta s p = persist_length s0 o').
  { unfold add_length_delta. rewrite Ho. reflexivity. }
  rewrite Hs1.
  assert (Hhead : parent_length_update_loop (S fuel) (Some p) delta count s =
            bind (match wire_length_set o' with
                  | Some f => call_wire_length_set f p (length o')
                  | None => ret tt
                  end)
              (fun _ =>
                 do o <- load_obj p;
                 do w <- nonnull (wbuf (wire_object o));
                 do wb <- load_wbuf w;
                 do _ <- LOCI_ASSERT
                           (int_add (length o) (obj_offset (wire_object o))
                            <=? current_bytes wb);
                 do _ <- (if parent o is None then
                            LOCI_ASSERT
                              (int_add (length o) (obj_offset (wire_object o))
                               =? current_bytes wb)
                          else ret tt);
                 parent_length_update_loop fuel (parent o) delta (int_add count 1))
              s0).
  { cbn [parent_length_update_loop]. unfold LOCI_ASSERT at 1.
    replace (count <? _MAX_PARENT_ITERATIONS) with true
      by (symmetry; apply Z.ltb_lt; lia).
    rewrite (bind_Ret _ _ s tt s) by reflexivity.
    rewrite (bind_Ret _ _ _ _ _ (load_obj_Some _ _ _ Ho)).
    rewrite (bind_Ret _ _ _ _ _ (store_obj_Some _ _ _ _ Ho)).
    rewrite (int_add_id (length o) delta)
      by (unfold INT_MIN, INT_MAX in *; lia).
    fold o'. fold s0.
    rewrite (bind_Ret _ _ _ _ _ (load_obj_Some _ _ _ Ho0)). reflexivity. }
  rewrite Hhead. clear Hhead.
  assert (Hcnt : int_add count 1 = count + 1).
  { apply int_add_id. unfold _MAX_PARENT_ITERATIONS, INT_MIN, INT_MAX in *. lia. }
  rewrite Hcnt.
  assert (Habs : int_add (length o') (obj_offset (wire_object o'))
                 = obj_offset (wire_object o') + length o').
  { rewrite int_add_id; simpl; unfold INT_MIN, INT_MAX in *; lia. }
  (* the rest of the turn, on the store the writer leaves *)
  assert (Htail : forall s1,
            objs s1 !! p = Some o' -> wbufs s1 = wbufs s ->
            (length_check s1 p = true ->
             (do o <- load_obj p;
              do w <- nonnull (wbuf (wire_object o));
              do wb <- load_wbuf w;
              do _ <- LOCI_ASSERT
                        (int_add (length o) (obj_offset (wire_object o))
                         <=? current_bytes wb);
              do _ <- (if parent o is None then
                         LOCI_ASSERT
                           (int_add (length o) (obj_offset (wire_object o))
                            =? current_bytes wb)
                       else ret tt);
              parent_length_update_loop fuel (parent o) delta (count + 1)) s1
             = parent_length_update_loop fuel (parent o) delta (count + 1) s1) /\
            (length_check s1 p = false ->
             exists f,
             (do o <- load_obj p;
              do w <- nonnull (wbuf (wire_object o));
              do wb <- load_wbuf w;
              do _ <- LOCI_ASSERT
                        (int_add (length o) (obj_offset (wire_object o))
                         <=? current_bytes wb);
              do _ <- (if parent o is None then
                         LOCI_ASSERT
                           (int_add (length o) (obj_offset (wire_object o))
                            =? current_bytes wb)
                       else ret tt);
              parent_length_update_loop fuel (parent o) delta (count + 1)) s1
             = Fail f)).
  { intros s1 Ho1 Hw1. unfold length_check, buffer_of. rewrite Ho1.
    rewrite (bind_Ret _ _ _ _ _ (load_obj_Some _ _ _ Ho1)). rewrite Habs.
    destruct (wbuf (wire_object o')) as [w|].
    2:{ split; [discriminate|]. intros _. eexists. reflexivity. }
    rewrite (bind_Ret _ _ s1 w s1) by reflexivity.
    destruct (wbufs s1 !! w) as [wb|] eqn:Hwb.
    2:{ split; [discriminate|]. intros _. eexists.
        apply bind_Fail. unfold load_wbuf. rewrite Hwb. reflexivity. }
    rewrite (bind_Ret _ _ _ _ _ (load_wbuf_Some _ _ _ Hwb)).
    change (parent o') with (parent o).
    destruct (obj_offset (wire_object o') + length o' <=? current_bytes wb).
    2:{ split; [discriminate|]. intros _. eexists. reflexivity. }
    rewrite (bind_Ret _ _ s1 tt s1) by reflexivity.
    destruct (parent o) as [q|].
    { split; [|discriminate]. intros _. reflexivity. }
    destruct (obj_offset (wire_object o') + length o' =? current_bytes wb).
    - split; [|discriminate]. intros _. reflexivity.
    - split; [discriminate|]. intros _. eexists. reflexivity. }
  assert (Hwt : forall s1,
            objs s1 !! p = Some o' -> wire_length_set o' = None ->
            writer_target s1 p = true).
  { intros s1 Ho1 Hnone. unfold writer_target. rewrite Ho1, Hnone. reflexivity. }
  unfold persist_length.
  destruct (wire_length_set o') as [f|] eqn:Hf.
  - destruct (block_of s0 o') as [b|] eqn:Hb.
    + destruct (blocks s0 !! b) as [bs|] eqn:Hbs.
      * rewrite (bind_Ret _ _ _ _ _
                   (call_wire_length_set_Some s0 f p o' (length o') b bs Ho0 Hb Hbs)).
        set (s1 := with_blocks s0 _).
        assert (Hwt1 : writer_target s1 p = true).
        { unfold writer_target. change (objs s1 !! p) with (objs s0 !! p).
          rewrite Ho0, Hf.
          change (block_of s1 o') with (block_of s0 o'). rewrite Hb.
          apply bool_decide_eq_true. subst s1. simpl.
          rewrite lookup_insert_eq. eauto. }
        rewrite Hwt1. simpl andb. apply (Htail s1); [exact Ho0|reflexivity].
      * split.
        -- intros Hok. apply andb_prop in Hok as [Hok _].
           unfold writer_target in Hok. rewrite Ho0, Hf, Hb in Hok.
           apply bool_decide_eq_true in Hok. rewrite Hbs in Hok.
           destruct Hok as [? Hok]. discriminate.
        -- intros _. eexists. apply bind_Fail.
           apply (call_wire_length_set_None s0 f p o' _ Ho0).
           rewrite Hb. exact Hbs.
    + split.
      * intros Hok. apply andb_prop in Hok as [Hok _].
        unfold writer_target in Hok. rewrite Ho0, Hf, Hb in Hok. discriminate.
      * intros _. eexists. apply bind_Fail.
        apply (call_wire_length_set_None s0 f p o' _ Ho0).
        rewrite Hb. exact I.
  - rewrite (bind_Ret _ _ s0 tt s0) by reflexivity.
    rewrite (Hwt s0 Ho0 eq_refl). simpl andb.
    apply (Htail s0); [exact Ho0|reflexivity].
Qed.

Lemma bind_ext {A B} (m : M A) (k1 k2 : A -> M B) s :
  (forall a t, k1 a t = k2 a t) -> bind m k1 s = bind m k2 s.
Proof. intros Hk. unfold bind. destruct (m s); [apply Hk|reflexivity]. Qed.

(** The recursion bound of the embedding is never what stops the loop:
    the assertion on the counter fails first, so more fuel changes
    nothing. *)
Lemma parent_length_update_fuel `{Externals} fuel :
  forall obj delta count s,
    0 <= count -> (Z.to_nat (_MAX_PARENT_ITERATIONS - count) < fuel)%nat ->
    parent_length_update_loop (S fuel) obj delta count s
    = parent_length_update_loop fuel obj delta count s.
Proof.
  induction fuel as [|fuel IH]; intros obj delta count s Hc Hfuel; [lia|].
  destruct obj as [p|]; [|reflexivity].
  cbn [parent_length_update_loop].
  unfold LOCI_ASSERT at 1 4.
  destruct (count <? _MAX_PARENT_ITERATIONS) eqn:Hlt; [|reflexivity].
  apply Z.ltb_lt in Hlt.
  repeat (apply bind_ext; intros ? ?).
  apply IH.
  - unfold int_add. rewrite int_wrap_id;
      unfold _MAX_PARENT_ITERATIONS, INT_MIN, INT_MAX in *; lia.
  - unfold int_add. rewrite int_wrap_id;
      unfold _MAX_PARENT_ITERATIONS, INT_MIN, INT_MAX in *; lia.
Qed.

(** The loop along a chain: it performs the spec's propagation when every
    check passes, and fails otherwise. *)
Lemma parent_length_update_chain `{Externals} l :
  forall n s obj delta count fuel,
    ancestors n s obj = Some l ->
    (List.length l <= fuel)%nat ->
    0 <= count ->
    count + Z.of_nat (List.length l) <= _MAX_PARENT_ITERATIONS ->
    0 <= delta ->
    forallb (fits_int s delta) l = true ->
    (chain_checks (propagate_length_delta l delta s) l = true ->
     parent_length_update_loop fuel obj delta count s
     = Ret tt (propagate_length_delta l delta s)) /\
    (chain_checks (propagate_length_delta l delta s) l = false ->
     exists f, parent_length_update_loop fuel obj delta count s = Fail f).
Proof.
  induction l as [|p l IH]; intros n s obj delta count fuel Hanc Hfuel Hc Hmax
                                   Hdelta Hfits.
  - destruct obj as [q|].
    + apply ancestors_Some in Hanc as (? & ? & ? & _ & _ & _ & Hnil).
      discriminate.
    + split; [|discriminate]. intros _. destruct fuel; reflexivity.
  - pose proof (ancestors_NoDup _ _ _ _ Hanc) as Hnd.
    apply NoDup_cons in Hnd as [Hp Hnd].
    destruct obj as [q|]; [|apply ancestors_None in Hanc; discriminate].
    apply ancestors_Some in Hanc as (n' & o & l' & -> & Ho & Hl' & Heq).
    injection Heq as <- <-.
    destruct fuel as [|fuel]; [simpl in Hfuel; lia|].
    simpl in Hfits. apply andb_prop in Hfits as [Hfit Hfits].
    simpl List.length in *.
    assert (Hcount : 0 <= count < _MAX_PARENT_ITERATIONS) by lia.
    destruct (parent_length_update_step fuel s p o delta count
                Ho Hfit Hdelta Hcount) as [Hok Hbad].
    set (s1 := add_length_delta delta s p) in *.
    rewrite propagate_cons. fold s1.
    set (s' := propagate_length_delta l delta s1).
    assert (Hobj : objs s' !! p = objs s1 !! p)
      by (apply propagate_objs_notin; exact Hp).
    assert (Hwb : wbufs s' = wbufs s1) by apply propagate_wbufs.
    assert (Hchk : writer_target s' p && length_check s' p
                   = writer_target s1 p && length_check s1 p).
    { f_equal.
      - apply writer_target_ext; [exact Hobj|exact Hwb|].
        intros b. apply propagate_blocks.
      - apply length_check_ext; [exact Hobj|exact Hwb]. }
    assert (Hanc1 : ancestors n' s1 (parent o) = Some l).
    { rewrite <- Hl'. apply ancestors_ext. intros q.
      apply add_length_delta_parent. }
    assert (Hfits1 : forallb (fits_int s1 delta) l = true).
    { apply forallb_forall. intros q Hq.
      rewrite (fits_int_ext s s1 delta q).
      - revert q Hq. apply forallb_forall. exact Hfits.
      - apply add_length_delta_objs_ne.
        intros ->. apply Hp. apply list_elem_of_In. exact Hq. }
    destruct (IH n' s1 (parent o) delta (count + 1) fuel Hanc1)
      as [IHok IHbad]; try lia; try assumption.
    unfold chain_checks. simpl forallb. rewrite Hchk.
    destruct (writer_target s1 p && length_check s1 p).
    + rewrite (Hok eq_refl). simpl andb. split; assumption.
    + split; [discriminate|]. intros _. exact (Hbad eq_refl).
Qed.

Lemma length_check_true s p :
  length_check s p = true ->
  exists o wb,
    objs s !! p = Some o /\ buffer_of s o = Some wb /\
    obj_offset (wire_object o) + length o <= current_bytes wb /\
    (parent o = None ->
     obj_offset (wire_object o) + length o = current_bytes wb).
Proof.
  unfold length_check. destruct (objs s !! p) as [o|]; [|discriminate].
  destruct (buffer_of s o) as [wb|] eqn:Hwb; [|discriminate].
  intros Hc. apply andb_prop in Hc as [Hle Heq].
  exists o, wb. split; [reflexivity|]. split; [exact Hwb|].
  split; [apply Z.leb_le; exact Hle|].
  intros Hroot. rewrite Hroot in Heq. apply Z.eqb_eq. exact Heq.
Qed.

(** When the turn of the object at [p] comes, its length-writer is applied
    to the bytes the objects before it have left. *)
Lemma propagate_persists `{Externals} l1 p l2 delta s o f b bs :
  NoDup (l1 ++ p :: l2) ->
  objs s !! p = Some o -> wire_length_set o = Some f ->
  block_of s o = Some b ->
  blocks (propagate_length_delta l1 delta s) !! b = Some bs ->
  blocks (propagate_length_delta (l1 ++ [p]) delta s) !! b
  = Some (wire_length_set_fn f (set_length o (length o + delta))
            (length o + delta) bs).
Proof.
  intros Hnd Ho Hf Hb Hbs.
  assert (Hp : p ∉ l1).
  { apply NoDup_app in Hnd as (_ & Hdisj & _). intros Hin.
    apply (Hdisj p Hin). apply list_elem_of_here. }
  unfold propagate_length_delta. rewrite foldl_app. simpl.
  fold (propagate_length_delta l1 delta s).
  set (t := propagate_length_delta l1 delta s) in *.
  assert (Hot : objs t !! p = Some o)
    by (subst t; rewrite propagate_objs_notin by exact Hp; exact Ho).
  unfold add_length_delta. rewrite Hot. unfold persist_length. simpl.
  rewrite Hf.
  assert (Hbt : block_of
                  (with_objs t (<[p := set_length o (length o + delta)]> (objs t)))
                  (set_length o (length o + delta)) = Some b).
  { unfold block_of, buffer_of in *. simpl. subst t.
    rewrite propagate_wbufs. exact Hb. }
  rewrite Hbt. simpl. rewrite Hbs. simpl. apply lookup_insert_eq.
Qed.

(** C1. For an object whose parent chain [l] has at most 4 objects and a
    positive [delta] (lengths and offsets being non-negative [int]s that
    do not overflow), [of_object_parent_length_update(obj, delta)] either
    fails a check or returns the store [s'] of the spec's propagation: in
    [s'] the length of the object and of every ancestor up to the root is
    the old one plus [delta], every object of the chain that has a
    length-writer has had its new length written into its wire bytes when
    its turn came, and no other object and no wire buffer is changed.  It returns exactly when the checks pass, and
    then every object of the chain satisfies
    [obj_offset + length <= current_bytes] and the root satisfies
    [obj_offset + length = current_bytes]. *)
Theorem parent_length_update_propagates `{Externals} s obj l delta :
  ancestors 4 s obj = Some l ->
  0 < delta ->
  forallb (fits_int s delta) l = true ->
  (forall p o, p ∈ l -> objs s !! p = Some o ->
     objs (propagate_length_delta l delta s) !! p
     = Some (set_length o (length o + delta))) /\
  (forall q, q ∉ l ->
     objs (propagate_length_delta l delta s) !! q = objs s !! q) /\
  wbufs (propagate_length_delta l delta s) = wbufs s /\
  (forall l1 p l2 o f b bs,
     l = l1 ++ p :: l2 ->
     objs s !! p = Some o -> wire_length_set o = Some f ->
     block_of s o = Some b ->
     blocks (propagate_length_delta l1 delta s) !! b = Some bs ->
     blocks (propagate_length_delta (l1 ++ [p]) delta s) !! b
     = Some (wire_length_set_fn f (set_length o (length o + delta))
               (length o + delta) bs)) /\
  (of_object_parent_length_update obj delta s
   = Ret tt (propagate_length_delta l delta s)
   \/ exists f, of_object_parent_length_update obj delta s = Fail f) /\
  (of_object_parent_length_update obj delta s
   = Ret tt (propagate_length_delta l delta s)
   <-> chain_checks (propagate_length_delta l delta s) l = true) /\
  (of_object_parent_length_update obj delta s
   = Ret tt (propagate_length_delta l delta s) ->
   forall p, p ∈ l ->
     exists o wb,
       objs (propagate_length_delta l delta s) !! p = Some o /\
       buffer_of (propagate_length_delta l delta s) o = Some wb /\
       obj_offset (wire_object o) + length o <= current_bytes wb /\
       (parent o = None ->
        obj_offset (wire_object o) + length o = current_bytes wb)).
Proof.
  intros Hanc Hdelta Hfits.
  set (s' := propagate_length_delta l delta s).
  pose proof (ancestors_NoDup _ _ _ _ Hanc) as Hnd.
  pose proof (ancestors_length _ _ _ _ Hanc) as Hlen.
  destruct (parent_length_update_chain l 4 s obj delta 0 5 Hanc)
    as [Hok Hbad]; try assumption;
    try (unfold _MAX_PARENT_ITERATIONS; lia).
  fold s' in Hok, Hbad.
  change (parent_length_update_loop 5 obj delta 0 s)
    with (of_object_parent_length_update obj delta s) in Hok, Hbad.
  assert (Hiff : of_object_parent_length_update obj delta s = Ret tt s'
                 <-> chain_checks s' l = true).
  { split; [|exact Hok]. intros Hrun.
    destruct (chain_checks s' l); [reflexivity|].
    destruct (Hbad eq_refl) as [f Hf]. rewrite Hf in Hrun. discriminate. }
  split; [intros p o Hp Ho; apply propagate_objs_in; assumption|].
  split; [intros q Hq; apply propagate_objs_notin; exact Hq|].
  split; [apply propagate_wbufs|].
  split; [intros l1 p l2 o f b bs Hl; subst l; subst s';
          apply (propagate_persists l1 p l2); exact Hnd|].
  split; [destruct (chain_checks s' l); [left; exact (Hok eq_refl)
                                        |right; exact (Hbad eq_refl)]|].
  split; [exact Hiff|].
  intros Hrun p Hp. apply Hiff in Hrun. unfold chain_checks in Hrun.
  rewrite forallb_forall in Hrun.
  specialize (Hrun p (proj1 (list_elem_of_In _ _) Hp)).
  apply andb_prop in Hrun as [_ Hchk].
  apply length_check_true. exact Hchk.
Qed.

Lemma parent_length_update_propagates_witness :
  @of_object_parent_length_update sample_externals (Some 2%positive) 12 sample_grown
  = Ret tt (@propagate_length_delta sample_externals [2%positive; 1%positive] 12
              sample_grown).
Proof.
  refine (proj2 (proj1 (proj2 (proj2 (proj2 (proj2 (proj2
            (@parent_length_update_propagates sample_externals sample_grown
               (Some 2%positive) [2%positive; 1%positive] 12 _ _ _))))))) _);
    vm_compute; reflexivity.
Defined.

(** A look at the bytes: in the sample store the propagation writes the
    new length 28 of the message into its header. *)
Example sample_update_bytes :
  blocks (@propagate_length_delta sample_externals [2%positive; 1%positive] 12
            sample_grown) !! 1%positive
  = Some ([1; 10; 0; 28; 0; 0; 0; 7; 0; 31; 0; 8; 0; 0; 0; 0] ++ replicate 48 0).
Proof. vm_compute. reflexivity. Qed.

(** ** Appending to a list *)

Lemma set_length_same o : set_length o (length o) = o.
Proof. destruct o. reflexivity. Qed.

(** A chain is the same in any store that agrees on the parents of its
    objects. *)
Lemma ancestors_ext_in n s t obj l :
  ancestors n s obj = Some l ->
  (forall q, q ∈ l -> parent <$> objs t !! q = parent <$> objs s !! q) ->
  ancestors n t obj = Some l.
Proof.
  revert obj l. induction n as [|n IH]; intros [p|] l E Hpar.
  - discriminate.
  - exact E.
  - apply ancestors_Some in E as (n' & o & l' & Hn & Ho & Hl' & ->).
    injection Hn as <-.
    pose proof (Hpar p (list_elem_of_here _ _)) as Hp. rewrite Ho in Hp.
    simpl. destruct (objs t !! p) as [o1|]; [|discriminate].
    simpl in Hp. injection Hp as ->.
    rewrite (IH _ _ Hl'); [reflexivity|].
    intros q Hq. apply Hpar. apply list_elem_of_further. exact Hq.
  - exact E.
Qed.

(** [object_child_attach] as [of_list_append_bind] calls it performs the
    spec's attach. *)
Lemma object_child_attach_append s p c po co w wb :
  objs s !! p = Some po -> objs s !! c = Some co -> p <> c ->
  wbuf (wire_object po) = Some w -> wbufs s !! w = Some wb ->
  0 <= obj_offset (wire_object po) -> 0 <= length po -> 0 <= length co ->
  obj_offset (wire_object po) + length po + length co <= INT_MAX ->
  obj_offset (wire_object po) + length po + length co <= alloc_bytes wb ->
  object_child_attach p c (length po) (length co) s
  = Ret tt (attach_child s p c (length po) (length co)).
Proof.
  intros Hp Hc Hne Hw Hwb Hoff Hpl Hcl Hmax Hcap.
  assert (Ha1 : int_add (obj_offset (wire_object po)) (length po)
                = obj_offset (wire_object po) + length po)
    by (apply int_add_id; unfold INT_MIN, INT_MAX in *; lia).
  assert (Ha2 : int_add (obj_offset (wire_object po) + length po) (length co)
                = obj_offset (wire_object po) + length po + length co)
    by (apply int_add_id; unfold INT_MIN, INT_MAX in *; lia).
  unfold attach_child. rewrite Hp, Hc.
  destruct (0 <? length co) eqn:Hpos.
  - apply Z.ltb_lt in Hpos.
    rewrite (object_child_attach_reserve s p c po co w wb _ _ Hp Hc Hne Hpos Hw Hwb)
      by (rewrite Ha1, Ha2; exact Hcap).
    rewrite Ha1, Ha2, Hw. unfold reserve_bytes. simpl. rewrite Hwb.
    destruct (_ <? _); reflexivity.
  - apply Z.ltb_ge in Hpos.
    rewrite (object_child_attach_read s p c po co _ _ Hp Hc Hpos).
    rewrite Ha1. reflexivity.
Qed.

Lemma run_length_writer `{Externals} t c co1 b :
  objs t !! c = Some co1 -> block_of t co1 = Some b -> is_Some (blocks t !! b) ->
  match wire_length_set co1 with
  | Some f => call_wire_length_set f c (length co1)
  | None => ret tt
  end t = Ret tt (persist_length t co1).
Proof.
  intros Hc Hb [bs Hbs]. unfold persist_length. rewrite Hb, Hbs.
  destruct (wire_length_set co1) as [f|]; [|reflexivity].
  apply (call_wire_length_set_Some _ _ _ _ _ _ _ Hc Hb Hbs).
Qed.

Lemma run_type_writer `{Externals} t c co1 b :
  objs t !! c = Some co1 -> block_of t co1 = Some b -> is_Some (blocks t !! b) ->
  match wire_type_set co1 with
  | Some f => call_wire_type_set f c
  | None => ret tt
  end t = Ret tt (persist_type t co1).
Proof.
  intros Hc Hb [bs Hbs]. unfold persist_type. rewrite Hb, Hbs.
  destruct (wire_type_set co1) as [f|]; [|reflexivity].
  apply (call_wire_type_set_Some _ _ _ _ _ _ Hc Hb Hbs).
Qed.

Lemma persist_type_objs `{Externals} s o : objs (persist_type s o) = objs s.
Proof.
  unfold persist_type.
  destruct (wire_type_set o), (block_of s o) as [b|]; try reflexivity.
  destruct (blocks s !! b); reflexivity.
Qed.


(** What the spec's attach leaves, for the attach of an append. *)
Lemma attach_child_append s p c po co w wb :
  objs s !! p = Some po -> objs s !! c = Some co ->
  wbuf (wire_object po) = Some w -> wbufs s !! w = Some wb ->
  objs (attach_child s p c (length po) (length co))
  = <[c := set_wire_object (set_parent co (Some p))
             {| wbuf := Some w;
                obj_offset := obj_offset (wire_object po) + length po;
                owned := 0 |}]> (objs s) /\
  wbufs (attach_child s p c (length po) (length co))
  = <[w := if (0 <? length co)
                && (current_bytes wb
                    <? obj_offset (wire_object po) + length po + length co)
           then set_current_bytes wb
                  (obj_offset (wire_object po) + length po + length co)
           else wb]> (wbufs s) /\
  blocks (attach_child s p c (length po) (length co)) = blocks s.
Proof.
  intros Hp Hc Hw Hwb. unfold attach_child. rewrite Hp, Hc, Hw.
  assert (Hsl : set_length
                  (set_wire_object (set_parent co (Some p))
                     {| wbuf := Some w;
                        obj_offset := obj_offset (wire_object po) + length po;
                        owned := 0 |}) (length co)
                = set_wire_object (set_parent co (Some p))
                    {| wbuf := Some w;
                       obj_offset := obj_offset (wire_object po) + length po;
                       owned := 0 |})
    by (destruct co; reflexivity).
  destruct (0 <? length co).
  - unfold reserve_bytes. simpl. rewrite Hwb, Hsl.
    destruct (_ <? _); simpl; repeat split; try reflexivity.
    symmetry. apply insert_id. exact Hwb.
  - simpl. repeat split; try reflexivity.
    symmetry. apply insert_id. exact Hwb.
Qed.

(** The run of [of_list_append_bind] past its two early returns. *)
Lemma append_bind_run `{Externals} s p c po co w wb b l :
  objs s !! p = Some po -> objs s !! c = Some co ->
  wbuf (wire_object po) = Some w -> wbufs s !! w = Some wb ->
  buf wb = Some b -> is_Some (blocks s !! b) ->
  0 <= obj_offset (wire_object po) -> 0 <= length po -> 0 <= length co ->
  obj_offset (wire_object po) + length po + length co <= INT_MAX ->
  obj_offset (wire_object po) + length po + length co <= alloc_bytes wb ->
  ancestors 4 s (Some p) = Some l -> c ∉ l ->
  forallb (fits_int s (length co)) l = true ->
  (chain_checks
     (propagate_length_delta l (length co)
        (persist_tags (attach_child s p c (length po) (length co)) c)) l
   && OF_LENGTH_CHECK
        (propagate_length_delta l (length co)
           (persist_tags (attach_child s p c (length po) (length co)) c)) p
   = true ->
   of_list_append_bind (Some p) (Some c) s
   = Ret OF_ERROR_NONE
       (propagate_length_delta l (length co)
          (persist_tags (attach_child s p c (length po) (length co)) c))) /\
  (chain_checks
     (propagate_length_delta l (length co)
        (persist_tags (attach_child s p c (length po) (length co)) c)) l
   && OF_LENGTH_CHECK
        (propagate_length_delta l (length co)
           (persist_tags (attach_child s p c (length po) (length co)) c)) p
   = false ->
   exists f, of_list_append_bind (Some p) (Some c) s = Fail f).
Proof.
  intros Hp Hc Hw Hwb Hb Hbs Hoff Hpl Hcl Hmax Hcap Hanc Hcl' Hfits.
  assert (Hpl' : p ∈ l).
  { apply ancestors_Some in Hanc as (? & ? & ? & _ & _ & _ & ->).
    apply list_elem_of_here. }
  assert (Hne : p <> c) by (intros ->; contradiction).
  destruct (attach_child_append s p c po co w wb Hp Hc Hw Hwb)
    as (Hobjs1 & Hwbufs1 & Hblocks1).
  set (s1 := attach_child s p c (length po) (length co)) in *.
  set (co1 := set_wire_object (set_parent co (Some p)) _) in *.
  set (wb1 := if _ && _ then _ else wb) in *.
  assert (Hc1 : objs s1 !! c = Some co1)
    by (rewrite Hobjs1; apply lookup_insert_eq).
  assert (Hb1 : block_of s1 co1 = Some b).
  { unfold block_of, buffer_of. simpl. rewrite Hwbufs1, lookup_insert_eq.
    subst wb1. destruct (_ && _); exact Hb. }
  assert (Hbs1 : is_Some (blocks s1 !! b)) by (rewrite Hblocks1; exact Hbs).
  set (s1a := persist_length s1 co1).
  assert (Hc1a : objs s1a !! c = Some co1)
    by (subst s1a; rewrite persist_length_objs; exact Hc1).
  assert (Hb1a : block_of s1a co1 = Some b).
  { unfold block_of, buffer_of in *. subst s1a.
    rewrite persist_length_wbufs. exact Hb1. }
  assert (Hbs1a : is_Some (blocks s1a !! b))
    by (subst s1a; apply persist_length_blocks; exact Hbs1).
  assert (Hs2 : persist_tags s1 c = persist_type s1a co1).
  { unfold persist_tags. rewrite Hc1. reflexivity. }
  rewrite Hs2. set (s2 := persist_type s1a co1).
  assert (Hobjs2 : objs s2 = objs s1).
  { subst s2 s1a. rewrite persist_type_objs, persist_length_objs. reflexivity. }
  assert (Hc2 : objs s2 !! c = Some co1) by (rewrite Hobjs2; exact Hc1).
  assert (Hsame : forall q, q ∈ l -> objs s2 !! q = objs s !! q).
  { intros q Hq. rewrite Hobjs2, Hobjs1. apply lookup_insert_ne.
    intros ->. contradiction. }
  assert (Hanc2 : ancestors 4 s2 (Some p) = Some l).
  { apply (ancestors_ext_in 4 s s2 _ _ Hanc). intros q Hq.
    rewrite (Hsame q Hq). reflexivity. }
  assert (Hfits2 : forallb (fits_int s2 (length co)) l = true).
  { apply forallb_forall. intros q Hq.
    rewrite (fits_int_ext s s2 (length co) q).
    - revert q Hq. apply forallb_forall. exact Hfits.
    - apply Hsame. apply list_elem_of_In. exact Hq. }
  pose proof (ancestors_length _ _ _ _ Hanc) as Hlen.
  destruct (parent_length_update_chain l 4 s2 (Some p) (length co) 0 5 Hanc2)
    as [Hok Hbad]; try assumption;
    try (unfold _MAX_PARENT_ITERATIONS; lia).
  change (parent_length_update_loop 5 (Some p) (length co) 0 s2)
    with (of_object_parent_length_update (Some p) (length co) s2) in Hok, Hbad.
  set (s' := propagate_length_delta l (length co) s2) in *.
  assert (Hhead : of_list_append_bind (Some p) (Some c) s =
            bind (of_object_parent_length_update (Some p) (length co))
              (fun _ => do _ <- OF_LENGTH_CHECK_ASSERT p; ret OF_ERROR_NONE) s2).
  { unfold of_list_append_bind.
    rewrite (bind_Ret _ _ _ _ _ (load_obj_Some _ _ _ Hp)). rewrite Hw.
    rewrite (bind_Ret _ _ _ _ _ (load_obj_Some _ _ _ Hc)).
    rewrite (bind_Ret _ _ s true s).
    2:{ unfold of_object_can_grow.
        rewrite (bind_Ret _ _ _ _ _ (load_obj_Some _ _ _ Hp)). rewrite Hw.
        rewrite (bind_Ret _ _ s w s) by reflexivity.
        rewrite (bind_Ret _ _ _ _ _ (load_wbuf_Some _ _ _ Hwb)).
        unfold ret, OF_OBJECT_ABSOLUTE_OFFSET. f_equal.
        rewrite (int_add_id (length po)) by (unfold INT_MIN, INT_MAX in *; lia).
        rewrite int_add_id by (unfold INT_MIN, INT_MAX in *; lia).
        apply Z.leb_le. lia. }
    change (negb true) with false. cbv iota.
    rewrite (bind_Ret _ _ _ _ _
               (object_child_attach_append s p c po co w wb Hp Hc Hne Hw Hwb
                  Hoff Hpl Hcl Hmax Hcap)).
    fold s1.
    rewrite (bind_Ret _ _ _ _ _ (load_obj_Some _ _ _ Hc1)).
    rewrite (bind_Ret _ _ _ _ _ (run_length_writer s1 c co1 b Hc1 Hb1 Hbs1)).
    fold s1a.
    rewrite (bind_Ret _ _ _ _ _ (load_obj_Some _ _ _ Hc1a)).
    rewrite (bind_Ret _ _ _ _ _ (run_type_writer s1a c co1 b Hc1a Hb1a Hbs1a)).
    fold s2.
    rewrite (bind_Ret _ _ _ _ _ (load_obj_Some _ _ _ Hc2)).
    reflexivity. }
  rewrite Hhead. clear Hhead.
  destruct (chain_checks s' l).
  - rewrite (bind_Ret _ _ _ _ _ (Hok eq_refl)).
    unfold bind, OF_LENGTH_CHECK_ASSERT, LOCI_ASSERT. cbv beta. simpl andb.
    destruct (OF_LENGTH_CHECK s' p).
    + split; [|discriminate]. intros _. reflexivity.
    + split; [discriminate|]. intros _. eexists. reflexivity.
  - simpl andb. split; [discriminate|]. intros _.
    destruct (Hbad eq_refl) as [f Hf]. exists f. apply bind_Fail. exact Hf.
Qed.

Lemma persist_tags_objs `{Externals} s c : objs (persist_tags s c) = objs s.
Proof.
  unfold persist_tags. destruct (objs s !! c); [|reflexivity].
  rewrite persist_type_objs, persist_length_objs. reflexivity.
Qed.






(** ** The scenario of the spec, run

    Three appends of lengths 8, 12 and 8 to the list at offset 8 of a
    message with an 8-byte header: the elements are found at relative
    offsets 0, 8 and 20 with their lengths, one more [of_list_next] is out
    of range, the list is 28 bytes long and the message 36. *)
Example scenario_runs :
  exists s', scenario scenario_store
             = Ret ([(0, 8); (8, 12); (20, 8)], OF_ERROR_RANGE, 28, 36) s'.
Proof. eexists. vm_compute. reflexivity. Qed.

(** * Further properties of [of_object.c] *)

(** ** Construction and destruction *)

(** The store with no allocation left. *)
Lemma exhausted_eq s :
  avail s = O ->
  s = {| objs := objs s; wbufs := wbufs s; blocks := blocks s; avail := O |}.
Proof. destruct s. simpl. intros ->. reflexivity. Qed.

(** [of_wire_buffer_new] without the two allocations it needs: the struct
    it may have allocated is freed again. *)
Lemma of_wire_buffer_new_None s bytes :
  (avail s < 2)%nat ->
  of_wire_buffer_new bytes s =
    Ret None {| objs := objs s; wbufs := wbufs s; blocks := blocks s;
                avail := O |}.
Proof.
  intros Ha. unfold of_wire_buffer_new, bind, MALLOC_wbuf.
  destruct (avail s) as [|[|n]] eqn:Hav; [| |lia].
  - unfold ret. f_equal. apply exhausted_eq. exact Hav.
  - unfold MALLOC_block. simpl. unfold FREE_wbuf. simpl.
    rewrite lookup_insert_eq. unfold ret, with_wbufs. simpl.
    rewrite delete_insert_id by apply fresh_lookup_None. reflexivity.
Qed.

(** The three ways [of_object_new] ends. *)
Lemma of_object_new_run s bytes :
  ((avail s < (if (0 <? bytes)%Z then 3 else 1))%nat ->
   of_object_new bytes s =
     Ret None {| objs := objs s; wbufs := wbufs s; blocks := blocks s;
                 avail := O |}) /\
  (forall n, bytes <= 0 -> avail s = S n ->
   of_object_new bytes s =
     Ret (Some (fresh (dom (objs s))))
       {| objs := <[fresh (dom (objs s)) := zero_object]> (objs s);
          wbufs := wbufs s; blocks := blocks s; avail := n |}) /\
  (forall n, 0 < bytes -> avail s = S (S (S n)) ->
   of_object_new bytes s =
     Ret (Some (fresh (dom (objs s))))
       {| objs :=
            <[fresh (dom (objs s)) :=
                set_wire_object zero_object
                  {| wbuf := Some (fresh (dom (wbufs s)));
                     obj_offset := 0; owned := 1 |}]> (objs s);
          wbufs := <[fresh (dom (wbufs s)) :=
                       {| buf := Some (fresh (dom (blocks s)));
                          alloc_bytes := bytes; current_bytes := 0;
                          free := None |}]> (wbufs s);
          blocks := <[fresh (dom (blocks s)) := replicate (Z.to_nat bytes) 0]>
                      (blocks s);
          avail := n |}).
Proof.
  split; [|split].
  - intros Ha. unfold of_object_new.
    destruct (avail s) as [|n] eqn:Hav.
    + unfold bind, MALLOC_obj. rewrite Hav. unfold ret. f_equal.
      apply exhausted_eq. exact Hav.
    + destruct (0 <? bytes) eqn:Hb; [|lia].
      rewrite (bind_Ret _ _ _ _ _ (MALLOC_obj_Some s n Hav)).
      set (p := fresh (dom (objs s))).
      set (s1 := {| objs := <[p := uninitialized_object]> (objs s); wbufs := wbufs s;
                    blocks := blocks s; avail := n |}).
      assert (Hp1 : objs s1 !! p = Some uninitialized_object) by apply lookup_insert_eq.
      rewrite (bind_Ret _ _ _ _ _ (store_obj_Some _ _ _ zero_object Hp1)).
      set (s2 := with_objs s1 _).
      rewrite (bind_Ret _ _ _ _ _ (of_wire_buffer_new_None s2 bytes
                                     ltac:(simpl; lia))).
      unfold bind, FREE_obj. simpl. rewrite lookup_insert_eq.
      unfold ret, with_objs. simpl.
      rewrite insert_insert_eq.
      rewrite delete_insert_id by apply fresh_lookup_None. reflexivity.
  - intros n Hb Hav. unfold of_object_new.
    rewrite (bind_Ret _ _ _ _ _ (MALLOC_obj_Some s n Hav)).
    set (p := fresh (dom (objs s))).
    set (s1 := {| objs := <[p := uninitialized_object]> (objs s); wbufs := wbufs s;
                  blocks := blocks s; avail := n |}).
    assert (Hp1 : objs s1 !! p = Some uninitialized_object) by apply lookup_insert_eq.
    rewrite (bind_Ret _ _ _ _ _ (store_obj_Some _ _ _ zero_object Hp1)).
    replace (0 <? bytes) with false by (symmetry; apply Z.ltb_ge; lia).
    unfold ret, with_objs. simpl. rewrite insert_insert_eq. reflexivity.
  - intros n Hb Hav. unfold of_object_new.
    rewrite (bind_Ret _ _ _ _ _ (MALLOC_obj_Some s _ Hav)).
    set (p := fresh (dom (objs s))).
    set (s1 := {| objs := <[p := uninitialized_object]> (objs s); wbufs := wbufs s;
                  blocks := blocks s; avail := S (S n) |}).
    assert (Hp1 : objs s1 !! p = Some uninitialized_object) by apply lookup_insert_eq.
    rewrite (bind_Ret _ _ _ _ _ (store_obj_Some _ _ _ zero_object Hp1)).
    replace (0 <? bytes) with true by (symmetry; apply Z.ltb_lt; lia).
    set (s2 := with_objs s1 _).
    rewrite (bind_Ret _ _ _ _ _ (of_wire_buffer_new_Some s2 n bytes eq_refl)).
    set (s3 := {| objs := objs s2; wbufs := _; blocks := _; avail := n |}).
    assert (Hp3 : objs s3 !! p = Some zero_object).
    { subst s3 s2 s1. simpl. apply lookup_insert_eq. }
    rewrite (bind_Ret _ _ _ _ _ (load_obj_Some _ _ _ Hp3)).
    rewrite (bind_Ret _ _ _ _ _ (store_obj_Some _ _ _ _ Hp3)).
    unfold ret, with_objs. subst s3 s2 s1. simpl.
    rewrite !insert_insert_eq. reflexivity.
Qed.

(** X1. [of_object_new(bytes)] never faults.  It returns [NULL] exactly
    when the allocations it needs (one, and two more for a buffer when
    [bytes > 0]) are not all available, and then no object, wire buffer or
    block is left behind; otherwise it returns a fresh object, zeroed, a
    root, that owns a fresh empty buffer of exactly [bytes] cleared bytes
    when [bytes > 0] and has no buffer when [bytes <= 0], everything that
    existed being untouched.  Zeroed: the version, the length, the object
    id and the offset are 0, the parent, the four accessors and the
    delete callback are null, and so are the buffer reference and the
    ownership flag unless a buffer was asked for; fresh memory is not
    cleared by the allocation, it is the [MEMSET] that clears it. *)
Theorem of_object_new_outcome s bytes :
  (exists s',
     of_object_new bytes s = Ret None s' /\
     (avail s < (if (0 <? bytes)%Z then 3 else 1))%nat /\
     objs s' = objs s /\ wbufs s' = wbufs s /\ blocks s' = blocks s) \/
  (exists p o s',
     of_object_new bytes s = Ret (Some p) s' /\
     (avail s >= (if (0 <? bytes)%Z then 3 else 1))%nat /\
     objs s !! p = None /\
     objs s' = <[p := o]> (objs s) /\
     version o = 0 /\ length o = 0 /\ object_id o = 0 /\ parent o = None /\
     wire_length_get o = None /\ wire_length_set o = None /\
     wire_type_get o = None /\ wire_type_set o = None /\
     delete_cb o = None /\ obj_offset (wire_object o) = 0 /\
     (bytes <= 0 ->
      wbuf (wire_object o) = None /\ owned (wire_object o) = 0 /\
      wbufs s' = wbufs s /\ blocks s' = blocks s) /\
     (0 < bytes ->
      exists w b,
        wbuf (wire_object o) = Some w /\ owned (wire_object o) = 1 /\
        wbufs s !! w = None /\ blocks s !! b = None /\
        wbufs s' = <[w := {| buf := Some b; alloc_bytes := bytes;
                             current_bytes := 0; free := None |}]> (wbufs s) /\
        blocks s' = <[b := replicate (Z.to_nat bytes) 0]> (blocks s))).
Proof.
  destruct (of_object_new_run s bytes) as (Hnone & Hplain & Hbuf).
  destruct (0 <? bytes) eqn:Hb.
  - apply Z.ltb_lt in Hb. destruct (avail s) as [|[|[|n]]] eqn:Hav.
    1-3: left; eexists; split; [apply Hnone; lia|];
         split; [lia|]; repeat split; reflexivity.
    right. eexists _, _, _. split; [apply (Hbuf n Hb eq_refl)|].
    split; [lia|]. split; [apply fresh_lookup_None|].
    split; [reflexivity|]. repeat (split; [reflexivity|]).
    split; [intros; lia|]. intros _. eexists _, _.
    repeat (split; [reflexivity|]).
    split; [apply fresh_lookup_None|]. split; [apply fresh_lookup_None|].
    split; reflexivity.
  - apply Z.ltb_ge in Hb. destruct (avail s) as [|n] eqn:Hav.
    + left. eexists. split; [apply Hnone; lia|].
      split; [lia|]. repeat split; reflexivity.
    + right. eexists _, _, _. split; [apply (Hplain n Hb eq_refl)|].
      split; [lia|]. split; [apply fresh_lookup_None|].
      split; [reflexivity|]. repeat (split; [reflexivity|]).
      split; [intros _; repeat split; reflexivity|]. intros; lia.
Qed.

(** X2. Deleting what [of_object_new] returned restores the store: the
    object struct and, for an object created with a buffer, the wire
    buffer struct and its bytes are freed, and nothing else is.  Deleting
    [NULL] does nothing. *)
Theorem new_then_delete_restores `{Externals} s bytes p s1 :
  of_object_new bytes s = Ret (Some p) s1 ->
  of_object_delete None s1 = Ret tt s1 /\
  exists s2,
    of_object_delete (Some p) s1 = Ret tt s2 /\
    objs s2 = objs s /\ wbufs s2 = wbufs s /\ blocks s2 = blocks s.
Proof.
  intros Hnew. split; [reflexivity|].
  destruct (of_object_new_run s bytes) as (Hnone & Hplain & Hbuf).
  destruct (Z_lt_le_dec 0 bytes) as [Hb|Hb].
  - destruct (avail s) as [|[|[|n]]] eqn:Hav.
    1-3: rewrite Hnone in Hnew
           by (replace (0 <? bytes) with true
                 by (symmetry; apply Z.ltb_lt; lia); lia);
         discriminate.
    rewrite (Hbuf n Hb eq_refl) in Hnew. injection Hnew as <- <-.
    set (p := fresh (dom (objs s))). set (w := fresh (dom (wbufs s))).
    set (b := fresh (dom (blocks s))).
    set (s1 := {| objs := _; wbufs := _; blocks := _; avail := n |}).
    set (o := set_wire_object zero_object
                {| wbuf := Some w; obj_offset := 0; owned := 1 |}).
    assert (Hp : objs s1 !! p = Some o) by apply lookup_insert_eq.
    unfold of_object_delete.
    rewrite (bind_Ret _ _ _ _ _ (load_obj_Some _ _ _ Hp)).
    change (delete_cb o) with (@None fn_ptr).
    rewrite (bind_Ret _ _ s1 tt s1) by reflexivity.
    rewrite (bind_Ret _ _ _ _ _ (load_obj_Some _ _ _ Hp)).
    change (owned (wire_object o) =? 0) with false. cbv iota.
    change (wbuf (wire_object o)) with (Some w).
    unfold of_wire_buffer_free.
    unfold bind, load_wbuf, FREE_block, FREE_wbuf, FREE_obj. subst s1. simpl.
    repeat (rewrite lookup_insert_eq; simpl).
    eexists. split; [reflexivity|]. simpl.
    repeat split; apply delete_insert_id; apply fresh_lookup_None.
  - destruct (avail s) as [|n] eqn:Hav.
    + rewrite Hnone in Hnew
        by (replace (0 <? bytes) with false
              by (symmetry; apply Z.ltb_ge; lia); lia).
      discriminate.
    + rewrite (Hplain n Hb eq_refl) in Hnew. injection Hnew as <- <-.
      unfold of_object_delete, bind, load_obj, FREE_obj. simpl.
      repeat (rewrite lookup_insert_eq; simpl).
      change (owned (wire_object zero_object) =? 0) with true.
      unfold ret. simpl. repeat (rewrite lookup_insert_eq; simpl).
      eexists. split; [reflexivity|]. simpl.
      repeat split. apply delete_insert_id. apply fresh_lookup_None.
Qed.

Lemma new_then_delete_restores_witness :
  exists p s1 s2,
    of_object_new 16 sample_store = Ret (Some p) s1 /\
    @of_object_delete sample_externals (Some p) s1 = Ret tt s2 /\
    objs s2 = objs sample_store /\ blocks s2 = blocks sample_store.
Proof.
  destruct (of_object_new 16 sample_store) as [[p|] s1|f] eqn:Hnew;
    try (vm_compute in Hnew; discriminate).
  destruct (proj2 (@new_then_delete_restores sample_externals _ _ _ _ Hnew))
    as (s2 & Hdel & Ho & _ & Hb).
  exists p, s1, s2. repeat split; assumption.
Defined.

(** X3. [of_object_dup(src)] returns [NULL] exactly when fewer than the
    three allocations it makes are available, and then it leaves no
    object, wire buffer or block behind: what it had allocated before the
    failure is freed. *)
Theorem dup_failure_leaves_no_trace `{Externals} s src so :
  objs s !! src = Some so ->
  ((avail s < 3)%nat ->
   of_object_dup src s =
     Ret None {| objs := objs s; wbufs := wbufs s; blocks := blocks s;
                 avail := O |}) /\
  (forall s', of_object_dup src s = Ret None s' ->
     (avail s < 3)%nat /\
     objs s' = objs s /\ wbufs s' = wbufs s /\ blocks s' = blocks s).
Proof.
  intros Hsrc.
  assert (Hfail : (avail s < 3)%nat ->
            of_object_dup src s =
              Ret None {| objs := objs s; wbufs := wbufs s; blocks := blocks s;
                          avail := O |}).
  { intros Ha. unfold of_object_dup. destruct (avail s) as [|n] eqn:Hav.
    - unfold bind, MALLOC_obj. rewrite Hav. unfold ret. f_equal.
      apply exhausted_eq. exact Hav.
    - rewrite (bind_Ret _ _ _ _ _ (MALLOC_obj_Some s n Hav)).
      set (p := fresh (dom (objs s))).
      set (s1 := {| objs := <[p := uninitialized_object]> (objs s); wbufs := wbufs s;
                    blocks := blocks s; avail := n |}).
      assert (Hp1 : objs s1 !! p = Some uninitialized_object) by apply lookup_insert_eq.
      rewrite (bind_Ret _ _ _ _ _ (store_obj_Some _ _ _ zero_object Hp1)).
      set (s2 := with_objs s1 _).
      assert (Hsrc2 : objs s2 !! src = Some so).
      { subst s2 s1. simpl.
        rewrite !lookup_insert_ne by (symmetry; apply (lookup_fresh_ne _ _ _ Hsrc)).
        exact Hsrc. }
      rewrite (bind_Ret _ _ _ _ _ (load_obj_Some _ _ _ Hsrc2)).
      rewrite (bind_Ret _ _ _ _ _ (of_wire_buffer_new_None s2 (length so)
                                     ltac:(simpl; lia))).
      unfold bind, FREE_obj. simpl. rewrite lookup_insert_eq.
      unfold ret, with_objs. simpl. rewrite insert_insert_eq.
      rewrite delete_insert_id by apply fresh_lookup_None. reflexivity. }
  split; [exact Hfail|]. intros s' Hrun.
  destruct (lt_dec (avail s) 3) as [Ha|Ha].
  - rewrite (Hfail Ha) in Hrun. injection Hrun as <-.
    split; [exact Ha|]. repeat split; reflexivity.
  - exfalso. destruct (avail s) as [|[|[|n]]] eqn:Hav; try lia.
    unfold of_object_dup in Hrun.
    rewrite (bind_Ret _ _ _ _ _ (MALLOC_obj_Some s _ Hav)) in Hrun.
    set (p := fresh (dom (objs s))) in *.
    set (s1 := {| objs := <[p := uninitialized_object]> (objs s); wbufs := wbufs s;
                  blocks := blocks s; avail := S (S n) |}) in *.
    assert (Hp1 : objs s1 !! p = Some uninitialized_object) by apply lookup_insert_eq.
    rewrite (bind_Ret _ _ _ _ _ (store_obj_Some _ _ _ zero_object Hp1)) in Hrun.
    set (s2 := with_objs s1 _) in *.
    assert (Hsrc2 : objs s2 !! src = Some so).
    { subst s2 s1. simpl.
      rewrite !lookup_insert_ne by (symmetry; apply (lookup_fresh_ne _ _ _ Hsrc)).
      exact Hsrc. }
    rewrite (bind_Ret _ _ _ _ _ (load_obj_Some _ _ _ Hsrc2)) in Hrun.
    rewrite (bind_Ret _ _ _ _ _ (of_wire_buffer_new_Some s2 n (length so) eq_refl))
      in Hrun.
    run_inv Hrun. congruence.
Qed.

Lemma dup_failure_leaves_no_trace_witness :
  @of_object_dup sample_externals 4%positive
    {| objs := objs sample_store; wbufs := wbufs sample_store;
       blocks := blocks sample_store; avail := 2 |}
  = Ret None {| objs := objs sample_store; wbufs := wbufs sample_store;
                blocks := blocks sample_store; avail := O |}.
Proof.
  refine (proj1 (@dup_failure_leaves_no_trace sample_externals
                   {| objs := objs sample_store; wbufs := wbufs sample_store;
                      blocks := blocks sample_store; avail := 2 |}
                   4%positive sample_entry eq_refl) _).
  simpl. lia.
Defined.

Lemma of_wire_buffer_new_bind_run t b bytes buf_free :
  0 < bytes ->
  (avail t = O ->
   of_wire_buffer_new_bind (Some b) bytes buf_free t = Ret None t) /\
  (forall n, avail t = S n ->
   of_wire_buffer_new_bind (Some b) bytes buf_free t =
     Ret (Some (fresh (dom (wbufs t))))
       {| objs := objs t;
          wbufs := <[fresh (dom (wbufs t)) :=
                       {| buf := Some b; alloc_bytes := bytes;
                          current_bytes := bytes; free := buf_free |}]> (wbufs t);
          blocks := blocks t; avail := n |}).
Proof.
  intros Hb. unfold of_wire_buffer_new_bind.
  replace (bytes <=? 0) with false by (symmetry; apply Z.leb_gt; lia).
  unfold bind, MALLOC_wbuf. split.
  - intros ->. reflexivity.
  - intros n ->. unfold store_wbuf. simpl. rewrite lookup_insert_eq.
    unfold ret, with_wbufs. simpl. rewrite insert_insert_eq. reflexivity.
Qed.

(** X4. [of_object_buffer_bind(obj, buf, bytes, buf_free)] with a buffer
    and [bytes > 0].  When the wire-buffer struct cannot be allocated it
    returns [OF_ERROR_RESOURCE] and the object is left unbound, its former
    wire state being lost.  Otherwise it returns [OF_ERROR_NONE]: the
    object owns a fresh wire buffer that wraps [buf] without copying it
    ([bytes] allocated, [bytes] in use, [buf_free] as release function),
    sits at offset 0 with length [bytes], and satisfies the length
    invariants; the buffer it was bound to before is neither freed nor
    changed. *)
Theorem buffer_bind_binds s obj o b bytes buf_free :
  objs s !! obj = Some o -> 0 < bytes ->
  (avail s = O ->
   of_object_buffer_bind obj (Some b) bytes buf_free s =
     Ret OF_ERROR_RESOURCE
       (with_objs s (<[obj := set_wire_object o zero_wire_object]> (objs s)))) /\
  (forall n, avail s = S n ->
   exists w s',
     of_object_buffer_bind obj (Some b) bytes buf_free s = Ret OF_ERROR_NONE s' /\
     wbufs s !! w = None /\
     objs s' = <[obj := set_length
                          (set_wire_object o
                             {| wbuf := Some w; obj_offset := 0; owned := 1 |})
                          bytes]> (objs s) /\
     wbufs s' = <[w := {| buf := Some b; alloc_bytes := bytes;
                          current_bytes := bytes; free := buf_free |}]> (wbufs s) /\
     blocks s' = blocks s /\
     length_check s' obj = true).
Proof.
  intros Ho Hb.
  assert (Hhead : of_object_buffer_bind obj (Some b) bytes buf_free s =
            bind (of_wire_buffer_new_bind (Some b) bytes buf_free)
              (fun w =>
                 match w with
                 | None => ret OF_ERROR_RESOURCE
                 | Some w =>
                   do o <- load_obj obj;
                   do _ <- store_obj obj
                             (set_wire_object o
                                {| wbuf := Some w;
                                   obj_offset := obj_offset (wire_object o);
                                   owned := 1 |});
                   do o <- load_obj obj;
                   do _ <- store_obj obj (set_length o bytes);
                   ret OF_ERROR_NONE
                 end)
              (with_objs s (<[obj := set_wire_object o zero_wire_object]> (objs s)))).
  { unfold of_object_buffer_bind.
    rewrite (bind_Ret _ _ s tt s) by reflexivity.
    unfold LOCI_ASSERT.
    replace (0 <? bytes) with true by (symmetry; apply Z.ltb_lt; lia).
    rewrite (bind_Ret _ _ s tt s) by reflexivity.
    rewrite (bind_Ret _ _ _ _ _ (load_obj_Some _ _ _ Ho)).
    rewrite (bind_Ret _ _ _ _ _ (store_obj_Some _ _ _ _ Ho)). reflexivity. }
  rewrite Hhead. clear Hhead.
  set (s0 := with_objs s _).
  destruct (of_wire_buffer_new_bind_run s0 b bytes buf_free Hb) as [Hnone Hsome].
  split.
  - intros Hav. rewrite (bind_Ret _ _ _ _ _ (Hnone Hav)). reflexivity.
  - intros n Hav. exists (fresh (dom (wbufs s))).
    rewrite (bind_Ret _ _ _ _ _ (Hsome n Hav)).
    unfold bind, load_obj, store_obj. subst s0. simpl.
    repeat (rewrite lookup_insert_eq; simpl).
    eexists. split; [reflexivity|]. simpl.
    split; [apply fresh_lookup_None|].
    split; [rewrite !insert_insert_eq; reflexivity|].
    split; [reflexivity|]. split; [reflexivity|].
    unfold length_check, buffer_of. simpl.
    repeat (rewrite lookup_insert_eq; simpl).
    rewrite Z.leb_refl, Z.eqb_refl. destruct (parent o); reflexivity.
Qed.

Lemma buffer_bind_binds_witness :
  exists w s',
    of_object_buffer_bind 3%positive (Some 1%positive) 64 None sample_store
    = Ret OF_ERROR_NONE s' /\
    wbufs s' !! w = Some {| buf := Some 1%positive; alloc_bytes := 64;
                            current_bytes := 64; free := None |} /\
    length_check s' 3%positive = true.
Proof.
  destruct (proj2 (buffer_bind_binds sample_store 3%positive sample_element
                     1%positive 64 None eq_refl ltac:(lia)) 7%nat eq_refl)
    as (w & s' & Hrun & _ & _ & Hw & _ & Hchk).
  exists w, s'. split; [exact Hrun|]. split; [|exact Hchk].
  rewrite Hw. apply lookup_insert_eq.
Defined.

(** ** Length propagation, whatever the lengths *)

Lemma object_block_inv obj s b s' : object_block obj s = Ret b s' -> s' = s.
Proof. unfold object_block. intros H. run_inv H. reflexivity. Qed.

Lemma call_wire_length_set_inv `{Externals} f obj len s u s' :
  call_wire_length_set f obj len s = Ret u s' ->
  objs s' = objs s /\ wbufs s' = wbufs s /\ avail s' = avail s /\
  forall b, is_Some (blocks s' !! b) <-> is_Some (blocks s !! b).
Proof.
  unfold call_wire_length_set. intros Hrun.
  apply bind_inv in Hrun as (o & s1 & Ho & Hrun).
  apply load_obj_inv in Ho as [_ ->].
  apply bind_inv in Hrun as (b0 & s1 & Hb & Hrun).
  apply object_block_inv in Hb as ->.
  apply bind_inv in Hrun as (bs & s1 & Hbs & Hrun).
  apply load_block_inv in Hbs as [Hbs ->].
  apply store_block_inv in Hrun as [_ ->]. simpl.
  split; [reflexivity|]. split; [reflexivity|]. split; [reflexivity|].
  intros b. destruct (decide (b0 = b)) as [->|Hne].
  - rewrite lookup_insert_eq, Hbs. split; eauto.
  - rewrite lookup_insert_ne by done. tauto.
Qed.

(** A run of the loop that returns has walked a chain that ends at the
    root within the iterations left, and has changed nothing but lengths
    of objects of that chain and the content of existing blocks. *)
Lemma parent_length_update_loop_returns `{Externals} fuel :
  forall obj delta count s u s',
    0 <= count ->
    parent_length_update_loop fuel obj delta count s = Ret u s' ->
    exists l,
      ancestors (Z.to_nat (_MAX_PARENT_ITERATIONS - count)) s obj = Some l /\
      wbufs s' = wbufs s /\ avail s' = avail s /\
      (forall q, q ∉ l -> objs s' !! q = objs s !! q) /\
      (forall q, (fun o => set_length o 0) <$> objs s' !! q
                 = (fun o => set_length o 0) <$> objs s !! q) /\
      (forall b, is_Some (blocks s' !! b) <-> is_Some (blocks s !! b)).
Proof.
  induction fuel as [|fuel IH]; intros obj delta count s u s' Hc Hrun.
  - destruct obj as [p|]; [discriminate|].
    apply ret_inv in Hrun as [_ ->]. exists [].
    split; [destruct (Z.to_nat _); reflexivity|]. repeat split; tauto.
  - destruct obj as [p|].
    2:{ apply ret_inv in Hrun as [_ ->]. exists [].
        split; [destruct (Z.to_nat _); reflexivity|]. repeat split; tauto. }
    cbn [parent_length_update_loop] in Hrun.
    apply bind_inv in Hrun as (u0 & s0 & Hlt & Hrun).
    apply LOCI_ASSERT_inv in Hlt as [Hlt ->]. apply Z.ltb_lt in Hlt.
    apply bind_inv in Hrun as (o & s0 & Ho & Hrun).
    apply load_obj_inv in Ho as [Ho ->].
    apply bind_inv in Hrun as (u1 & s0 & Hst & Hrun).
    apply store_obj_inv in Hst as [_ ->].
    set (o1 := set_length o (int_add (length o) delta)) in *.
    set (s0 := with_objs s (<[p := o1]> (objs s))) in *.
    apply bind_inv in Hrun as (o1' & s1 & Ho1 & Hrun).
    apply load_obj_inv in Ho1 as [Ho1 ->].
    assert (o1' = o1) as ->.
    { subst s0. simpl in Ho1. rewrite lookup_insert_eq in Ho1. congruence. }
    apply bind_inv in Hrun as (u2 & s1 & Hwr & Hrun).
    assert (Hs1 : objs s1 = objs s0 /\ wbufs s1 = wbufs s /\ avail s1 = avail s
                  /\ forall b, is_Some (blocks s1 !! b) <-> is_Some (blocks s !! b)).
    { destruct (wire_length_set o1) as [f|].
      - apply call_wire_length_set_inv in Hwr as (? & ? & ? & ?). auto.
      - apply ret_inv in Hwr as [_ ->]. repeat split; tauto. }
    destruct Hs1 as (Hobj1 & Hwb1 & Hav1 & Hblk1).
    apply bind_inv in Hrun as (o2 & s2 & Ho2 & Hrun).
    apply load_obj_inv in Ho2 as [Ho2 ->].
    assert (o2 = o1) as ->.
    { rewrite Hobj1 in Ho2. subst s0. simpl in Ho2.
      rewrite lookup_insert_eq in Ho2. congruence. }
    apply bind_inv in Hrun as (w & s2 & Hw & Hrun).
    apply nonnull_inv in Hw as [_ ->].
    apply bind_inv in Hrun as (wb & s2 & Hwb & Hrun).
    apply load_wbuf_inv in Hwb as [_ ->].
    apply bind_inv in Hrun as (u3 & s2 & Ha1 & Hrun).
    apply LOCI_ASSERT_inv in Ha1 as [_ ->].
    apply bind_inv in Hrun as (u4 & s2 & Ha2 & Hrun).
    assert (s2 = s1) as ->.
    { destruct (parent o1).
      - apply ret_inv in Ha2 as [_ ->]. reflexivity.
      - apply LOCI_ASSERT_inv in Ha2 as [_ ->]. reflexivity. }
    change (parent o1) with (parent o) in Hrun.
    assert (Hcnt : int_add count 1 = count + 1).
    { apply int_add_id.
      unfold _MAX_PARENT_ITERATIONS, INT_MIN, INT_MAX in *. lia. }
    rewrite Hcnt in Hrun.
    assert (Hc1 : 0 <= count + 1) by lia.
    destruct (IH _ _ _ _ _ _ Hc1 Hrun)
      as (l & Hanc & Hwb' & Hav' & Hout & Herase & Hblk').
    assert (Hpar : forall q, parent <$> objs s1 !! q = parent <$> objs s !! q).
    { intros q. rewrite Hobj1. subst s0. simpl.
      destruct (decide (q = p)) as [->|Hne].
      - rewrite lookup_insert_eq, Ho. reflexivity.
      - rewrite lookup_insert_ne by done. reflexivity. }
    exists (p :: l). split.
    { replace (Z.to_nat (_MAX_PARENT_ITERATIONS - count))
        with (S (Z.to_nat (_MAX_PARENT_ITERATIONS - (count + 1)))) by lia.
      simpl. rewrite Ho. rewrite <- (ancestors_ext _ s s1 _ Hpar), Hanc.
      reflexivity. }
    split; [congruence|]. split; [congruence|]. split; [|split].
    + intros q Hq. apply not_elem_of_cons in Hq as [Hne Hq].
      rewrite (Hout q Hq), Hobj1. subst s0. simpl.
      apply lookup_insert_ne. congruence.
    + intros q. rewrite Herase, Hobj1. subst s0. simpl.
      destruct (decide (q = p)) as [->|Hne].
      * rewrite lookup_insert_eq, Ho. reflexivity.
      * rewrite lookup_insert_ne by done. reflexivity.
    + intros b. rewrite Hblk'. apply Hblk1.
Qed.

(** X5. [of_object_parent_length_update] returns only when the parent
    chain of the object ends at a root within [_MAX_PARENT_ITERATIONS]
    objects: on a longer chain, a cyclic one included, it never returns
    normally, whatever the lengths and the buffers are. *)
Theorem parent_length_update_depth_bound `{Externals} s obj delta u s' :
  of_object_parent_length_update obj delta s = Ret u s' ->
  exists l, ancestors 4 s obj = Some l /\ (List.length l <= 4)%nat.
Proof.
  intros Hrun.
  destruct (parent_length_update_loop_returns _ _ _ _ _ _ _ (Z.le_refl 0) Hrun)
    as (l & Hanc & _).
  exists l. split; [exact Hanc|]. apply (ancestors_length _ _ _ _ Hanc).
Qed.

Lemma parent_length_update_depth_bound_witness :
  exists l, ancestors 4 sample_grown (Some 2%positive) = Some l
            /\ (List.length l <= 4)%nat.
Proof.
  destruct (@of_object_parent_length_update sample_externals (Some 2%positive)
              12 sample_grown) as [u s'|f] eqn:Hrun;
    [|vm_compute in Hrun; discriminate].
  exact (@parent_length_update_depth_bound sample_externals _ _ _ _ _ Hrun).
Defined.

(** X6. Whenever [of_object_parent_length_update] returns, it has changed
    nothing but the [length] field of objects of the chain and the content
    of existing blocks: every other field of every object (parent, wire
    object, accessors) is as before, objects outside the chain are
    untouched, the wire buffers (their allocated size and bytes in use
    included) are unchanged, and nothing is allocated or freed. *)
Theorem parent_length_update_frame `{Externals} s obj delta u s' :
  of_object_parent_length_update obj delta s = Ret u s' ->
  wbufs s' = wbufs s /\ avail s' = avail s /\
  (forall q o, objs s !! q = Some o ->
     exists o', objs s' !! q = Some o' /\ set_length o' (length o) = o) /\
  (forall q, objs s !! q = None -> objs s' !! q = None) /\
  (forall l q, ancestors 4 s obj = Some l -> q ∉ l ->
     objs s' !! q = objs s !! q) /\
  (forall b, is_Some (blocks s' !! b) <-> is_Some (blocks s !! b)).
Proof.
  intros Hrun.
  destruct (parent_length_update_loop_returns _ _ _ _ _ _ _ (Z.le_refl 0) Hrun)
    as (l & Hanc & Hwb & Hav & Hout & Herase & Hblk).
  split; [exact Hwb|]. split; [exact Hav|]. split; [|split; [|split]].
  - intros q o Ho. specialize (Herase q). rewrite Ho in Herase.
    destruct (objs s' !! q) as [o'|]; [|discriminate].
    exists o'. split; [reflexivity|]. simpl in Herase.
    injection Herase as Hv Hid Hp Hlg Hls Htg Hts Hw Hd.
    destruct o, o'. simpl in *. subst. reflexivity.
  - intros q Ho. specialize (Herase q). rewrite Ho in Herase.
    destruct (objs s' !! q); [discriminate|reflexivity].
  - intros l' q Hl' Hq. apply Hout.
    change (Z.to_nat (_MAX_PARENT_ITERATIONS - 0)) with 4%nat in Hanc.
    congruence.
  - exact Hblk.
Qed.

Lemma parent_length_update_frame_witness :
  exists s',
    @of_object_parent_length_update sample_externals (Some 2%positive) 12
      sample_grown = Ret tt s' /\
    wbufs s' = wbufs sample_grown /\
    objs s' !! 4%positive = Some sample_entry.
Proof.
  destruct (@of_object_parent_length_update sample_externals (Some 2%positive)
              12 sample_grown) as [[] s'|f] eqn:Hrun;
    [|vm_compute in Hrun; discriminate].
  destruct (@parent_length_update_frame sample_externals _ _ _ _ _ Hrun)
    as (Hwb & _ & _ & _ & Hout & _).
  exists s'. split; [reflexivity|]. split; [exact Hwb|].
  etransitivity;
    [apply (Hout [2%positive; 1%positive] 4%positive eq_refl)|reflexivity].
  intros Hin. apply elem_of_cons in Hin as [Hin|Hin]; [discriminate|].
  apply elem_of_cons in Hin as [Hin|Hin]; [discriminate|]. inversion Hin.
Defined.

(** ** Iterating and appending *)

(** The run of [of_list_next] on a child that is not the last one. *)
Lemma of_list_next_advance s p c po co :
  objs s !! p = Some po -> objs s !! c = Some co ->
  0 < length co ->
  0 <= obj_offset (wire_object po) -> 0 <= length po ->
  obj_offset (wire_object po) + length po <= INT_MAX ->
  0 <= obj_offset (wire_object co) ->
  obj_offset (wire_object co) + length co
  < obj_offset (wire_object po) + length po ->
  of_list_next p c s =
    Ret OF_ERROR_NONE
      (with_objs s
         (<[c := set_wire_object (set_parent co (Some p))
                   {| wbuf := wbuf (wire_object po);
                      obj_offset := obj_offset (wire_object co) + length co;
                      owned := 0 |}]> (objs s))).
Proof.
  intros Hp Hc Hlen Hpo Hpl Hpe Hco Hin.
  unfold of_list_next, of_list_is_last.
  rewrite (bind_Ret _ _ _ _ _ (load_obj_Some _ _ _ Hc)).
  unfold LOCI_ASSERT.
  replace (0 <? length co) with true by (symmetry; apply Z.ltb_lt; lia).
  rewrite (bind_Ret _ _ s tt s) by reflexivity.
  rewrite (bind_Ret _ _ s false s).
  2:{ rewrite (bind_Ret _ _ _ _ _ (load_obj_Some _ _ _ Hc)).
      rewrite (bind_Ret _ _ _ _ _ (load_obj_Some _ _ _ Hp)).
      unfold ret. f_equal.
      rewrite !int_add_id by (unfold INT_MIN, INT_MAX in *; lia).
      apply Z.leb_gt. lia. }
  rewrite (bind_Ret _ _ _ _ _ (load_obj_Some _ _ _ Hc)).
  rewrite (bind_Ret _ _ _ _ _ (load_obj_Some _ _ _ Hp)).
  erewrite bind_Ret
    by (apply (object_child_attach_read s p c po co _ 0 Hp Hc); lia).
  unfold ret.
  rewrite int_sub_id by (unfold INT_MIN, INT_MAX in *; lia).
  rewrite (int_add_id (_ - _)) by (unfold INT_MIN, INT_MAX in *; lia).
  rewrite int_add_id by (unfold INT_MIN, INT_MAX in *; lia).
  replace (obj_offset (wire_object po)
           + (obj_offset (wire_object co) - obj_offset (wire_object po)
              + length co))
    with (obj_offset (wire_object co) + length co) by lia.
  reflexivity.
Qed.

(** X7. A successful [of_list_next(parent, child)] moves the child
    strictly forward and never to or past the end of the list: the new
    offset is the old one plus the old length and lies before
    [parent.obj_offset + parent.length].  The child keeps the length of
    the element it left, the parent and all wire data are untouched.
    (Offsets and lengths are non-negative [int]s with no overflow,
    [child.length > 0].) *)
Theorem list_next_stays_in_list s p c po co s' :
  objs s !! p = Some po -> objs s !! c = Some co ->
  0 < length co ->
  0 <= obj_offset (wire_object po) -> 0 <= length po ->
  obj_offset (wire_object po) + length po <= INT_MAX ->
  0 <= obj_offset (wire_object co) ->
  obj_offset (wire_object co) + length co <= INT_MAX ->
  of_list_next p c s = Ret OF_ERROR_NONE s' ->
  exists co',
    objs s' !! c = Some co' /\
    obj_offset (wire_object co') = obj_offset (wire_object co) + length co /\
    obj_offset (wire_object co) < obj_offset (wire_object co')
      < obj_offset (wire_object po) + length po /\
    length co' = length co /\
    objs s' !! p = Some po /\
    wbufs s' = wbufs s /\ blocks s' = blocks s.
Proof.
  intros Hp Hc Hlen Hpo Hpl Hpe Hco Hce Hrun.
  destruct (Z_lt_ge_dec (obj_offset (wire_object co) + length co)
              (obj_offset (wire_object po) + length po)) as [Hin|Hlast].
  - rewrite (of_list_next_advance s p c po co Hp Hc Hlen Hpo Hpl Hpe Hco Hin)
      in Hrun.
    injection Hrun as <-. eexists. simpl.
    split; [apply lookup_insert_eq|]. simpl.
    split; [reflexivity|]. split; [lia|]. split; [reflexivity|].
    split; [|split; reflexivity].
    rewrite lookup_insert_ne; [exact Hp|].
    intros ->. rewrite Hp in Hc. injection Hc as ->. lia.
  - exfalso. unfold of_list_next, of_list_is_last in Hrun.
    rewrite (bind_Ret _ _ _ _ _ (load_obj_Some _ _ _ Hc)) in Hrun.
    unfold LOCI_ASSERT in Hrun.
    replace (0 <? length co) with true in Hrun
      by (symmetry; apply Z.ltb_lt; lia).
    rewrite (bind_Ret _ _ s tt s) in Hrun by reflexivity.
    rewrite (bind_Ret _ _ s true s) in Hrun; [discriminate|].
    rewrite (bind_Ret _ _ _ _ _ (load_obj_Some _ _ _ Hc)).
    rewrite (bind_Ret _ _ _ _ _ (load_obj_Some _ _ _ Hp)).
    unfold ret. f_equal.
    rewrite !int_add_id by (unfold INT_MIN, INT_MAX in *; lia).
    apply Z.leb_le. lia.
Qed.

Lemma list_next_stays_in_list_witness :
  exists s' co',
    of_list_next 1%positive 4%positive
      (with_objs sample_grown
         (<[1%positive := set_length sample_message 28]> (objs sample_grown)))
    = Ret OF_ERROR_NONE s' /\
    objs s' !! 4%positive = Some co' /\
    obj_offset (wire_object co') = 16.
Proof.
  set (s := with_objs sample_grown
              (<[1%positive := set_length sample_message 28]> (objs sample_grown))).
  destruct (of_list_next 1%positive 4%positive s)
    as [[] s'|f] eqn:Hrun; try (vm_compute in Hrun; discriminate).
  destruct (list_next_stays_in_list s 1%positive 4%positive
              (set_length sample_message 28) sample_entry s' eq_refl eq_refl)
    as (co' & Hc & Hoff & _); try (vm_compute; first [reflexivity|discriminate]).
  - exact Hrun.
  - exists s', co'. repeat split; assumption.
Defined.

(** X8. The child of a successful [of_list_append_bind(parent, child)] is
    the last element of the list: [of_list_next(parent, child)] right
    after the append returns [OF_ERROR_RANGE] and changes nothing, and the
    child ends exactly where the grown parent ends.  (A child of positive
    length that is not on the parent's chain, room in the buffer, no
    overflow.) *)
Theorem append_bind_child_is_last `{Externals} s p c po co w wb b l s' :
  objs s !! p = Some po -> objs s !! c = Some co ->
  wbuf (wire_object po) = Some w -> wbufs s !! w = Some wb ->
  buf wb = Some b -> is_Some (blocks s !! b) ->
  0 <= obj_offset (wire_object po) -> 0 <= length po -> 0 < length co ->
  obj_offset (wire_object po) + length po + length co <= INT_MAX ->
  obj_offset (wire_object po) + length po + length co <= alloc_bytes wb ->
  ancestors 4 s (Some p) = Some l -> c ∉ l ->
  forallb (fits_int s (length co)) l = true ->
  of_list_append_bind (Some p) (Some c) s = Ret OF_ERROR_NONE s' ->
  of_list_next p c s' = Ret OF_ERROR_RANGE s' /\
  exists po' co',
    objs s' !! p = Some po' /\ objs s' !! c = Some co' /\
    obj_offset (wire_object co') + length co'
    = obj_offset (wire_object po') + length po'.
Proof.
  intros Hp Hc Hw Hwb Hb Hbs Hoff Hpl Hcl Hmax Hcap Hanc Hcl' Hfits Hrun.
  destruct (append_bind_run s p c po co w wb b l Hp Hc Hw Hwb Hb Hbs
              Hoff Hpl ltac:(lia) Hmax Hcap Hanc Hcl' Hfits) as [Hok Hbad].
  set (t := propagate_length_delta l (length co)
              (persist_tags (attach_child s p c (length po) (length co)) c))
    in *.
  assert (s' = t) as ->.
  { destruct (chain_checks t l && OF_LENGTH_CHECK t p).
    - rewrite (Hok eq_refl) in Hrun. injection Hrun as <-. reflexivity.
    - destruct (Hbad eq_refl) as [f Hf]. rewrite Hf in Hrun. discriminate. }
  destruct (attach_child_append s p c po co w wb Hp Hc Hw Hwb)
    as (Hobjs1 & _ & _).
  pose proof (ancestors_NoDup _ _ _ _ Hanc) as Hnd.
  assert (Hpl' : p ∈ l).
  { apply ancestors_Some in Hanc as (? & ? & ? & _ & _ & _ & ->).
    apply list_elem_of_here. }
  assert (Hct : objs t !! c
                = Some (set_wire_object (set_parent co (Some p))
                          {| wbuf := Some w;
                             obj_offset := obj_offset (wire_object po) + length po;
                             owned := 0 |})).
  { subst t. rewrite propagate_objs_notin by exact Hcl'.
    rewrite persist_tags_objs, Hobjs1. apply lookup_insert_eq. }
  assert (Hpt : objs t !! p = Some (set_length po (length po + length co))).
  { subst t. apply propagate_objs_in; [exact Hnd|exact Hpl'|].
    rewrite persist_tags_objs, Hobjs1. rewrite lookup_insert_ne; [exact Hp|].
    intros ->. contradiction. }
  split.
  - unfold of_list_next, of_list_is_last.
    rewrite (bind_Ret _ _ _ _ _ (load_obj_Some _ _ _ Hct)).
    unfold LOCI_ASSERT. simpl length.
    replace (0 <? length co) with true by (symmetry; apply Z.ltb_lt; lia).
    rewrite (bind_Ret _ _ t tt t) by reflexivity.
    rewrite (bind_Ret _ _ t true t); [reflexivity|].
    rewrite (bind_Ret _ _ _ _ _ (load_obj_Some _ _ _ Hct)).
    rewrite (bind_Ret _ _ _ _ _ (load_obj_Some _ _ _ Hpt)).
    unfold ret. f_equal. simpl.
    rewrite !int_add_id by (unfold INT_MIN, INT_MAX in *; lia).
    apply Z.leb_le. lia.
  - eexists _, _. split; [exact Hpt|]. split; [exact Hct|]. simpl. lia.
Qed.

Lemma append_bind_child_is_last_witness :
  exists s',
    @of_list_append_bind sample_externals (Some 2%positive) (Some 3%positive)
      sample_store = Ret OF_ERROR_NONE s' /\
    of_list_next 2%positive 3%positive s' = Ret OF_ERROR_RANGE s'.
Proof.
  destruct (@of_list_append_bind sample_externals (Some 2%positive)
              (Some 3%positive) sample_store) as [[] s'|f] eqn:Hrun;
    try (vm_compute in Hrun; discriminate).
  assert (Hnotin : 3%positive ∉ [2%positive; 1%positive]).
  { intros Hin. apply elem_of_cons in Hin as [Hin|Hin]; [discriminate|].
    apply elem_of_cons in Hin as [Hin|Hin]; [discriminate|]. inversion Hin. }
  exists s'. split; [reflexivity|].
  refine (proj1 (@append_bind_child_is_last sample_externals sample_store
                   2%positive 3%positive sample_list sample_element 1%positive
                   {| buf := Some 1%positive; alloc_bytes := 64;
                      current_bytes := 16; free := None |}
                   1%positive [2%positive; 1%positive] s'
                   eq_refl eq_refl eq_refl eq_refl eq_refl _ _ _ _ _ _
                   eq_refl Hnotin eq_refl Hrun));
    vm_compute; first [discriminate | reflexivity | eauto].
Defined.




(** X9. [of_list_append] on a list whose buffer has no room for the item
    (the list's absolute end plus the item's length exceeds
    [alloc_bytes]) returns [OF_ERROR_RESOURCE] and leaves the store as it
    was: nothing is grown, copied or propagated. *)
Theorem list_append_no_room `{Externals} s lst item lo io w wb :
  objs s !! lst = Some lo -> objs s !! item = Some io ->
  wbuf (wire_object lo) = Some w -> wbufs s !! w = Some wb ->
  0 <= obj_offset (wire_object lo) -> 0 <= length lo -> 0 <= length io ->
  obj_offset (wire_object lo) + length lo + length io <= INT_MAX ->
  alloc_bytes wb < obj_offset (wire_object lo) + length lo + length io ->
  of_list_append lst item s = Ret OF_ERROR_RESOURCE s.
Proof.
  intros Hl Hi Hw Hwb Hoff Hll Hil Hmax Hcap.
  unfold of_list_append.
  rewrite (bind_Ret _ _ _ _ _ (load_obj_Some _ _ _ Hl)).
  rewrite (bind_Ret _ _ _ _ _ (load_obj_Some _ _ _ Hi)).
  rewrite (int_add_id (length lo)) by (unfold INT_MIN, INT_MAX in *; lia).
  rewrite (bind_Ret _ _ s false s).
  2:{ unfold of_object_can_grow.
      rewrite (bind_Ret _ _ _ _ _ (load_obj_Some _ _ _ Hl)). rewrite Hw.
      rewrite (bind_Ret _ _ s w s) by reflexivity.
      rewrite (bind_Ret _ _ _ _ _ (load_wbuf_Some _ _ _ Hwb)).
      unfold ret, OF_OBJECT_ABSOLUTE_OFFSET. f_equal.
      rewrite int_add_id by (unfold INT_MIN, INT_MAX in *; lia).
      apply Z.leb_gt. lia. }
  reflexivity.
Qed.

Lemma list_append_no_room_witness :
  @of_list_append sample_externals 2%positive 3%positive
    (with_wbufs sample_store
       (<[1%positive := {| buf := Some 1%positive; alloc_bytes := 24;
                           current_bytes := 16; free := None |}]> ∅))
  = Ret OF_ERROR_RESOURCE
      (with_wbufs sample_store
         (<[1%positive := {| buf := Some 1%positive; alloc_bytes := 24;
                             current_bytes := 16; free := None |}]> ∅)).
Proof.
  apply (@list_append_no_room sample_externals _ 2%positive 3%positive
           sample_list sample_element 1%positive
           {| buf := Some 1%positive; alloc_bytes := 24;
              current_bytes := 16; free := None |});
    try reflexivity; vm_compute; first [reflexivity | discriminate].
Defined.



(** ** The transaction id, byte by byte *)

Lemma write_bytes_lookup_outside off d (bs : list Z) (i : nat) :
  (off + List.length d <= List.length bs)%nat ->
  (i < off \/ off + List.length d <= i)%nat ->
  write_bytes off d bs !! i = bs !! i.
Proof.
  intros Hle Hi. unfold write_bytes.
  assert (Htl : List.length (take off bs) = off) by (rewrite length_take; lia).
  destruct Hi as [Hi|Hi].
  - rewrite lookup_app_l by lia. apply lookup_take_lt. exact Hi.
  - rewrite lookup_app_r by lia. rewrite lookup_app_r by lia.
    rewrite lookup_drop. f_equal. lia.
Qed.

(** The run of [of_object_xid_set] on an object whose xid field lies in
    the bytes in use of its buffer. *)
Lemma of_object_xid_set_run `{Externals} s obj o w wb b bs v :
  objs s !! obj = Some o ->
  wbuf (wire_object o) = Some w -> wbufs s !! w = Some wb ->
  buf wb = Some b -> blocks s !! b = Some bs ->
  0 <= obj_offset (wire_object o) + OF_MESSAGE_XID_OFFSET ->
  obj_offset (wire_object o) + OF_MESSAGE_XID_OFFSET + 4 <= current_bytes wb ->
  current_bytes wb <= Z.of_nat (List.length bs) ->
  current_bytes wb <= INT_MAX ->
  of_object_xid_set obj v s
  = Ret OF_ERROR_NONE
      (with_blocks s
         (<[b := write_bytes
                   (Z.to_nat (obj_offset (wire_object o) + OF_MESSAGE_XID_OFFSET))
                   (u32_to_bytes (u32_wrap v)) bs]> (blocks s))).
Proof.
  intros Ho Hw Hwb Hb Hbs Hlo Hhi Hlen Hmax.
  set (off := obj_offset (wire_object o) + OF_MESSAGE_XID_OFFSET) in *.
  assert (Habs : OF_OBJECT_ABSOLUTE_OFFSET o OF_MESSAGE_XID_OFFSET = off).
  { unfold OF_OBJECT_ABSOLUTE_OFFSET. apply int_add_id.
    unfold INT_MIN. fold off. lia. }
  assert (Hin : u32_in_bounds wb off = true).
  { unfold u32_in_bounds. apply andb_true_intro. split; apply Z.leb_le; lia. }
  unfold of_object_xid_set.
  rewrite (bind_Ret _ _ _ _ _ (load_obj_Some _ _ _ Ho)).
  unfold OF_OBJECT_TO_WBUF. rewrite Hw, Habs.
  erewrite bind_Ret; [reflexivity|].
  unfold of_wire_buffer_u32_set.
  rewrite (bind_Ret _ _ _ _ _ (load_wbuf_Some _ _ _ Hwb)).
  rewrite Hin, Hb.
  rewrite (bind_Ret _ _ s b s) by reflexivity.
  rewrite (bind_Ret _ _ _ _ _ (load_block_Some _ _ _ Hbs)).
  replace (off + 4 <=? Z.of_nat (List.length bs)) with true
    by (symmetry; apply Z.leb_le; lia).
  rewrite (bind_Ret _ _ _ _ _ (store_block_Some _ _ _ _ Hbs)).
  reflexivity.
Qed.

(** The run of [of_object_xid_get] on an object whose xid field lies in
    the bytes in use of its buffer. *)
Lemma of_object_xid_get_run `{Externals} s obj o w wb b bs xid0 :
  objs s !! obj = Some o ->
  wbuf (wire_object o) = Some w -> wbufs s !! w = Some wb ->
  buf wb = Some b -> blocks s !! b = Some bs ->
  0 <= obj_offset (wire_object o) + OF_MESSAGE_XID_OFFSET ->
  obj_offset (wire_object o) + OF_MESSAGE_XID_OFFSET + 4 <= current_bytes wb ->
  current_bytes wb <= Z.of_nat (List.length bs) ->
  current_bytes wb <= INT_MAX ->
  of_object_xid_get obj xid0 s
  = Ret (OF_ERROR_NONE,
         u32_of_bytes
           (read_bytes
              (Z.to_nat (obj_offset (wire_object o) + OF_MESSAGE_XID_OFFSET))
              4 bs)) s.
Proof.
  intros Ho Hw Hwb Hb Hbs Hlo Hhi Hlen Hmax.
  set (off := obj_offset (wire_object o) + OF_MESSAGE_XID_OFFSET) in *.
  assert (Habs : OF_OBJECT_ABSOLUTE_OFFSET o OF_MESSAGE_XID_OFFSET = off).
  { unfold OF_OBJECT_ABSOLUTE_OFFSET. apply int_add_id.
    unfold INT_MIN. fold off. lia. }
  assert (Hin : u32_in_bounds wb off = true).
  { unfold u32_in_bounds. apply andb_true_intro. split; apply Z.leb_le; lia. }
  unfold of_object_xid_get.
  rewrite (bind_Ret _ _ _ _ _ (load_obj_Some _ _ _ Ho)).
  unfold OF_OBJECT_TO_WBUF. rewrite Hw, Habs.
  rewrite (bind_Ret _ _ s
             (OF_ERROR_NONE, u32_of_bytes (read_bytes (Z.to_nat off) 4 bs)) s);
    [reflexivity|].
  unfold of_wire_buffer_u32_get.
  rewrite (bind_Ret _ _ _ _ _ (load_wbuf_Some _ _ _ Hwb)).
  rewrite Hin, Hb.
  rewrite (bind_Ret _ _ s b s) by reflexivity.
  rewrite (bind_Ret _ _ _ _ _ (load_block_Some _ _ _ Hbs)).
  replace (off + 4 <=? Z.of_nat (List.length bs)) with true
    by (symmetry; apply Z.leb_le; lia).
  reflexivity.
Qed.

(** X11. [of_object_xid_set] on an object whose xid field lies in the
    bytes in use of its buffer changes four bytes and nothing else: the
    objects, the wire buffers and every other block are as before, the
    block keeps its size, and each byte outside the field keeps its
    value.  A later [of_object_xid_get] through any object bound to the
    same buffer at the same offset, the object itself included, reads the
    value truncated to 32 bits. *)
Theorem xid_set_changes_four_bytes `{Externals} s obj o w wb b bs v :
  objs s !! obj = Some o ->
  wbuf (wire_object o) = Some w -> wbufs s !! w = Some wb ->
  buf wb = Some b -> blocks s !! b = Some bs ->
  0 <= obj_offset (wire_object o) + OF_MESSAGE_XID_OFFSET ->
  obj_offset (wire_object o) + OF_MESSAGE_XID_OFFSET + 4 <= current_bytes wb ->
  current_bytes wb <= Z.of_nat (List.length bs) ->
  current_bytes wb <= INT_MAX ->
  exists s1 bs1,
    of_object_xid_set obj v s = Ret OF_ERROR_NONE s1 /\
    objs s1 = objs s /\ wbufs s1 = wbufs s /\ avail s1 = avail s /\
    blocks s1 !! b = Some bs1 /\
    (forall b0, b0 <> b -> blocks s1 !! b0 = blocks s !! b0) /\
    List.length bs1 = List.length bs /\
    (forall i : nat,
       Z.of_nat i < obj_offset (wire_object o) + OF_MESSAGE_XID_OFFSET \/
       obj_offset (wire_object o) + OF_MESSAGE_XID_OFFSET + 4 <= Z.of_nat i ->
       bs1 !! i = bs !! i) /\
    (forall view vo xid0,
       objs s !! view = Some vo ->
       wbuf (wire_object vo) = Some w ->
       obj_offset (wire_object vo) = obj_offset (wire_object o) ->
       of_object_xid_get view xid0 s1 = Ret (OF_ERROR_NONE, v mod UINT32_MODULUS) s1).
Proof.
  intros Ho Hw Hwb Hb Hbs Hlo Hhi Hlen Hmax.
  set (off := obj_offset (wire_object o) + OF_MESSAGE_XID_OFFSET) in *.
  assert (Hfit : (Z.to_nat off + List.length (u32_to_bytes (u32_wrap v))
                  <= List.length bs)%nat) by (simpl; lia).
  eexists. exists (write_bytes (Z.to_nat off) (u32_to_bytes (u32_wrap v)) bs).
  split; [apply (of_object_xid_set_run s obj o w wb b bs v); assumption|].
  fold off.
  split; [reflexivity|]. split; [reflexivity|]. split; [reflexivity|].
  split; [simpl; apply lookup_insert_eq|].
  split; [intros b0 Hb0; simpl; apply lookup_insert_ne; congruence|].
  split; [apply length_write_bytes; exact Hfit|].
  split.
  { intros i Hi. apply write_bytes_lookup_outside; [exact Hfit|].
    simpl. lia. }
  intros view vo xid0 Hvo Hvw Hvoff.
  erewrite (of_object_xid_get_run _ view vo w wb b _ xid0);
    [|exact Hvo|exact Hvw|exact Hwb|exact Hb|simpl; apply lookup_insert_eq
     |rewrite Hvoff; exact Hlo|rewrite Hvoff; exact Hhi
     |rewrite length_write_bytes by exact Hfit; exact Hlen|exact Hmax].
  rewrite Hvoff. fold off. do 2 f_equal.
  change 4%nat with (List.length (u32_to_bytes (u32_wrap v))).
  rewrite read_write_bytes by exact Hfit.
  apply u32_of_to_bytes. unfold u32_wrap. apply Z.mod_pos_bound.
  unfold UINT32_MODULUS. lia.
Qed.

Lemma xid_set_changes_four_bytes_witness :
  exists s1 bs1,
    @of_object_xid_set sample_externals 1%positive 8030895855 sample_store
    = Ret OF_ERROR_NONE s1 /\
    blocks s1 !! 1%positive = Some bs1 /\
    bs1 !! 3%nat = sample_bytes !! 3%nat /\
    @of_object_xid_get sample_externals 1%positive 0 s1
    = Ret (OF_ERROR_NONE, 3735928559) s1.
Proof.
  destruct (@xid_set_changes_four_bytes sample_externals sample_store
              1%positive sample_message 1%positive
              {| buf := Some 1%positive; alloc_bytes := 64;
                 current_bytes := 16; free := None |}
              1%positive sample_bytes 8030895855
              eq_refl eq_refl eq_refl eq_refl eq_refl
              ltac:(vm_compute; discriminate) ltac:(vm_compute; discriminate)
              ltac:(vm_compute; discriminate) ltac:(vm_compute; discriminate))
    as (s1 & bs1 & Hset & _ & _ & _ & Hblk & _ & _ & Hout & Hget).
  exists s1, bs1. split; [exact Hset|]. split; [exact Hblk|].
  split; [apply Hout; left; vm_compute; reflexivity|].
  exact (Hget 1%positive sample_message 0 eq_refl eq_refl eq_refl).
Defined.

(** ** Initialization from the wire reads the wire *)

Lemma call_wire_length_get_inv `{Externals} g obj s len s' :
  call_wire_length_get g obj s = Ret len s' -> s' = s.
Proof.
  unfold call_wire_length_get. intros Hrun.
  apply bind_inv in Hrun as (o & s1 & Ho & Hrun).
  apply load_obj_inv in Ho as [_ ->].
  apply bind_inv in Hrun as (b & s1 & Hb & Hrun).
  apply object_block_inv in Hb as ->.
  apply bind_inv in Hrun as (bs & s1 & Hbs & Hrun).
  apply load_block_inv in Hbs as [_ ->].
  apply ret_inv in Hrun as [_ ->]. reflexivity.
Qed.

Lemma call_wire_type_get_inv `{Externals} g obj s id s' :
  call_wire_type_get g obj s = Ret id s' -> s' = s.
Proof.
  unfold call_wire_type_get. intros Hrun.
  apply bind_inv in Hrun as (o & s1 & Ho & Hrun).
  apply load_obj_inv in Ho as [_ ->].
  apply bind_inv in Hrun as (b & s1 & Hb & Hrun).
  apply object_block_inv in Hb as ->.
  apply bind_inv in Hrun as (bs & s1 & Hbs & Hrun).
  apply load_block_inv in Hbs as [_ ->].
  apply ret_inv in Hrun as [_ ->]. reflexivity.
Qed.

(** What a returning run of the length phase has done. *)
Lemma wire_init_length_inv `{Externals} obj base max_len s r t :
  wire_init_length obj base max_len s = Ret r t ->
  exists o, objs s !! obj = Some o /\
    ((r = OF_ERROR_PARSE /\ t = s) \/
     (r = OF_ERROR_NONE /\
      exists len,
        t = with_objs s (<[obj := set_length o len]> (objs s)) /\
        (is_Some (wire_length_get o) ->
         0 <= len /\ (0 < max_len -> len <= max_len)) /\
        (wire_length_get o = None ->
         len = of_object_fixed_len (version o) base))).
Proof.
  unfold wire_init_length. intros Hrun.
  apply bind_inv in Hrun as (o & s1 & Ho & Hrun).
  apply load_obj_inv in Ho as [Ho ->].
  exists o. split; [exact Ho|].
  destruct (wire_length_get o) as [g|] eqn:Hg.
  - apply bind_inv in Hrun as (len & s1 & Hlen & Hrun).
    apply call_wire_length_get_inv in Hlen as ->.
    destruct ((len <? 0) || ((0 <? max_len) && (max_len <? len))) eqn:Hchk.
    + apply ret_inv in Hrun as [-> ->]. left. auto.
    + apply bind_inv in Hrun as (o' & s1 & Ho' & Hrun).
      apply load_obj_inv in Ho' as [Ho' ->].
      apply bind_inv in Hrun as (u & s1 & Hst & Hrun).
      apply store_obj_inv in Hst as [_ ->].
      apply ret_inv in Hrun as [-> ->].
      assert (o' = o) as -> by congruence.
      right. split; [reflexivity|]. exists len. split; [reflexivity|].
      split; [|discriminate]. intros _.
      apply orb_false_iff in Hchk as [Hneg Hmax].
      apply Z.ltb_ge in Hneg. split; [exact Hneg|]. intros Hpos.
      apply andb_false_iff in Hmax as [Hmax|Hmax]; apply Z.ltb_ge in Hmax; lia.
  - apply bind_inv in Hrun as (o' & s1 & Ho' & Hrun).
    apply load_obj_inv in Ho' as [Ho' ->].
    apply bind_inv in Hrun as (u & s1 & Hst & Hrun).
    apply store_obj_inv in Hst as [_ ->].
    apply ret_inv in Hrun as [-> ->].
    assert (o' = o) as -> by congruence.
    right. split; [reflexivity|]. eexists. split; [reflexivity|].
    split; [intros [g Hg']; discriminate|]. intros _. reflexivity.
Qed.

(** X12. A call of [of_object_wire_init] that returns has returned
    [OF_ERROR_NONE] or [OF_ERROR_PARSE] and has written to the object's
    struct only: the wire buffers, the bytes of every block, the
    allocation budget and every other object are as before.  After
    [OF_ERROR_NONE] the object's length is non-negative and, when
    [max_len > 0], at most [max_len] if the object has a length accessor;
    without one it is the fixed length of the family, which is not
    compared with [max_len]. *)
Theorem wire_init_writes_object_only `{Externals} s obj base max_len r t :
  of_object_wire_init obj base max_len s = Ret r t ->
  (r = OF_ERROR_NONE \/ r = OF_ERROR_PARSE) /\
  wbufs t = wbufs s /\ blocks t = blocks s /\ avail t = avail s /\
  (forall q, q <> obj -> objs t !! q = objs s !! q) /\
  (r = OF_ERROR_NONE ->
   exists o', objs t !! obj = Some o' /\
     (is_Some (wire_length_get o') ->
      0 <= length o' /\ (0 < max_len -> length o' <= max_len)) /\
     (wire_length_get o' = None ->
      length o' = of_object_fixed_len (version o') base)).
Proof.
  intros Hrun.
  assert (Hlen : forall s0,
            wire_init_length obj base max_len s0 = Ret r t ->
            (r = OF_ERROR_NONE \/ r = OF_ERROR_PARSE) /\
            wbufs t = wbufs s0 /\ blocks t = blocks s0 /\ avail t = avail s0 /\
            (forall q, q <> obj -> objs t !! q = objs s0 !! q) /\
            (r = OF_ERROR_NONE ->
             exists o', objs t !! obj = Some o' /\
               (is_Some (wire_length_get o') ->
                0 <= length o' /\ (0 < max_len -> length o' <= max_len)) /\
               (wire_length_get o' = None ->
                length o' = of_object_fixed_len (version o') base))).
  { intros s0 Hl.
    apply wire_init_length_inv in Hl
      as (o & Ho & [[-> ->]|[-> (len & -> & Hacc & Hfix)]]).
    - split; [right; reflexivity|]. do 3 (split; [reflexivity|]).
      split; [reflexivity|]. discriminate.
    - split; [left; reflexivity|]. do 3 (split; [reflexivity|]).
      split; [intros q Hq; simpl; apply lookup_insert_ne; congruence|].
      intros _. exists (set_length o len).
      split; [simpl; apply lookup_insert_eq|].
      destruct o; simpl in *. split; assumption. }
  unfold of_object_wire_init in Hrun.
  apply bind_inv in Hrun as (o & s1 & Ho & Hrun).
  apply load_obj_inv in Ho as [Ho ->].
  destruct (wire_type_get o) as [f|]; [|exact (Hlen s Hrun)].
  apply bind_inv in Hrun as (id & s1 & Hid & Hrun).
  apply call_wire_type_get_inv in Hid as ->.
  destruct (negb (of_wire_id_valid id base)).
  - apply ret_inv in Hrun as [-> ->].
    split; [right; reflexivity|]. do 3 (split; [reflexivity|]).
    split; [reflexivity|]. discriminate.
  - apply bind_inv in Hrun as (o1 & s1 & Ho1 & Hrun).
    apply load_obj_inv in Ho1 as [_ ->].
    apply bind_inv in Hrun as (u1 & s1 & Hs1 & Hrun).
    apply store_obj_inv in Hs1 as [_ ->].
    apply bind_inv in Hrun as (o2 & s2 & Ho2 & Hrun).
    apply load_obj_inv in Ho2 as [_ ->].
    apply bind_inv in Hrun as (u2 & s2 & Hs2 & Hrun).
    apply store_obj_inv in Hs2 as [_ ->].
    destruct (Hlen _ Hrun) as (Hr & Hwb & Hbl & Hav & Hobj & Hnone).
    split; [exact Hr|]. split; [exact Hwb|]. split; [exact Hbl|].
    split; [exact Hav|]. split; [|exact Hnone].
    intros q Hq. rewrite (Hobj q Hq). simpl.
    rewrite lookup_insert_ne by congruence.
    apply lookup_insert_ne. congruence.
Qed.

Lemma wire_init_writes_object_only_witness :
  exists t o',
    @of_object_wire_init sample_externals 4%positive 30 16 sample_store
    = Ret OF_ERROR_NONE t /\
    blocks t = blocks sample_store /\
    objs t !! 4%positive = Some o' /\ 0 <= length o' <= 16.
Proof.
  destruct (@of_object_wire_init sample_externals 4%positive 30 16 sample_store)
    as [r t|f] eqn:Hrun; [|vm_compute in Hrun; discriminate].
  destruct r; try (vm_compute in Hrun; discriminate).
  destruct (@wire_init_writes_object_only sample_externals sample_store
              4%positive 30 16 OF_ERROR_NONE t Hrun)
    as (_ & _ & Hbl & _ & _ & Hnone).
  destruct (Hnone eq_refl) as (o' & Ho' & Hacc & _).
  exists t, o'. split; [reflexivity|]. split; [exact Hbl|].
  split; [exact Ho'|].
  assert (Hg : is_Some (wire_length_get o')).
  { vm_compute in Hrun. injection Hrun as <-. vm_compute in Ho'.
    injection Ho' as <-. eexists. reflexivity. }
  destruct (Hacc Hg) as [Hlo Hhi]. split; [exact Hlo|].
  apply Hhi. reflexivity.
Defined.

(** ** Objects over received messages *)

(** The run of [of_object_buffer_bind] on a buffer and a positive
    size. *)
Lemma of_object_buffer_bind_run s obj o b bytes buf_free :
  objs s !! obj = Some o -> 0 < bytes ->
  (avail s = O ->
   of_object_buffer_bind obj (Some b) bytes buf_free s =
     Ret OF_ERROR_RESOURCE
       (with_objs s (<[obj := set_wire_object o zero_wire_object]> (objs s)))) /\
  (forall n, avail s = S n ->
   of_object_buffer_bind obj (Some b) bytes buf_free s =
     Ret OF_ERROR_NONE
       {| objs := <[obj := set_length
                             (set_wire_object o
                                {| wbuf := Some (fresh (dom (wbufs s)));
                                   obj_offset := 0; owned := 1 |})
                             bytes]> (objs s);
          wbufs := <[fresh (dom (wbufs s)) :=
                       {| buf := Some b; alloc_bytes := bytes;
                          current_bytes := bytes; free := buf_free |}]> (wbufs s);
          blocks := blocks s; avail := n |}).
Proof.
  intros Ho Hb.
  assert (Hhead : of_object_buffer_bind obj (Some b) bytes buf_free s =
            bind (of_wire_buffer_new_bind (Some b) bytes buf_free)
              (fun w =>
                 match w with
                 | None => ret OF_ERROR_RESOURCE
                 | Some w =>
                   do o <- load_obj obj;
                   do _ <- store_obj obj
                             (set_wire_object o
                                {| wbuf := Some w;
                                   obj_offset := obj_offset (wire_object o);
                                   owned := 1 |});
                   do o <- load_obj obj;
                   do _ <- store_obj obj (set_length o bytes);
                   ret OF_ERROR_NONE
                 end)
              (with_objs s (<[obj := set_wire_object o zero_wire_object]> (objs s)))).
  { unfold of_object_buffer_bind.
    rewrite (bind_Ret _ _ s tt s) by reflexivity.
    unfold LOCI_ASSERT.
    replace (0 <? bytes) with true by (symmetry; apply Z.ltb_lt; lia).
    rewrite (bind_Ret _ _ s tt s) by reflexivity.
    rewrite (bind_Ret _ _ _ _ _ (load_obj_Some _ _ _ Ho)).
    rewrite (bind_Ret _ _ _ _ _ (store_obj_Some _ _ _ _ Ho)). reflexivity. }
  rewrite Hhead. clear Hhead.
  set (s0 := with_objs s _).
  destruct (of_wire_buffer_new_bind_run s0 b bytes buf_free Hb) as [Hnone Hsome].
  split.
  - intros Hav. rewrite (bind_Ret _ _ _ _ _ (Hnone Hav)). reflexivity.
  - intros n Hav. rewrite (bind_Ret _ _ _ _ _ (Hsome n Hav)).
    unfold bind, load_obj, store_obj. subst s0. simpl.
    repeat (rewrite lookup_insert_eq; simpl).
    unfold ret, with_objs. simpl. rewrite !insert_insert_eq. reflexivity.
Qed.

Lemma call_header_wire_object_id_get_Some `{MessageExternals} s obj o b bs :
  objs s !! obj = Some o -> block_of s o = Some b -> blocks s !! b = Some bs ->
  call_header_wire_object_id_get obj s
  = Ret (of_header_wire_object_id_get o bs) s.
Proof.
  intros Ho Hb Hbs. unfold call_header_wire_object_id_get.
  rewrite (bind_Ret _ _ _ _ _ (load_obj_Some _ _ _ Ho)).
  rewrite (bind_Ret _ _ _ _ _ (object_block_Some _ _ _ _ Ho Hb)).
  rewrite (bind_Ret _ _ _ _ _ (load_block_Some _ _ _ Hbs)).
  reflexivity.
Qed.

(** X13. [of_object_new_from_message] on a message whose version is not
    known, or that the validator rejects, returns [NULL] before it
    allocates anything: the store is as it was, and the message buffer is
    neither wrapped nor released. *)
Theorem new_from_message_rejects `{Externals} `{MessageExternals} s m bs len :
  blocks s !! m = Some bs ->
  OF_VERSION_OKAY (of_message_version_get bs) = false
  \/ of_validate_message bs len <> 0 ->
  of_object_new_from_message (Some m) len s = Ret None s.
Proof.
  intros Hbs Hbad. unfold of_object_new_from_message.
  rewrite (bind_Ret _ _ s m s) by reflexivity.
  rewrite (bind_Ret _ _ _ _ _ (load_block_Some _ _ _ Hbs)).
  destruct (OF_VERSION_OKAY (of_message_version_get bs)) eqn:Hv;
    [|reflexivity].
  destruct Hbad as [Hbad|Hbad]; [discriminate|].
  change (negb true) with false. cbv iota.
  replace (of_validate_message bs len =? 0) with false
    by (symmetry; apply Z.eqb_neq; exact Hbad).
  reflexivity.
Qed.

Lemma new_from_message_rejects_witness :
  @of_object_new_from_message sample_externals sample_message_externals
    (Some 1%positive) 20 sample_store = Ret None sample_store.
Proof.
  apply (@new_from_message_rejects sample_externals sample_message_externals
           sample_store 1%positive sample_bytes 20 eq_refl).
  right. vm_compute. discriminate.
Defined.

(** X14. [of_object_new_from_message] on a message of a known version
    that the validator accepts, with [len > 0].  With fewer than the two
    allocations it needs it returns [NULL] and leaks nothing: objects,
    wire buffers and blocks are as before, and the message is not
    released.  Otherwise it returns a fresh object over a fresh wire
    buffer that wraps the message itself, without a copy: no block is
    added or changed, the buffer has [len] bytes allocated and in use and
    [OF_MESSAGE_FREE_FUNCTION] as release function, and the object is
    the result of the type initializer, for the id read from the
    header, on an owning object at offset 0 of length [len] with the
    message's version. *)
Theorem new_from_message_wraps `{Externals} `{MessageExternals} s m bs len :
  blocks s !! m = Some bs ->
  OF_VERSION_OKAY (of_message_version_get bs) = true ->
  of_validate_message bs len = 0 ->
  0 < len ->
  ((avail s < 2)%nat ->
   of_object_new_from_message (Some m) len s =
     Ret None {| objs := objs s; wbufs := wbufs s; blocks := blocks s;
                 avail := O |}) /\
  (forall n, avail s = S (S n) ->
   exists p w,
     objs s !! p = None /\ wbufs s !! w = None /\
     let bound :=
       {| version := of_message_version_get bs; length := len;
          object_id := object_id zero_object; parent := None;
          wire_length_get := None; wire_length_set := None;
          wire_type_get := None; wire_type_set := None;
          wire_object := {| wbuf := Some w; obj_offset := 0; owned := 1 |};
          delete_cb := None |} in
     of_object_new_from_message (Some m) len s =
       Ret (Some p)
         {| objs :=
              <[p := of_object_init_map (of_header_wire_object_id_get bound bs)
                       bound (of_message_version_get bs) len 0]> (objs s);
            wbufs := <[w := {| buf := Some m; alloc_bytes := len;
                               current_bytes := len;
                               free := OF_MESSAGE_FREE_FUNCTION |}]> (wbufs s);
            blocks := blocks s; avail := n |}).
Proof.
  intros Hbs Hv Hvalid Hlen.
  assert (Hhead : of_object_new_from_message (Some m) len s =
            bind (of_object_new (-1))
              (fun obj =>
                 match obj with
                 | None => ret None
                 | Some obj =>
                   do r <- of_object_buffer_bind obj (Some m) len
                             OF_MESSAGE_FREE_FUNCTION;
                   if of_error_negative r then do _ <- FREE_obj obj; ret None
                   else
                     do o <- load_obj obj;
                     do _ <- store_obj obj
                               (set_version o (of_message_version_get bs));
                     do object_id <- call_header_wire_object_id_get obj;
                     do o <- load_obj obj;
                     do _ <- store_obj obj
                               (of_object_init_map object_id o
                                  (of_message_version_get bs) len 0);
                     ret (Some obj)
                 end) s).
  { unfold of_object_new_from_message.
    rewrite (bind_Ret _ _ s m s) by reflexivity.
    rewrite (bind_Ret _ _ _ _ _ (load_block_Some _ _ _ Hbs)).
    rewrite Hv, Hvalid. reflexivity. }
  rewrite Hhead. clear Hhead.
  destruct (of_object_new_run s (-1)) as (Hnone & Hsome & _).
  change (0 <? -1) with false in Hnone. cbv iota in Hnone.
  split.
  - intros Hav. destruct (avail s) as [|[|n]] eqn:Ha; [| |lia].
    + rewrite (bind_Ret _ _ _ _ _ (Hnone ltac:(lia))). reflexivity.
    + rewrite (bind_Ret _ _ _ _ _ (Hsome O ltac:(lia) eq_refl)).
      set (p := fresh (dom (objs s))).
      set (s1 := {| objs := <[p := zero_object]> (objs s); wbufs := wbufs s;
                    blocks := blocks s; avail := O |}).
      assert (Hp1 : objs s1 !! p = Some zero_object) by apply lookup_insert_eq.
      rewrite (bind_Ret _ _ _ _ _
                 (proj1 (of_object_buffer_bind_run s1 p zero_object m len
                           OF_MESSAGE_FREE_FUNCTION Hp1 Hlen) eq_refl)).
      unfold of_error_negative, bind, FREE_obj. simpl.
      rewrite lookup_insert_eq. unfold ret, with_objs. simpl.
      rewrite insert_insert_eq.
      rewrite delete_insert_id by apply fresh_lookup_None. reflexivity.
  - intros n Ha.
    exists (fresh (dom (objs s))), (fresh (dom (wbufs s))).
    split; [apply fresh_lookup_None|]. split; [apply fresh_lookup_None|].
    cbv zeta.
    rewrite (bind_Ret _ _ _ _ _ (Hsome (S n) ltac:(lia) Ha)).
    set (p := fresh (dom (objs s))).
    set (s1 := {| objs := <[p := zero_object]> (objs s); wbufs := wbufs s;
                  blocks := blocks s; avail := S n |}).
    assert (Hp1 : objs s1 !! p = Some zero_object) by apply lookup_insert_eq.
    rewrite (bind_Ret _ _ _ _ _
               (proj2 (of_object_buffer_bind_run s1 p zero_object m len
                         OF_MESSAGE_FREE_FUNCTION Hp1 Hlen) n eq_refl)).
    unfold of_error_negative.
    set (w := fresh (dom (wbufs s))).
    set (s2 := {| objs := _; wbufs := _; blocks := blocks s1; avail := n |}).
    assert (Hp2 : objs s2 !! p
                  = Some (set_length
                            (set_wire_object zero_object
                               {| wbuf := Some w; obj_offset := 0; owned := 1 |})
                            len)) by apply lookup_insert_eq.
    rewrite (bind_Ret _ _ _ _ _ (load_obj_Some _ _ _ Hp2)).
    rewrite (bind_Ret _ _ _ _ _ (store_obj_Some _ _ _ _ Hp2)).
    set (s3 := with_objs s2 _).
    set (bound := set_version _ _) in *.
    assert (Hp3 : objs s3 !! p = Some bound) by apply lookup_insert_eq.
    assert (Hblk : block_of s3 bound = Some m).
    { unfold block_of, buffer_of. subst s3 s2. simpl.
      rewrite lookup_insert_eq. reflexivity. }
    rewrite (bind_Ret _ _ _ _ _
               (call_header_wire_object_id_get_Some s3 p bound m bs
                  Hp3 Hblk Hbs)).
    rewrite (bind_Ret _ _ _ _ _ (load_obj_Some _ _ _ Hp3)).
    rewrite (bind_Ret _ _ _ _ _ (store_obj_Some _ _ _ _ Hp3)).
    subst s3 s2 s1. unfold ret, with_objs. simpl.
    rewrite !insert_insert_eq. reflexivity.
Qed.

Lemma new_from_message_wraps_witness :
  exists p w s',
    @of_object_new_from_message sample_externals sample_message_externals
      (Some 1%positive) 16 sample_store = Ret (Some p) s' /\
    objs sample_store !! p = None /\
    blocks s' = blocks sample_store /\
    wbufs s' !! w = Some {| buf := Some 1%positive; alloc_bytes := 16;
                            current_bytes := 16; free := Some 7%positive |}.
Proof.
  destruct (proj2 (@new_from_message_wraps sample_externals
                     sample_message_externals sample_store 1%positive
                     sample_bytes 16 eq_refl eq_refl eq_refl ltac:(lia))
              6%nat eq_refl) as (p & w & Hp & _ & Hrun).
  cbv zeta in Hrun.
  exists p, w. eexists. split; [exact Hrun|]. split; [exact Hp|].
  split; [reflexivity|]. simpl. apply lookup_insert_eq.
Defined.

(** X15. [of_object_new_from_message_preallocated] never allocates and
    never copies.  On a message of a known version that the validator
    accepts it returns the caller's object, bound at offset 0 to the
    caller's wire buffer, which wraps the message with [len] bytes
    allocated and in use and no release function; the object is the
    result of the type initializer on a struct that does not own its
    buffer.  On any other message it returns [NULL], the caller's object
    and wire buffer having been cleared.  In both cases every block, the
    allocation budget and every other object and wire buffer are as
    before. *)
Theorem new_from_message_preallocated_outcome `{Externals} `{MessageExternals}
    s so sw m bs len o0 wb0 :
  objs s !! so = Some o0 -> wbufs s !! sw = Some wb0 ->
  blocks s !! m = Some bs ->
  let v := of_message_version_get bs in
  let bound :=
    {| version := v; length := 0; object_id := object_id zero_object;
       parent := None;
       wire_length_get := None; wire_length_set := None;
       wire_type_get := None; wire_type_set := None;
       wire_object := {| wbuf := Some sw; obj_offset := 0; owned := 0 |};
       delete_cb := None |} in
  exists r s',
    of_object_new_from_message_preallocated so sw (Some m) len s = Ret r s' /\
    blocks s' = blocks s /\ avail s' = avail s /\
    (forall q, q <> so -> objs s' !! q = objs s !! q) /\
    (forall q, q <> sw -> wbufs s' !! q = wbufs s !! q) /\
    (OF_VERSION_OKAY v && (of_validate_message bs len =? 0) = true ->
     r = Some so /\
     objs s' !! so
     = Some (of_object_init_map (of_header_wire_object_id_get bound bs)
               bound v len 0) /\
     wbufs s' !! sw
     = Some {| buf := Some m; alloc_bytes := len; current_bytes := len;
               free := None |}) /\
    (OF_VERSION_OKAY v && (of_validate_message bs len =? 0) = false ->
     r = None /\ objs s' !! so = Some zero_object /\
     wbufs s' !! sw = Some zero_wire_buffer).
Proof.
  intros Ho Hw Hbs v bound.
  unfold of_object_new_from_message_preallocated.
  rewrite (bind_Ret _ _ _ _ _ (store_obj_Some _ _ _ _ Ho)).
  set (s1 := with_objs s _).
  assert (Hw1 : wbufs s1 !! sw = Some wb0) by exact Hw.
  rewrite (bind_Ret _ _ _ _ _ (store_wbuf_Some _ _ _ _ Hw1)).
  set (s2 := with_wbufs s1 _).
  rewrite (bind_Ret _ _ s2 m s2) by reflexivity.
  assert (Hbs2 : blocks s2 !! m = Some bs) by exact Hbs.
  rewrite (bind_Ret _ _ _ _ _ (load_block_Some _ _ _ Hbs2)).
  fold v.
  assert (Ho2 : objs s2 !! so = Some zero_object) by apply lookup_insert_eq.
  assert (Hw2 : wbufs s2 !! sw = Some zero_wire_buffer)
    by apply lookup_insert_eq.
  assert (Hobj2 : forall q, q <> so -> objs s2 !! q = objs s !! q).
  { intros q Hq. subst s2 s1. simpl. apply lookup_insert_ne. congruence. }
  assert (Hwb2 : forall q, q <> sw -> wbufs s2 !! q = wbufs s !! q).
  { intros q Hq. subst s2 s1. simpl. apply lookup_insert_ne. congruence. }
  destruct (OF_VERSION_OKAY v) eqn:Hv;
    [change (negb true) with false|change (negb false) with true]; cbv iota.
  2:{ exists None, s2. split; [reflexivity|]. split; [reflexivity|].
      split; [reflexivity|]. split; [exact Hobj2|]. split; [exact Hwb2|].
      split; [discriminate|]. intros _. auto. }
  destruct (of_validate_message bs len =? 0) eqn:Hvalid;
    [change (negb true) with false|change (negb false) with true]; cbv iota.
  2:{ exists None, s2. split; [reflexivity|]. split; [reflexivity|].
      split; [reflexivity|]. split; [exact Hobj2|]. split; [exact Hwb2|].
      split; [discriminate|]. intros _. auto. }
  rewrite (bind_Ret _ _ _ _ _ (load_obj_Some _ _ _ Ho2)).
  rewrite (bind_Ret _ _ _ _ _ (store_obj_Some _ _ _ _ Ho2)).
  set (s3 := with_objs s2 _).
  assert (Ho3 : objs s3 !! so = Some (set_version zero_object v))
    by apply lookup_insert_eq.
  rewrite (bind_Ret _ _ _ _ _ (load_obj_Some _ _ _ Ho3)).
  rewrite (bind_Ret _ _ _ _ _ (store_obj_Some _ _ _ _ Ho3)).
  set (s4 := with_objs s3 _).
  assert (Hw4 : wbufs s4 !! sw = Some zero_wire_buffer) by exact Hw2.
  rewrite (bind_Ret _ _ _ _ _ (load_wbuf_Some _ _ _ Hw4)).
  rewrite (bind_Ret _ _ _ _ _ (store_wbuf_Some _ _ _ _ Hw4)).
  set (s5 := with_wbufs s4 _).
  assert (Ho5 : objs s5 !! so = Some bound) by apply lookup_insert_eq.
  assert (Hblk : block_of s5 bound = Some m).
  { unfold block_of, buffer_of. subst s5. simpl.
    rewrite lookup_insert_eq. reflexivity. }
  assert (Hbs5 : blocks s5 !! m = Some bs) by exact Hbs.
  rewrite (bind_Ret _ _ _ _ _
             (call_header_wire_object_id_get_Some s5 so bound m bs
                Ho5 Hblk Hbs5)).
  rewrite (bind_Ret _ _ _ _ _ (load_obj_Some _ _ _ Ho5)).
  rewrite (bind_Ret _ _ _ _ _ (store_obj_Some _ _ _ _ Ho5)).
  eexists _, _. split; [reflexivity|].
  split; [reflexivity|]. split; [reflexivity|].
  split.
  { intros q Hq. simpl. rewrite !lookup_insert_ne by congruence. reflexivity. }
  split.
  { intros q Hq. simpl. rewrite !lookup_insert_ne by congruence. reflexivity. }
  split; [|discriminate]. intros _.
  split; [reflexivity|].
  split; simpl; apply lookup_insert_eq.
Qed.

Lemma new_from_message_preallocated_outcome_witness :
  exists s',
    @of_object_new_from_message_preallocated sample_externals
      sample_message_externals 3%positive 2%positive (Some 1%positive) 16
      sample_two_buffers = Ret (Some 3%positive) s' /\
    blocks s' = blocks sample_two_buffers /\
    wbufs s' !! 2%positive
    = Some {| buf := Some 1%positive; alloc_bytes := 16; current_bytes := 16;
              free := None |}.
Proof.
  destruct (@new_from_message_preallocated_outcome sample_externals
              sample_message_externals sample_two_buffers 3%positive 2%positive
              1%positive sample_bytes 16 sample_element
              {| buf := Some 2%positive; alloc_bytes := 8; current_bytes := 8;
                 free := None |}
              eq_refl eq_refl eq_refl)
    as (r & s' & Hrun & Hblk & _ & _ & _ & Hok & _).
  destruct (Hok eq_refl) as (-> & _ & Hwb).
  exists s'. split; [exact Hrun|]. split; [exact Hblk|]. exact Hwb.
Defined.
